(** * Reminder App: the reminder/alarm scheduling and delivery core

    A shallow embedding of the scheduling core of [Reminder_App.py] (the
    functions are the same, line for line, in
    [Reminder_App_MultiScreen_Support.py]): the reminder store and its
    persistence ([load_data], [save_data]), the user operations on the store
    ([add_reminder_gui], [show_edit_dialog.save], [delete_reminder]), the
    poller ([check_reminders], [check_snoozed], [monitor_loop]), the snooze
    re-scheduler ([snooze_item]) and the time conversion [get_24hour_time].

    Conventions of the embedding.
    - Python objects held by the store are [value]s: [None], booleans,
      integers, strings, lists and dictionaries with string keys.  These are
      exactly the objects [json.load] can return for a document without
      fractional numbers and the objects the application itself stores.
    - A Python string is the sequence of the bytes of its UTF-8 encoding:
      equality, emptiness and the search for an ASCII separator agree
      with those of the string, and [strip] recognises the white-space
      characters in their encoded form.
    - A method of [ReminderApp] is a computation in the monad [M]: it reads
      and writes the application state and either returns or raises.  State
      changes made before an exception is raised are kept, as in Python.
    - The outside world enters through explicit arguments: the wall clock
      ([datetime.now()], [time.time()]), the widgets' contents (the forms)
      and the behaviour of the alert window (the [Env]). *)

From stdpp Require Import gmap strings list fin_maps.
From Stdlib Require Import ZArith Lia Ascii.
From Stdlib Require String.

Local Open Scope string_scope.
Local Open Scope list_scope.
Local Open Scope Z_scope.

(** ** Python values *)

#[warnings="-register-all"]
Inductive value : Type :=
  | VNone
  | VBool (b : bool)
  | VInt (z : Z)
  | VStr (s : string)
  | VList (l : list value)
  | VDict (d : gmap string value).

Abbreviation dict := (gmap string value).

Inductive exn : Type :=
  | KeyError (key : string)
  | TypeError
  | AttributeError
  | OverflowError
  | JSONDecodeError
  | TclError.

Inductive outcome (A : Type) : Type :=
  | Return (a : A)
  | Raise (e : exn).
Arguments Return {A} a.
Arguments Raise {A} e.

(** [bool(v)]: the truth value of an object in a condition. *)
Definition truthy (v : value) : bool :=
  match v with
  | VNone => false
  | VBool b => b
  | VInt z => negb (z =? 0)
  | VStr s => negb (String.eqb s "")
  | VList l => match l with [] => false | _ :: _ => true end
  | VDict d => negb (bool_decide (d = ∅))
  end.

(** [v == s] for a string [s]: only an equal string compares equal. *)
Definition eq_str (v : value) (s : string) : bool :=
  match v with
  | VStr t => String.eqb t s
  | _ => false
  end.

(** [v == n] for an integer [n]: [True == 1] and [False == 0] hold in
    Python, every object that is not a number differs from [n]. *)
Definition eq_int (v : value) (n : Z) : bool :=
  match v with
  | VInt z => z =? n
  | VBool b => Z.b2z b =? n
  | _ => false
  end.

(** [obj[key]] for a string [key]. *)
Definition getitem (obj : value) (key : string) : outcome value :=
  match obj with
  | VDict d => match d !! key with
               | Some v => Return v
               | None => Raise (KeyError key)
               end
  | _ => Raise TypeError
  end.

(** [obj.get(key)] and [obj.get(key, default)]. *)
Definition get_default (obj : value) (key : string) (dflt : value)
  : outcome value :=
  match obj with
  | VDict d => Return (default dflt (d !! key))
  | _ => Raise AttributeError
  end.

(** [obj[key] = v]. *)
Definition setitem (obj : value) (key : string) (v : value) : outcome value :=
  match obj with
  | VDict d => Return (VDict (<[key := v]> d))
  | _ => Raise TypeError
  end.

(** The items a [for] loop over [obj] visits: the elements of a list, the
    keys of a dictionary, the characters of a string. *)
Definition py_iter (obj : value) : outcome (list value) :=
  match obj with
  | VList l => Return l
  | VDict d => Return ((λ kv, VStr kv.1) <$> map_to_list d)
  | VStr s =>
      Return ((λ c, VStr (String c EmptyString))
                <$> String.list_ascii_of_string s)
  | _ => Raise TypeError
  end.

(** ** Strings and number formatting *)

Definition digit_char (d : Z) : ascii := ascii_of_nat (Z.to_nat (48 + d)).

Fixpoint decimal_digits (fuel : nat) (n : Z) (acc : string) : string :=
  match fuel with
  | O => acc
  | S fuel' =>
      let acc' := String (digit_char (n mod 10)) acc in
      if n / 10 =? 0 then acc' else decimal_digits fuel' (n / 10) acc'
  end.

(** The decimal numeral of [n >= 0]; a number has no more decimal digits
    than binary ones, which bounds the recursion. *)
Definition str_nat (n : Z) : string :=
  decimal_digits (S (Z.to_nat (Z.log2 n))) n "".

Fixpoint zeros (k : nat) : string :=
  match k with
  | O => ""
  | S k' => String "0" (zeros k')
  end.

Definition zfill (width : nat) (s : string) : string :=
  zeros (width - String.length s) +:+ s.

(** [format(z, "0<width>d")], as in the f-string [f"{hour:02d}"]: the sign
    counts in the width. *)
Definition format_0d (width : nat) (z : Z) : string :=
  if z <? 0 then "-" +:+ zfill (width - 1) (str_nat (- z))
  else zfill width (str_nat z).

(** The white-space characters of one byte [str.strip()] removes: the
    code points 9 to 13 and 28 to 32. *)
Definition is_space (c : ascii) : bool :=
  let n := Z.of_nat (nat_of_ascii c) in
  ((9 <=? n) && (n <=? 13)) || ((28 <=? n) && (n <=? 32)).

(** Those of two bytes: U+0085 and U+00A0. *)
Definition is_space2 (c1 c2 : ascii) : bool :=
  let a := Z.of_nat (nat_of_ascii c1) in
  let b := Z.of_nat (nat_of_ascii c2) in
  (a =? 194) && ((b =? 133) || (b =? 160)).

(** Those of three bytes: U+1680, U+2000 to U+200A, U+2028, U+2029,
    U+202F, U+205F and U+3000. *)
Definition is_space3 (c1 c2 c3 : ascii) : bool :=
  let a := Z.of_nat (nat_of_ascii c1) in
  let b := Z.of_nat (nat_of_ascii c2) in
  let c := Z.of_nat (nat_of_ascii c3) in
  ((a =? 225) && (b =? 154) && (c =? 128))
  || ((a =? 226) && (b =? 128)
      && (((128 <=? c) && (c <=? 138)) || (c =? 168) || (c =? 169)
          || (c =? 175)))
  || ((a =? 226) && (b =? 129) && (c =? 159))
  || ((a =? 227) && (b =? 128) && (c =? 128)).

Fixpoint lstrip (s : string) : string :=
  match s with
  | String c1 s1 =>
      if is_space c1 then lstrip s1
      else
        match s1 with
        | String c2 s2 =>
            if is_space2 c1 c2 then lstrip s2
            else
              match s2 with
              | String c3 s3 => if is_space3 c1 c2 c3 then lstrip s3 else s
              | EmptyString => s
              end
        | EmptyString => s
        end
  | EmptyString => EmptyString
  end.

(** [rstrip] drops the longest end of the text that is made of white
    space only. *)
Fixpoint rstrip (s : string) : string :=
  match s with
  | String c s' =>
      match lstrip s with
      | EmptyString => EmptyString
      | _ => String c (rstrip s')
      end
  | EmptyString => EmptyString
  end.

Definition strip (s : string) : string := rstrip (lstrip s).

(** ** Dates and times ([datetime]) *)

Record date : Type := Date { d_year : Z; d_month : Z; d_day : Z }.

Record datetime : Type := Datetime {
  year : Z; month : Z; day : Z;
  hour : Z; minute : Z; second : Z; microsecond : Z
}.

Definition is_leap (y : Z) : bool :=
  (y mod 4 =? 0) && (negb (y mod 100 =? 0) || (y mod 400 =? 0)).

Definition days_before_year (y : Z) : Z :=
  let y1 := y - 1 in y1 * 365 + y1 / 4 - y1 / 100 + y1 / 400.

Definition days_in_month_tbl (m : Z) : Z :=
  match m with
  | 1 => 31 | 2 => 28 | 3 => 31 | 4 => 30 | 5 => 31 | 6 => 30
  | 7 => 31 | 8 => 31 | 9 => 30 | 10 => 31 | 11 => 30 | 12 => 31
  | _ => -1
  end.

Definition days_before_month_tbl (m : Z) : Z :=
  match m with
  | 1 => 0 | 2 => 31 | 3 => 59 | 4 => 90 | 5 => 120 | 6 => 151
  | 7 => 181 | 8 => 212 | 9 => 243 | 10 => 273 | 11 => 304 | 12 => 334
  | _ => -1
  end.

Definition days_in_month (y m : Z) : Z :=
  if (m =? 2) && is_leap y then 29 else days_in_month_tbl m.

Definition days_before_month (y m : Z) : Z :=
  days_before_month_tbl m + Z.b2z ((2 <? m) && is_leap y).

Definition ymd2ord (y m d : Z) : Z :=
  days_before_year y + days_before_month y m + d.

Definition DI400Y : Z := 146097.
Definition DI100Y : Z := 36524.
Definition DI4Y : Z := 1461.
Definition MAXORDINAL : Z := 3652059.

(** [_ord2ymd]: the date of a proleptic Gregorian ordinal (1 is 0001-01-01). *)
Definition ord2ymd (n0 : Z) : date :=
  let n := n0 - 1 in
  let n400 := n / DI400Y in
  let n := n mod DI400Y in
  let y := n400 * 400 + 1 in
  let n100 := n / DI100Y in
  let n := n mod DI100Y in
  let n4 := n / DI4Y in
  let n := n mod DI4Y in
  let n1 := n / 365 in
  let n := n mod 365 in
  let y := y + n100 * 100 + n4 * 4 + n1 in
  if (n1 =? 4) || (n100 =? 4) then Date (y - 1) 12 31
  else
    let leapyear := (n1 =? 3) && (negb (n4 =? 24) || (n100 =? 3)) in
    let m := Z.shiftr (n + 50) 5 in
    let preceding := days_before_month_tbl m + Z.b2z ((2 <? m) && leapyear) in
    if n <? preceding then
      let m' := m - 1 in
      let preceding' :=
        preceding - (days_in_month_tbl m' + Z.b2z ((m' =? 2) && leapyear)) in
      Date y m' (n - preceding' + 1)
    else Date y m (n - preceding + 1).

Definition toordinal (t : datetime) : Z := ymd2ord (year t) (month t) (day t).

(** What the constructors of [date] and [time] accept. *)
Definition valid_date (y m d : Z) : bool :=
  (1 <=? y) && (y <=? 9999) && (1 <=? m) && (m <=? 12)
  && (1 <=? d) && (d <=? days_in_month y m).

Definition valid_datetime (t : datetime) : bool :=
  valid_date (year t) (month t) (day t)
  && (0 <=? hour t) && (hour t <? 24)
  && (0 <=? minute t) && (minute t <? 60)
  && (0 <=? second t) && (second t <? 60)
  && (0 <=? microsecond t) && (microsecond t <? 1000000).

(** [timedelta]: days, seconds in [0, 86400) and microseconds in [0, 10^6). *)
Record timedelta : Type := Timedelta {
  td_days : Z; td_seconds : Z; td_microseconds : Z
}.

(** [timedelta(days, seconds, microseconds)] for integer arguments: the
    carries are taken with [divmod], a magnitude of more than 999999999
    days is refused. *)
Definition mk_timedelta (days seconds microseconds : Z) : outcome timedelta :=
  let s := seconds + microseconds / 1000000 in
  let us := microseconds mod 1000000 in
  let d := days + s / 86400 in
  let s := s mod 86400 in
  if Z.abs d >? 999999999 then Raise OverflowError
  else Return (Timedelta d s us).

Definition timedelta_minutes (minutes : Z) : outcome timedelta :=
  mk_timedelta 0 (minutes * 60) 0.

Definition timedelta_add (a b : timedelta) : outcome timedelta :=
  mk_timedelta (td_days a + td_days b) (td_seconds a + td_seconds b)
    (td_microseconds a + td_microseconds b).

(** [datetime.__add__]: the sum is taken on (ordinal day, second of the day,
    microsecond) and converted back; a day outside year 1 to 9999 is an
    [OverflowError]. *)
Definition datetime_add (t : datetime) (delta : timedelta) : outcome datetime :=
  match mk_timedelta (toordinal t)
          (hour t * 3600 + minute t * 60 + second t) (microsecond t) with
  | Raise e => Raise e
  | Return self =>
      match timedelta_add self delta with
      | Raise e => Raise e
      | Return sum =>
          let h := td_seconds sum / 3600 in
          let rem := td_seconds sum mod 3600 in
          let mi := rem / 60 in
          let s := rem mod 60 in
          if (0 <? td_days sum) && (td_days sum <=? MAXORDINAL) then
            let d := ord2ymd (td_days sum) in
            Return (Datetime (d_year d) (d_month d) (d_day d)
                      h mi s (td_microseconds sum))
          else Raise OverflowError
      end
  end.

(** [strftime] for the three formats the core uses.  The year is written
    with four digits, as every platform does from the year 1000 on. *)
Definition strftime_ymd (y m d : Z) : string :=
  format_0d 4 y +:+ "-" +:+ format_0d 2 m +:+ "-" +:+ format_0d 2 d.

Definition strftime_date (d : date) : string :=
  strftime_ymd (d_year d) (d_month d) (d_day d).

(** ["%Y-%m-%d"] *)
Definition strftime_Ymd (t : datetime) : string :=
  strftime_ymd (year t) (month t) (day t).

(** ["%H:%M"] *)
Definition strftime_HM (t : datetime) : string :=
  format_0d 2 (hour t) +:+ ":" +:+ format_0d 2 (minute t).

(** ["%Y-%m-%d %H:%M"] *)
Definition strftime_Ymd_HM (t : datetime) : string :=
  strftime_Ymd t +:+ " " +:+ strftime_HM t.

(** ** The application state and the monad of its methods *)

(** The file [DATA_FILE] as [load_data] sees it: absent, present with a
    content [json.load] rejects, or present with a JSON document.  The
    text of the file is not modelled: [json.dump] writes the document of a
    [value] and [json.load] reads that [value] back. *)
Inductive data_file : Type :=
  | Missing
  | Malformed
  | Document (doc : value).

(** The arguments of one call of [show_fullscreen_alert]. *)
Record alert : Type := Alert {
  alert_title : value;
  alert_message : value;
  alert_item_id : value;
  alert_custom_voice : value
}.

(** What the core does not decide: [str_of] is Python's [str()] on a list
    or a dictionary, as an f-string applies it, [alert_returns]
    tells whether a call of [show_fullscreen_alert] returns ([true]) or
    raises from the window toolkit ([false]). *)
Record Env : Type := {
  str_of : value -> string;
  alert_returns : alert -> bool
}.

(** The attributes of [ReminderApp] the core uses, the content of
    [DATA_FILE], and the alerts shown so far (oldest first). *)
Record ReminderApp : Type := {
  reminders : value;
  alarms : value;
  snoozed_items : list value;
  pending_voice_note : value;
  DATA_FILE : data_file;
  alerts : list alert
}.

Definition M (A : Type) : Type := ReminderApp -> outcome A * ReminderApp.

Definition ret {A} (a : A) : M A := λ st, (Return a, st).

Definition raise {A} (e : exn) : M A := λ st, (Raise e, st).

Definition bind {A B} (m : M A) (k : A -> M B) : M B :=
  λ st, match m st with
        | (Return a, st') => k a st'
        | (Raise e, st') => (Raise e, st')
        end.

Definition lift {A} (o : outcome A) : M A := λ st, (o, st).

Definition gets {A} (f : ReminderApp -> A) : M A := λ st, (Return (f st), st).

Definition modify (f : ReminderApp -> ReminderApp) : M unit :=
  λ st, (Return tt, f st).

(** [try: m  except: pass] *)
Definition try_except_pass (m : M unit) : M unit :=
  λ st, match m st with
        | (Return _, st') => (Return tt, st')
        | (Raise _, st') => (Return tt, st')
        end.

Declare Scope app_scope.
Delimit Scope app_scope with app.
Notation "x <- m ;; k" := (bind m (λ x, k))
  (at level 100, m at next level, right associativity) : app_scope.
Notation "m ;; k" := (bind m (λ _, k))
  (at level 100, right associativity) : app_scope.
Local Open Scope app_scope.

Definition set_reminders (v : value) (st : ReminderApp) : ReminderApp :=
  {| reminders := v; alarms := alarms st; snoozed_items := snoozed_items st;
     pending_voice_note := pending_voice_note st;
     DATA_FILE := DATA_FILE st; alerts := alerts st |}.

Definition set_alarms (v : value) (st : ReminderApp) : ReminderApp :=
  {| reminders := reminders st; alarms := v; snoozed_items := snoozed_items st;
     pending_voice_note := pending_voice_note st;
     DATA_FILE := DATA_FILE st; alerts := alerts st |}.

Definition set_snoozed_items (l : list value) (st : ReminderApp) : ReminderApp :=
  {| reminders := reminders st; alarms := alarms st; snoozed_items := l;
     pending_voice_note := pending_voice_note st;
     DATA_FILE := DATA_FILE st; alerts := alerts st |}.

Definition set_pending_voice_note (v : value) (st : ReminderApp) : ReminderApp :=
  {| reminders := reminders st; alarms := alarms st;
     snoozed_items := snoozed_items st; pending_voice_note := v;
     DATA_FILE := DATA_FILE st; alerts := alerts st |}.

Definition set_DATA_FILE (f : data_file) (st : ReminderApp) : ReminderApp :=
  {| reminders := reminders st; alarms := alarms st;
     snoozed_items := snoozed_items st;
     pending_voice_note := pending_voice_note st;
     DATA_FILE := f; alerts := alerts st |}.

Definition add_alert (a : alert) (st : ReminderApp) : ReminderApp :=
  {| reminders := reminders st; alarms := alarms st;
     snoozed_items := snoozed_items st;
     pending_voice_note := pending_voice_note st;
     DATA_FILE := DATA_FILE st; alerts := alerts st ++ [a] |}.

(** An element of the list [self.reminders] mutated in place: the list
    holds the new dictionary at the same index. *)
Definition set_reminder (i : nat) (r : value) (st : ReminderApp) : ReminderApp :=
  match reminders st with
  | VList l => set_reminders (VList (<[i := r]> l)) st
  | _ => st
  end.

Definition set_snoozed_item (i : nat) (r : value) (st : ReminderApp)
  : ReminderApp :=
  set_snoozed_items (<[i := r]> (snoozed_items st)) st.

(** ** Persistence *)

(** [save_data]: the whole store is written as one document. *)
Definition save_data : M unit :=
  modify (λ st,
    set_DATA_FILE
      (Document (VDict (<["reminders" := reminders st]>
                          (<["alarms" := alarms st]> ∅)))) st).

(** [load_data]: nothing is read when the file is absent; any exception
    while reading is discarded. *)
Definition load_data : M unit :=
  file <- gets DATA_FILE;;
  match file with
  | Missing => ret tt
  | Malformed => try_except_pass (raise JSONDecodeError)
  | Document data =>
      try_except_pass (
        rs <- lift (get_default data "reminders" (VList []));;
        modify (set_reminders rs);;
        al <- lift (get_default data "alarms" (VList []));;
        modify (set_alarms al))
  end.

(** [ReminderApp.__init__] up to the start of the poller: the attributes
    are initialised, then [load_data] runs on the file found on disk. *)
Definition ReminderApp_new (file : data_file) : ReminderApp :=
  {| reminders := VList []; alarms := VList []; snoozed_items := [];
     pending_voice_note := VNone; DATA_FILE := file; alerts := [] |}.

Definition ReminderApp_init (file : data_file) : outcome unit * ReminderApp :=
  load_data (ReminderApp_new file).

(** ** The alert collaborator *)

Definition show_fullscreen_alert (env : Env) (a : alert) : M unit :=
  if alert_returns env a then modify (add_alert a) else raise TclError.

(** ** 12-hour to 24-hour conversion *)

Definition get_24hour_time (hour minute : Z) (ampm : string) : string :=
  let hour :=
    if String.eqb ampm "AM" && (hour =? 12) then 0
    else if String.eqb ampm "PM" && negb (hour =? 12) then hour + 12
    else hour in
  format_0d 2 hour +:+ ":" +:+ format_0d 2 minute.

(** ** Text shown for a value *)

(** [str(z)] for an integer; the limit recent versions of Python put on
    the number of digits of the conversion is not modelled. *)
Definition str_int (z : Z) : string :=
  if z <? 0 then "-" +:+ str_nat (- z) else str_nat z.

(** The text an f-string field shows for [v]: the text itself for a
    string, the decimal numeral for an integer, [str_of] for a list or a
    dictionary. *)
Definition format_value (env : Env) (v : value) : string :=
  match v with
  | VStr s => s
  | VInt z => str_int z
  | VBool true => "True"
  | VBool false => "False"
  | VNone => "None"
  | _ => str_of env v
  end.

(** ** The poller *)

(** The condition of [check_reminders], evaluated left to right with
    Python's short-circuit [and]:
    [reminder['active'] and reminder['date'] == current_date
       and reminder['time'] == current_time]. *)
Definition reminder_is_due (current_date current_time : string)
    (reminder : value) : outcome bool :=
  match getitem reminder "active" with
  | Raise e => Raise e
  | Return active =>
      if truthy active then
        match getitem reminder "date" with
        | Raise e => Raise e
        | Return d =>
            if eq_str d current_date then
              match getitem reminder "time" with
              | Raise e => Raise e
              | Return t => Return (eq_str t current_time)
              end
            else Return false
        end
      else Return false
  end.

(** The arguments [check_reminders] passes to [show_fullscreen_alert],
    evaluated in the order they are written. *)
Definition reminder_alert (env : Env) (reminder : value) : outcome alert :=
  match getitem reminder "title" with
  | Raise e => Raise e
  | Return title =>
      match getitem reminder "description" with
      | Raise e => Raise e
      | Return description =>
          match getitem reminder "id" with
          | Raise e => Raise e
          | Return rid =>
              match get_default reminder "voice_note" VNone with
              | Raise e => Raise e
              | Return voice =>
                  Return (Alert (VStr ("REMINDER: " +:+ format_value env title))
                            description rid voice)
              end
          end
      end
  end.

(** The [for] loop of [check_reminders] from index [i] on; [todo] are the
    elements of [self.reminders] from that index. *)
Fixpoint check_reminders_loop (env : Env) (current_date current_time : string)
    (i : nat) (todo : list value) : M unit :=
  match todo with
  | [] => ret tt
  | reminder :: rest =>
      due <- lift (reminder_is_due current_date current_time reminder);;
      (if due : bool then
         a <- lift (reminder_alert env reminder);;
         show_fullscreen_alert env a;;
         reminder' <- lift (setitem reminder "active" (VBool false));;
         modify (set_reminder i reminder');;
         save_data
       else ret tt);;
      check_reminders_loop env current_date current_time (S i) rest
  end.

Definition check_reminders (env : Env) (now : datetime) : M unit :=
  let current_date := strftime_Ymd now in
  let current_time := strftime_HM now in
  rs <- gets reminders;;
  items <- lift (py_iter rs);;
  check_reminders_loop env current_date current_time 0 items.

(** The condition of [check_snoozed]:
    [item['active'] and item['trigger_time'] == current]. *)
Definition snoozed_is_due (current : string) (item : value) : outcome bool :=
  match getitem item "active" with
  | Raise e => Raise e
  | Return active =>
      if truthy active then
        match getitem item "trigger_time" with
        | Raise e => Raise e
        | Return t => Return (eq_str t current)
        end
      else Return false
  end.

Definition snoozed_alert (item : value) : outcome alert :=
  match getitem item "title" with
  | Raise e => Raise e
  | Return title =>
      match getitem item "message" with
      | Raise e => Raise e
      | Return message =>
          match getitem item "original_id" with
          | Raise e => Raise e
          | Return oid =>
              match get_default item "custom_voice" VNone with
              | Raise e => Raise e
              | Return voice => Return (Alert title message oid voice)
              end
          end
      end
  end.

Fixpoint check_snoozed_loop (env : Env) (current : string)
    (i : nat) (todo : list value) : M unit :=
  match todo with
  | [] => ret tt
  | item :: rest =>
      due <- lift (snoozed_is_due current item);;
      (if due : bool then
         a <- lift (snoozed_alert item);;
         show_fullscreen_alert env a;;
         item' <- lift (setitem item "active" (VBool false));;
         modify (set_snoozed_item i item')
       else ret tt);;
      check_snoozed_loop env current (S i) rest
  end.

Definition check_snoozed (env : Env) (now : datetime) : M unit :=
  items <- gets snoozed_items;;
  check_snoozed_loop env (strftime_Ymd_HM now) 0 items.

(** One turn of the [while] loop of [monitor_loop]: the environment of the
    turn and the two readings of the clock, the one of [check_reminders]
    and the one of [check_snoozed]. *)
Record tick : Type := Tick {
  tick_env : Env;
  tick_now : datetime;
  tick_now_snoozed : datetime
}.

(** The body of the loop:
    [try: check_reminders(); check_snoozed()  except: pass]. *)
Definition monitor_step (t : tick) : M unit :=
  try_except_pass (
    check_reminders (tick_env t) (tick_now t);;
    check_snoozed (tick_env t) (tick_now_snoozed t)).

(** [monitor_loop] for as many turns as [self.running] stays true: one
    turn for each element of [ticks]. *)
Fixpoint monitor_loop (ticks : list tick) : M unit :=
  match ticks with
  | [] => ret tt
  | t :: rest => monitor_step t;; monitor_loop rest
  end.

(** ** Snooze *)

(** [snooze_item], with [now] the value of [datetime.now()] and [now_ms]
    the value of [int(time.time() * 1000)]. *)
Definition snooze_item (now : datetime) (now_ms : Z)
    (item_id : value) (minutes : Z) (title message custom_voice : value)
  : M unit :=
  delta <- lift (timedelta_minutes minutes);;
  trigger_time <- lift (datetime_add now delta);;
  let snoozed : dict :=
    <["id" := VInt now_ms]>
    (<["original_id" := item_id]>
    (<["title" := title]>
    (<["message" := message]>
    (<["trigger_time" := VStr (strftime_Ymd_HM trigger_time)]>
    (<["custom_voice" := custom_voice]>
    (<["active" := VBool true]> ∅)))))) in
  modify (λ st, set_snoozed_items (snoozed_items st ++ [VDict snoozed]) st).

(** ** The user's operations on the store *)

(** [lst.append(x)] *)
Definition py_append (lst x : value) : outcome value :=
  match lst with
  | VList l => Return (VList (l ++ [x]))
  | _ => Raise AttributeError
  end.

(** The widgets [add_reminder_gui] reads.  [hour_var] and [minute_var]
    are the integers the two spin boxes hold: when a spin box holds no
    number, [get()] raises while the new dictionary is being built, before
    anything is changed. *)
Record add_form : Type := {
  reminder_title : string;
  reminder_desc : string;
  reminder_date : date;
  hour_var : Z;
  minute_var : Z;
  ampm_var : string;
  reminder_priority : string
}.

(** [add_reminder_gui], with [now_ms] the value of
    [int(time.time() * 1000)]. *)
Definition add_reminder_gui (f : add_form) (now_ms : Z) : M unit :=
  let title := strip (reminder_title f) in
  if String.eqb title "" then ret tt
  else
    let reminder : dict :=
      <["id" := VInt now_ms]>
      (<["title" := VStr title]>
      (<["description" := VStr (strip (reminder_desc f))]>
      (<["date" := VStr (strftime_date (reminder_date f))]>
      (<["time" :=
           VStr (get_24hour_time (hour_var f) (minute_var f) (ampm_var f))]>
      (<["priority" := VStr (reminder_priority f)]>
      (<["active" := VBool true]> ∅)))))) in
    pending <- gets pending_voice_note;;
    reminder <-
      (if truthy pending then
         modify (set_pending_voice_note VNone);;
         ret (<["voice_note" := pending]> reminder)
       else ret reminder);;
    rs <- gets reminders;;
    rs' <- lift (py_append rs (VDict reminder));;
    modify (set_reminders rs');;
    save_data.

(** [save_and_close] of [record_voice_note]: the recorded file is kept for
    the next reminder. *)
Definition record_voice_note (filepath : string) : M unit :=
  if truthy (VStr filepath) then modify (set_pending_voice_note (VStr filepath))
  else ret tt.

(** [[r for r in items if r['id'] != reminder_id]] *)
Fixpoint filter_ne_id (reminder_id : Z) (items : list value)
  : outcome (list value) :=
  match items with
  | [] => Return []
  | r :: rest =>
      match getitem r "id" with
      | Raise e => Raise e
      | Return v =>
          match filter_ne_id reminder_id rest with
          | Raise e => Raise e
          | Return kept =>
              Return (if eq_int v reminder_id then kept else r :: kept)
          end
      end
  end.

(** [delete_reminder] once the id of the selected line is known: the
    [try] block after [reminder_id = int(...)]. *)
Definition delete_reminder (reminder_id : Z) : M unit :=
  try_except_pass (
    rs <- gets reminders;;
    items <- lift (py_iter rs);;
    kept <- lift (filter_ne_id reminder_id items);;
    modify (set_reminders (VList kept));;
    save_data).

(** [next((r for r in items if r['id'] == reminder_id), None)], with the
    index of the element found. *)
Fixpoint find_by_id (reminder_id : Z) (i : nat) (items : list value)
  : outcome (option (nat * value)) :=
  match items with
  | [] => Return None
  | r :: rest =>
      match getitem r "id" with
      | Raise e => Raise e
      | Return v =>
          if eq_int v reminder_id then Return (Some (i, r))
          else find_by_id reminder_id (S i) rest
      end
  end.

(** The widgets the [save] button of the edit dialog reads.
    [edit_hour_var] and [edit_minute_var] are what [get()] gives for the
    two spin boxes: the integer the box holds, or [None] when the box
    holds no number and [get()] raises.  [new_voice_note] is
    [new_voice_note['path']]. *)
Record edit_form : Type := {
  title_entry : string;
  desc_entry : string;
  date_entry : date;
  edit_hour_var : option Z;
  edit_minute_var : option Z;
  edit_ampm_var : string;
  priority_combo : string;
  new_voice_note : value
}.

(** [var.get()] for a spin box variable. *)
Definition var_get (content : option Z) : outcome Z :=
  match content with
  | Some z => Return z
  | None => Raise TclError
  end.

(** [save] of [show_edit_dialog] on the dictionary at index [i].  The
    dictionary is changed in place: when a spin box cannot be read, the
    store already holds the new title, description and date, and nothing
    is written to the file. *)
Definition show_edit_dialog_save (i : nat) (reminder : value) (f : edit_form)
  : M unit :=
  r <- lift (setitem reminder "title" (VStr (strip (title_entry f))));;
  r <- lift (setitem r "description" (VStr (strip (desc_entry f))));;
  r <- lift (setitem r "date" (VStr (strftime_date (date_entry f))));;
  modify (set_reminder i r);;
  hour <- lift (var_get (edit_hour_var f));;
  minute <- lift (var_get (edit_minute_var f));;
  r <- lift (setitem r "time"
               (VStr (get_24hour_time hour minute (edit_ampm_var f))));;
  r <- lift (setitem r "priority" (VStr (priority_combo f)));;
  r <- (if truthy (new_voice_note f)
        then lift (setitem r "voice_note" (new_voice_note f))
        else ret r);;
  modify (set_reminder i r);;
  save_data.

(** [os.path.basename(p)]: it raises for an object that is not a
    string. *)
Definition basename_checks (p : value) : outcome unit :=
  match p with
  | VStr _ => Return tt
  | _ => Raise TypeError
  end.

(** [show_edit_dialog]: the dialog reads the title and the description
    when it is built, and the file name of the voice note when there is
    one; the user may press "Remove Voice Note" (offered when there is
    one) and then either saves a form or cancels. *)
Definition show_edit_dialog (i : nat) (reminder : value)
    (remove_voice : bool) (action : option edit_form) : M unit :=
  _ <- lift (getitem reminder "title");;
  _ <- lift (getitem reminder "description");;
  current_voice <- lift (get_default reminder "voice_note" (VStr ""));;
  (if truthy current_voice then lift (basename_checks current_voice)
   else ret tt);;
  reminder <-
    (if remove_voice && truthy current_voice then
       r <- lift (setitem reminder "voice_note" VNone);;
       modify (set_reminder i r);;
       ret r
     else ret reminder);;
  match action with
  | Some f => show_edit_dialog_save i reminder f
  | None => ret tt
  end.

(** [edit_reminder] once the id of the selected line is known. *)
Definition edit_reminder (reminder_id : Z) (remove_voice : bool)
    (action : option edit_form) : M unit :=
  try_except_pass (
    rs <- gets reminders;;
    items <- lift (py_iter rs);;
    found <- lift (find_by_id reminder_id 0 items);;
    match found with
    | Some (i, reminder) =>
        if truthy reminder then show_edit_dialog i reminder remove_voice action
        else ret tt
    | None => ret tt
    end).

(** ** Runs of the application *)

Inductive op : Type :=
  | OpAdd (f : add_form) (now_ms : Z)
  | OpRecordVoice (filepath : string)
  | OpEdit (reminder_id : Z) (remove_voice : bool) (action : option edit_form)
  | OpDelete (reminder_id : Z)
  | OpTick (t : tick)
  | OpSnooze (now : datetime) (now_ms : Z) (a : alert) (minutes : Z).

(** An exception that leaves a callback is reported by the window toolkit
    and the application goes on with the state reached. *)
Definition run_op (o : op) (st : ReminderApp) : ReminderApp :=
  match o with
  | OpAdd f now_ms => (add_reminder_gui f now_ms st).2
  | OpRecordVoice filepath => (record_voice_note filepath st).2
  | OpEdit reminder_id remove_voice action =>
      (edit_reminder reminder_id remove_voice action st).2
  | OpDelete reminder_id => (delete_reminder reminder_id st).2
  | OpTick t => (monitor_step t st).2
  | OpSnooze now now_ms a minutes =>
      (snooze_item now now_ms (alert_item_id a) minutes (alert_title a)
         (alert_message a) (alert_custom_voice a) st).2
  end.

Definition run_ops (ops : list op) (st : ReminderApp) : ReminderApp :=
  foldl (λ st o, run_op o st) st ops.

(** ** Specification-level definitions

    The definitions below are not part of the program: they phrase what
    the theorems say about it. *)

(** A two-digit field ["HH"] or ["MM"]. *)
Definition two_digits (n : Z) : string :=
  String (digit_char (n / 10)) (String (digit_char (n mod 10)) EmptyString).

(** ["HH:MM"] *)
Definition hhmm (h m : Z) : string := two_digits h +:+ ":" +:+ two_digits m.

(** The hour of the day a 12-hour clock reading denotes: 12 AM is 0, 12 PM
    is 12, another PM hour [h] is [h + 12], another AM hour is itself. *)
Definition hour24 (hour : Z) (ampm : string) : Z :=
  if String.eqb ampm "AM" then (if hour =? 12 then 0 else hour)
  else (if hour =? 12 then 12 else hour + 12).

(** A moment with its seconds and microseconds dropped. *)
Definition truncate_to_minute (t : datetime) : datetime :=
  Datetime (year t) (month t) (day t) (hour t) (minute t) 0 0.

(** [t + timedelta(minutes=m)] *)
Definition plus_minutes (t : datetime) (m : Z) : outcome datetime :=
  match timedelta_minutes m with
  | Raise e => Raise e
  | Return delta => datetime_add t delta
  end.

(** The number of minutes from the first minute of 0001-01-01 (counted
    from 1440) to the minute of [t]. *)
Definition minute_index (t : datetime) : Z :=
  toordinal t * 1440 + hour t * 60 + minute t.

(** A four-digit field ["YYYY"]. *)
Definition four_digits (n : Z) : string :=
  String (digit_char (n / 1000))
    (String (digit_char (n / 100 mod 10)) (two_digits (n mod 100))).

(** ["YYYY-MM-DD HH:MM"] *)
Definition ymd_hm (t : datetime) : string :=
  four_digits (year t) +:+ "-" +:+ two_digits (month t) +:+ "-"
  +:+ two_digits (day t) +:+ " " +:+ hhmm (hour t) (minute t).

(** [r['id']] can be read. *)
Definition has_id (r : value) : bool :=
  match getitem r "id" with
  | Return _ => true
  | Raise _ => false
  end.

(** [r['id'] == reminder_id] *)
Definition id_matches (reminder_id : Z) (r : value) : bool :=
  match getitem r "id" with
  | Return v => eq_int v reminder_id
  | Raise _ => false
  end.

(** The id of an entry that is a dictionary with an integer ["id"]. *)
Definition entry_id (r : value) : option Z :=
  match r with
  | VDict d => match d !! "id" with
               | Some (VInt z) => Some z
               | _ => None
               end
  | _ => None
  end.

(** The store is a list of entries that all have an integer id, and no
    two of them have the same. *)
Definition unique_ids (st : ReminderApp) : Prop :=
  exists rs, reminders st = VList rs
             /\ Forall (λ r, is_Some (entry_id r)) rs
             /\ NoDup (entry_id <$> rs).

(** The clock reading of an add is not the id of an entry of the store. *)
Definition fresh_op (o : op) (st : ReminderApp) : Prop :=
  match o with
  | OpAdd _ now_ms =>
      forall rs, reminders st = VList rs -> Some now_ms ∉ entry_id <$> rs
  | _ => True
  end.

Fixpoint fresh_ops (ops : list op) (st : ReminderApp) : Prop :=
  match ops with
  | [] => True
  | o :: rest => fresh_op o st /\ fresh_ops rest (run_op o st)
  end.

(** The document [save_data] writes for a store. *)
Definition document_of (st : ReminderApp) : data_file :=
  Document (VDict (<["reminders" := reminders st]>
                     (<["alarms" := alarms st]> ∅))).

(** What one turn of a poller's [for] loop does with an entry: nothing,
    an alert followed by the deactivation of the entry, or an exception. *)
Inductive verdict : Type :=
  | Skip
  | Fire (a : alert) (r' : value)
  | Fail (e : exn).

Definition reminder_verdict (env : Env) (current_date current_time : string)
    (r : value) : verdict :=
  match reminder_is_due current_date current_time r with
  | Raise e => Fail e
  | Return false => Skip
  | Return true =>
      match reminder_alert env r with
      | Raise e => Fail e
      | Return a =>
          if alert_returns env a then
            match setitem r "active" (VBool false) with
            | Return r' => Fire a r'
            | Raise e => Fail e
            end
          else Fail TclError
      end
  end.

Definition snoozed_verdict (env : Env) (current : string) (r : value)
  : verdict :=
  match snoozed_is_due current r with
  | Raise e => Fail e
  | Return false => Skip
  | Return true =>
      match snoozed_alert r with
      | Raise e => Fail e
      | Return a =>
          if alert_returns env a then
            match setitem r "active" (VBool false) with
            | Return r' => Fire a r'
            | Raise e => Fail e
            end
          else Fail TclError
      end
  end.

(** The entries after a scan, the alerts shown by it, and the exception
    that ended it, if any. *)
Record scan : Type := Scan {
  scanned : list value;
  shown : list alert;
  raised : option exn
}.

(** A scan of [entries] from left to right; it stops at the first entry
    that fails and leaves it and the entries after it as they are. *)
Fixpoint scan_entries (v : value -> verdict) (entries : list value) : scan :=
  match entries with
  | [] => Scan [] [] None
  | r :: rest =>
      match v r with
      | Skip =>
          let s := scan_entries v rest in
          Scan (r :: scanned s) (shown s) (raised s)
      | Fire a r' =>
          let s := scan_entries v rest in
          Scan (r' :: scanned s) (a :: shown s) (raised s)
      | Fail e => Scan (r :: rest) [] (Some e)
      end
  end.

Definition outcome_of (e : option exn) : outcome unit :=
  match e with
  | None => Return tt
  | Some e => Raise e
  end.

(** The verdict of the turn [t] of the monitor loop on a reminder. *)
Definition tick_verdict (t : tick) : value -> verdict :=
  reminder_verdict (tick_env t) (strftime_Ymd (tick_now t))
    (strftime_HM (tick_now t)).

(** Two states of the application: [with_r] holds the entry [r] at index
    [k] of its store, [without] is the same application without that
    entry. *)
Definition same_but_for (k : nat) (r : value) (with_r without : ReminderApp)
  : Prop :=
  exists l1 l2,
    length l1 = k
    /\ reminders with_r = VList (l1 ++ r :: l2)
    /\ reminders without = VList (l1 ++ l2)
    /\ snoozed_items with_r = snoozed_items without
    /\ alerts with_r = alerts without.

(** The application after [check_reminders_loop] has scanned the entries
    that follow [pre]: the store holds the scanned entries, the alerts
    shown are appended, and the file holds the store when at least one
    alert was shown. *)
Definition after_reminders_scan (pre : list value) (s : scan)
    (st : ReminderApp) : ReminderApp :=
  {| reminders := VList (pre ++ scanned s);
     alarms := alarms st;
     snoozed_items := snoozed_items st;
     pending_voice_note := pending_voice_note st;
     DATA_FILE :=
       match shown s with
       | [] => DATA_FILE st
       | _ :: _ =>
           Document (VDict (<["reminders" := VList (pre ++ scanned s)]>
                              (<["alarms" := alarms st]> ∅)))
       end;
     alerts := alerts st ++ shown s |}.

(** The application after [check_snoozed_loop] has scanned the snoozed
    items that follow [pre]. *)
Definition after_snoozed_scan (pre : list value) (s : scan)
    (st : ReminderApp) : ReminderApp :=
  {| reminders := reminders st;
     alarms := alarms st;
     snoozed_items := pre ++ scanned s;
     pending_voice_note := pending_voice_note st;
     DATA_FILE := DATA_FILE st;
     alerts := alerts st ++ shown s |}.

(** ** Data of the examples *)

(** [str()] on the objects a title can be in the examples. *)
Definition str_of_scalar (v : value) : string :=
  match v with
  | VStr s => s
  | VInt z => if z <? 0 then "-" +:+ str_nat (- z) else str_nat z
  | VBool true => "True"
  | VBool false => "False"
  | _ => "None"
  end.

(** An environment in which every alert window opens. *)
Definition env_ok : Env :=
  {| str_of := str_of_scalar; alert_returns := λ _, true |}.

(** An environment in which no alert window opens. *)
Definition env_broken : Env :=
  {| str_of := str_of_scalar; alert_returns := λ _, false |}.

Definition form_call_bob : add_form :=
  {| reminder_title := "Call Bob"; reminder_desc := "";
     reminder_date := Date 2024 6 1; hour_var := 2; minute_var := 30;
     ampm_var := "PM"; reminder_priority := "normal" |}.

Definition form_pay_rent : add_form :=
  {| reminder_title := "Pay rent"; reminder_desc := "before noon";
     reminder_date := Date 2024 6 1; hour_var := 2; minute_var := 30;
     ampm_var := "PM"; reminder_priority := "urgent" |}.

Definition form_blank_title : edit_form :=
  {| title_entry := "   "; desc_entry := "";
     date_entry := Date 2024 6 1;
     edit_hour_var := Some 2; edit_minute_var := Some 30;
     edit_ampm_var := "PM"; priority_combo := "normal";
     new_voice_note := VNone |}.

Definition form_blank_add : add_form :=
  {| reminder_title := "   "; reminder_desc := "";
     reminder_date := Date 2024 6 1; hour_var := 2; minute_var := 30;
     ampm_var := "PM"; reminder_priority := "normal" |}.

Definition app_empty : ReminderApp := (ReminderApp_init Missing).2.

(** An entry as read from a file written by hand: it has no ["date"]. *)
Definition entry_without_date : value :=
  VDict (<["id" := VInt 1]> (<["title" := VStr "Water plants"]>
        (<["description" := VStr ""]> (<["time" := VStr "14:30"]>
        (<["active" := VBool true]> ∅))))).

(** A turn of the monitor loop on 2024-06-01 at [h]:[m]:[s]. *)
Definition tick_at (env : Env) (h m s : Z) : tick :=
  Tick env (Datetime 2024 6 1 h m s 0) (Datetime 2024 6 1 h m s 0).

Definition tick_1430 (env : Env) : tick := tick_at env 14 30 0.

(** The reminder [add_reminder_gui] builds from [form_call_bob] when the
    clock reads 1717252200000 ms. *)
Definition reminder_call_bob : dict :=
  <["id" := VInt 1717252200000]>
  (<["title" := VStr "Call Bob"]>
  (<["description" := VStr ""]>
  (<["date" := VStr "2024-06-01"]>
  (<["time" := VStr "14:30"]>
  (<["priority" := VStr "normal"]>
  (<["active" := VBool true]> ∅)))))).

(** The reminder [add_reminder_gui] builds from [form_pay_rent] when the
    clock reads 1717252260000 ms. *)
Definition reminder_pay_rent : dict :=
  <["id" := VInt 1717252260000]>
  (<["title" := VStr "Pay rent"]>
  (<["description" := VStr "before noon"]>
  (<["date" := VStr "2024-06-01"]>
  (<["time" := VStr "14:30"]>
  (<["priority" := VStr "urgent"]>
  (<["active" := VBool true]> ∅)))))).

(** An environment in which the alert window of the reminder
    [reminder_pay_rent] raises and every other one opens. *)
Definition env_flaky : Env :=
  {| str_of := str_of_scalar;
     alert_returns := λ a, negb (eq_int (alert_item_id a) 1717252260000) |}.

(** A data file whose first entry lacks a date and whose second entry is
    the reminder above. *)
Definition file_with_bad_entry : data_file :=
  Document (VDict (<["reminders" :=
                       VList [entry_without_date; VDict reminder_call_bob]]>
                     (<["alarms" := VList []]> ∅))).

(** A store that holds the reminder [reminder_call_bob] followed by the
    entry without a date. *)
Definition app_bob_then_bad : ReminderApp :=
  set_reminders (VList [VDict reminder_call_bob; entry_without_date])
    app_empty.

(** ** Specification-level definitions for the rest of the core *)

(** Restarting the application from the file on disk gives back the
    store held in memory. *)
Definition persisted (st : ReminderApp) : Prop :=
  reminders (ReminderApp_init (DATA_FILE st)).2 = reminders st
  /\ alarms (ReminderApp_init (DATA_FILE st)).2 = alarms st.

(** Every operation but an edit in which "Remove Voice Note" is pressed
    and the dialog is then cancelled, and an edit that is saved while a
    spin box of the time holds no number. *)
Definition saving_op (o : op) : Prop :=
  match o with
  | OpEdit _ true None => False
  | OpEdit _ _ (Some f) =>
      is_Some (edit_hour_var f) /\ is_Some (edit_minute_var f)
  | _ => True
  end.

(** ** Text: [str], [split], [int] *)

Fixpoint drop_chars (n : nat) (s : string) : string :=
  match n, s with
  | S n', String _ s' => drop_chars n' s'
  | _, _ => s
  end.

(** [s.partition(sep)] for a non-empty [sep]: the text before the first
    occurrence of [sep] and the text after it; [None] when [sep] does not
    occur in [s]. *)
Fixpoint partition_at (sep s : string) {struct s} : option (string * string) :=
  if String.prefix sep s then Some ("", drop_chars (String.length sep) s)
  else
    match s with
    | EmptyString => None
    | String c s' =>
        match partition_at sep s' with
        | Some (a, b) => Some (String c a, b)
        | None => None
        end
    end.

(** [sep in s] *)
Definition contains (sep s : string) : bool :=
  match partition_at sep s with
  | Some _ => true
  | None => false
  end.

Fixpoint split_fuel (fuel : nat) (sep s : string) : list string :=
  match fuel with
  | O => [s]
  | S fuel' =>
      match partition_at sep s with
      | None => [s]
      | Some (a, b) => a :: split_fuel fuel' sep b
      end
  end.

(** [s.split(sep)] for a non-empty [sep]: the pieces between the
    occurrences of [sep] found from left to right; there are no more
    occurrences than characters, which bounds the recursion. *)
Definition py_split (sep s : string) : list string :=
  split_fuel (String.length s) sep s.

(** Every character of [s] satisfies [p]. *)
Fixpoint all_chars (p : ascii -> bool) (s : string) : bool :=
  match s with
  | EmptyString => true
  | String c s' => p c && all_chars p s'
  end.

(** A byte with which no white-space character starts. *)
Definition no_space_start (c : ascii) : bool :=
  let n := Z.of_nat (nat_of_ascii c) in
  negb (is_space c)
  && negb ((n =? 194) || (n =? 225) || (n =? 226) || (n =? 227)).

(** A character other than the letter I. *)
Definition not_I (c : ascii) : bool := negb (Ascii.eqb "I" c).

(** The value of a decimal digit. *)
Definition digit_of (c : ascii) : option Z :=
  let n := Z.of_nat (nat_of_ascii c) in
  if (48 <=? n) && (n <=? 57) then Some (n - 48) else None.

Definition is_digit (c : ascii) : bool :=
  match digit_of c with
  | Some _ => true
  | None => false
  end.

(** The digits of an integer literal, read from left to right: an
    underscore is accepted between two digits only. *)
Fixpoint digits_value (s : string) (acc : Z) (after_digit : bool) : option Z :=
  match s with
  | EmptyString => if after_digit then Some acc else None
  | String c s' =>
      match digit_of c with
      | Some d => digits_value s' (10 * acc + d) true
      | None =>
          if Ascii.eqb c "_" && after_digit then digits_value s' acc false
          else None
      end
  end.

(** The white space [int] accepts around a literal: unlike [strip], it
    does not take the separators 28 to 31 for white space. *)
Definition is_int_space (c : ascii) : bool :=
  let n := Z.of_nat (nat_of_ascii c) in
  ((9 <=? n) && (n <=? 13)) || (n =? 32).

Fixpoint lstrip_int (s : string) : string :=
  match s with
  | String c s' => if is_int_space c then lstrip_int s' else s
  | EmptyString => EmptyString
  end.

Fixpoint rstrip_int (s : string) : string :=
  match s with
  | String c s' =>
      match rstrip_int s' with
      | EmptyString =>
          if is_int_space c then EmptyString else String c EmptyString
      | kept => String c kept
      end
  | EmptyString => EmptyString
  end.

(** [int(s)] for a string, [None] when it raises [ValueError]: white
    space around the literal is dropped, then come an optional sign and
    the digits.  Digits and white space outside the ASCII range are not
    modelled. *)
Definition py_int_str (s : string) : option Z :=
  match rstrip_int (lstrip_int s) with
  | String "-" t => Z.opp <$> digits_value t 0 false
  | String "+" t => digits_value t 0 false
  | t => digits_value t 0 false
  end.

(** [int(v)], [None] when it raises [ValueError] or [TypeError]. *)
Definition py_int (v : value) : option Z :=
  match v with
  | VInt z => Some z
  | VBool b => Some (Z.b2z b)
  | VStr s => py_int_str s
  | _ => None
  end.

(** ** The list of reminders *)

(** The marks at the start of a line: for an urgent reminder, for
    another one, and for a reminder with a voice note. *)
Record list_marks : Type := {
  mark_urgent : string;
  mark_normal : string;
  mark_voice : string
}.

(** [h24, m = t.split(':'); h24 = int(h24)], [None] when a step raises. *)
Definition split_time (t : outcome value) : option (Z * string) :=
  match t with
  | Return (VStr s) =>
      match py_split ":" s with
      | [h; m] =>
          match py_int_str h with
          | Some h24 => Some (h24, m)
          | None => None
          end
      | _ => None
      end
  | _ => None
  end.

(** ["AM" if h24 < 12 else "PM"] *)
Definition meridiem (h24 : Z) : string := if h24 <? 12 then "AM" else "PM".

(** [h = h24 if h24 <= 12 else h24 - 12], then 12 for 0. *)
Definition hour12 (h24 : Z) : Z :=
  let h := if h24 <=? 12 then h24 else h24 - 12 in
  if h =? 0 then 12 else h.

(** [time_display] of [refresh_reminders_list]: the 12-hour reading of
    [r['time']], or [r['time']] itself when it cannot be read. *)
Definition time_display (env : Env) (r : value) : outcome string :=
  match split_time (getitem r "time") with
  | Some (h24, m) =>
      Return (str_int (hour12 h24) +:+ ":" +:+ m +:+ " " +:+ meridiem h24)
  | None =>
      match getitem r "time" with
      | Raise e => Raise e
      | Return t => Return (format_value env t)
      end
  end.

(** The text of a line up to the id field:
    [f"{priority} {voice} {r['title']} | {r['date']} {time_display} | "]. *)
Definition line_head (env : Env) (marks : list_marks) (r : value)
  : outcome string :=
  match getitem r "priority" with
  | Raise e => Raise e
  | Return p =>
      let priority :=
        if eq_str p "urgent" then mark_urgent marks else mark_normal marks in
      match get_default r "voice_note" VNone with
      | Raise e => Raise e
      | Return v =>
          let voice := if truthy v then mark_voice marks else "" in
          match time_display env r with
          | Raise e => Raise e
          | Return shown_time =>
              match getitem r "title" with
              | Raise e => Raise e
              | Return title =>
                  match getitem r "date" with
                  | Raise e => Raise e
                  | Return d =>
                      Return (priority +:+ " " +:+ voice +:+ " "
                              +:+ format_value env title +:+ " | "
                              +:+ format_value env d +:+ " " +:+ shown_time
                              +:+ " | ")
                  end
              end
          end
      end
  end.

(** The line of the list box for [r]: none for a reminder that is not
    active, else the head followed by [f"ID:{r['id']}"]. *)
Definition listbox_line (env : Env) (marks : list_marks) (r : value)
  : outcome (option string) :=
  match getitem r "active" with
  | Raise e => Raise e
  | Return active =>
      if truthy active then
        match line_head env marks r with
        | Raise e => Raise e
        | Return head =>
            match getitem r "id" with
            | Raise e => Raise e
            | Return rid =>
                Return (Some (head +:+ "ID:" +:+ format_value env rid))
            end
        end
      else Return None
  end.

(** The [for] loop of [refresh_reminders_list]: the lines inserted, and
    the exception that ended the loop, if any. *)
Fixpoint refresh_lines (env : Env) (marks : list_marks) (todo : list value)
  : list string * outcome unit :=
  match todo with
  | [] => ([], Return tt)
  | r :: rest =>
      match listbox_line env marks r with
      | Raise e => ([], Raise e)
      | Return None => refresh_lines env marks rest
      | Return (Some text) =>
          let (lines, o) := refresh_lines env marks rest in (text :: lines, o)
      end
  end.

(** [refresh_reminders_list]: the list box is emptied and filled again
    from the store. *)
Definition refresh_reminders_list (env : Env) (marks : list_marks)
    (st : ReminderApp) : list string * outcome unit :=
  match py_iter (reminders st) with
  | Raise e => ([], Raise e)
  | Return items => refresh_lines env marks items
  end.

(** [int(item_text.split("ID:")[1].strip())], [None] when it raises. *)
Definition selected_id (item_text : string) : option Z :=
  match py_split "ID:" item_text with
  | _ :: field :: _ => py_int_str (strip field)
  | _ => None
  end.

(** [delete_reminder] as a whole: [selection] is the text of the selected
    line, if a line is selected. *)
Definition delete_reminder_selected (selection : option string) : M unit :=
  match selection with
  | None => ret tt
  | Some item_text =>
      match selected_id item_text with
      | None => ret tt
      | Some reminder_id => delete_reminder reminder_id
      end
  end.

(** [edit_reminder] as a whole. *)
Definition edit_reminder_selected (selection : option string)
    (remove_voice : bool) (action : option edit_form) : M unit :=
  match selection with
  | None => ret tt
  | Some item_text =>
      match selected_id item_text with
      | None => ret tt
      | Some reminder_id => edit_reminder reminder_id remove_voice action
      end
  end.


(** The marks written in the examples. *)
Definition marks_ascii : list_marks :=
  {| mark_urgent := "(!)"; mark_normal := "(-)"; mark_voice := "(v)" |}.

(** A reminder whose title holds the text ["ID:7ID:"], and the same
    reminder under another id. *)
Definition reminder_shadowed (rid : Z) : dict :=
  <["id" := VInt rid]>
  (<["title" := VStr "Renew ID:7ID: card"]>
  (<["description" := VStr ""]>
  (<["date" := VStr "2024-06-01"]>
  (<["time" := VStr "14:30"]>
  (<["priority" := VStr "normal"]>
  (<["active" := VBool true]> ∅)))))).

(** A store that holds the reminder [reminder_call_bob] only. *)
Definition app_call_bob : ReminderApp :=
  set_reminders (VList [VDict reminder_call_bob]) app_empty.

(** The turn [t] of the monitor loop shows an alert for [r]. *)
Definition fired (t : tick) (r : value) : bool :=
  match tick_verdict t r with
  | Fire _ _ => true
  | _ => false
  end.

(** The form of an edit of "Call Bob" in which the hour spin box was
    emptied. *)
Definition form_hour_emptied : edit_form :=
  {| title_entry := "Call Bob tomorrow"; desc_entry := "";
     date_entry := Date 2024 6 2;
     edit_hour_var := None; edit_minute_var := Some 30;
     edit_ampm_var := "PM"; priority_combo := "urgent";
     new_voice_note := VNone |}.

(** A reminder as read from a file written by hand: its voice note is a
    number. *)
Definition reminder_voice_number : dict :=
  <["voice_note" := VInt 5]> reminder_call_bob.

(** ** Screens (the multi-screen variant of the program) *)

(** A monitor as the screen detection reports it; [m_is_primary] is
    [None] when the object has no attribute [is_primary]. *)
Record monitor : Type := {
  m_x : Z;
  m_y : Z;
  m_width : Z;
  m_height : Z;
  m_is_primary : option value
}.

(** [screen_info] of [detect_screens] for the monitor of index [idx]. *)
Definition screen_info (idx : Z) (m : monitor) : value :=
  VDict (<["index" := VInt idx]>
        (<["name" := VStr ("Screen " +:+ str_int (idx + 1))]>
        (<["x" := VInt (m_x m)]>
        (<["y" := VInt (m_y m)]>
        (<["width" := VInt (m_width m)]>
        (<["height" := VInt (m_height m)]>
        (<["is_primary" :=
             match m_is_primary m with
             | Some p => p
             | None => VBool (idx =? 0)
             end]> ∅))))))).

(** The loop [for idx, monitor in enumerate(monitors)] from index [idx]. *)
Fixpoint screen_infos (idx : Z) (monitors : list monitor) : list value :=
  match monitors with
  | [] => []
  | m :: rest => screen_info idx m :: screen_infos (idx + 1) rest
  end.

(** The screen used when none is detected. *)
Definition default_screen : value :=
  VDict (<["index" := VInt 0]>
        (<["name" := VStr "Primary Screen"]>
        (<["x" := VInt 0]>
        (<["y" := VInt 0]>
        (<["width" := VInt 1920]>
        (<["height" := VInt 1080]>
        (<["is_primary" := VBool true]> ∅))))))).

(** [detect_screens], the value it leaves in [self.screens]; [detected]
    is the list [get_monitors()] returns, [None] when the detection is
    not available or raises. *)
Definition detect_screens (detected : option (list monitor)) : list value :=
  let screens :=
    match detected with
    | Some monitors => screen_infos 0 monitors
    | None => []
    end in
  if truthy (VList screens) then screens else [default_screen].

(** The [for] loop of [get_primary_screen]. *)
Fixpoint first_primary (screens : list value) : outcome (option value) :=
  match screens with
  | [] => Return None
  | screen :: rest =>
      match getitem screen "is_primary" with
      | Raise e => Raise e
      | Return p =>
          if truthy p then Return (Some screen) else first_primary rest
      end
  end.

(** [get_primary_screen]: the first screen marked primary, else the first
    screen, else [None]. *)
Definition get_primary_screen (screens : list value) : outcome value :=
  match first_primary screens with
  | Raise e => Raise e
  | Return (Some screen) => Return screen
  | Return None =>
      Return (match screens with
              | screen :: _ => screen
              | [] => VNone
              end)
  end.

(** [l[idx]] for an integer [idx], [None] when it raises [IndexError]: a
    negative index counts from the end. *)
Definition py_index (l : list value) (idx : Z) : option value :=
  let n := Z.of_nat (length l) in
  if (0 <=? idx) && (idx <? n) then l !! Z.to_nat idx
  else if (- n <=? idx) && (idx <? 0) then l !! Z.to_nat (n + idx)
  else None.

(** [get_screens_to_show] for the setting [selected_screens]. *)
Definition get_screens_to_show (selected_screens : value)
    (screens : list value) : outcome (list value) :=
  if eq_str selected_screens "all" then Return screens
  else
    let primary :=
      match get_primary_screen screens with
      | Raise e => Raise e
      | Return screen => Return [screen]
      end in
    if eq_str selected_screens "primary" then primary
    else
      match py_int selected_screens with
      | Some idx =>
          match py_index screens idx with
          | Some screen => Return [screen]
          | None => primary
          end
      | None => primary
      end.

(** The keys of a screen [show_fullscreen_alert] reads to place a
    window hold integers. *)
Definition has_geometry (screen : value) : Prop :=
  exists (d : dict) (x y w h : Z),
    screen = VDict d /\ d !! "x" = Some (VInt x) /\ d !! "y" = Some (VInt y)
    /\ d !! "width" = Some (VInt w) /\ d !! "height" = Some (VInt h)
    /\ is_Some (d !! "is_primary").

(** Two monitors side by side, the second one marked primary. *)
Definition two_monitors : list monitor :=
  [ {| m_x := 0; m_y := 0; m_width := 1920; m_height := 1080;
       m_is_primary := Some (VBool false) |};
    {| m_x := 1920; m_y := 0; m_width := 2560; m_height := 1440;
       m_is_primary := Some (VBool true) |} ].

(** ** Settings *)

(** The attributes of [ReminderApp] the settings methods use, and the
    content of [SETTINGS_FILE]. *)
Record Settings : Type := {
  custom_tone_path : value;
  fullscreen_mode : value;
  selected_screens : value;
  SETTINGS_FILE : data_file
}.

(** The attributes as [__init__] sets them before [load_settings]. *)
Definition Settings_new (file : data_file) : Settings :=
  {| custom_tone_path := VNone; fullscreen_mode := VBool true;
     selected_screens := VStr "all"; SETTINGS_FILE := file |}.

Definition set_custom_tone_path (v : value) (s : Settings) : Settings :=
  {| custom_tone_path := v; fullscreen_mode := fullscreen_mode s;
     selected_screens := selected_screens s;
     SETTINGS_FILE := SETTINGS_FILE s |}.

Definition set_fullscreen_mode (v : value) (s : Settings) : Settings :=
  {| custom_tone_path := custom_tone_path s; fullscreen_mode := v;
     selected_screens := selected_screens s;
     SETTINGS_FILE := SETTINGS_FILE s |}.

Definition set_selected_screens (v : value) (s : Settings) : Settings :=
  {| custom_tone_path := custom_tone_path s;
     fullscreen_mode := fullscreen_mode s;
     selected_screens := v; SETTINGS_FILE := SETTINGS_FILE s |}.

Definition set_SETTINGS_FILE (f : data_file) (s : Settings) : Settings :=
  {| custom_tone_path := custom_tone_path s;
     fullscreen_mode := fullscreen_mode s;
     selected_screens := selected_screens s; SETTINGS_FILE := f |}.

(** [load_settings] of the multi-screen variant: nothing is read when the
    file is absent; an exception while reading is discarded, and the
    attributes assigned before it keep their new value. *)
Definition load_settings (s : Settings) : Settings :=
  match SETTINGS_FILE s with
  | Missing => s
  | Malformed => s
  | Document settings =>
      match get_default settings "custom_tone_path" VNone with
      | Raise _ => s
      | Return tone =>
          let s := set_custom_tone_path tone s in
          match get_default settings "fullscreen_mode" (VBool true) with
          | Raise _ => s
          | Return mode =>
              let s := set_fullscreen_mode mode s in
              match get_default settings "selected_screens" (VStr "all") with
              | Raise _ => s
              | Return screens => set_selected_screens screens s
              end
          end
      end
  end.

(** [save_settings] of the multi-screen variant. *)
Definition save_settings (s : Settings) : Settings :=
  set_SETTINGS_FILE
    (Document (VDict (<["custom_tone_path" := custom_tone_path s]>
                     (<["fullscreen_mode" := fullscreen_mode s]>
                     (<["selected_screens" := selected_screens s]> ∅))))) s.

(** [load_settings] and [save_settings] of the single-screen variant,
    which has no attribute [selected_screens]: the field of that name is
    left as it is. *)
Definition load_settings_single (s : Settings) : Settings :=
  match SETTINGS_FILE s with
  | Missing => s
  | Malformed => s
  | Document settings =>
      match get_default settings "custom_tone_path" VNone with
      | Raise _ => s
      | Return tone =>
          let s := set_custom_tone_path tone s in
          match get_default settings "fullscreen_mode" (VBool true) with
          | Raise _ => s
          | Return mode => set_fullscreen_mode mode s
          end
      end
  end.

Definition save_settings_single (s : Settings) : Settings :=
  set_SETTINGS_FILE
    (Document (VDict (<["custom_tone_path" := custom_tone_path s]>
                     (<["fullscreen_mode" := fullscreen_mode s]> ∅)))) s.

(** The settings at the start of the multi-screen variant and of the
    single-screen variant. *)
Definition Settings_init (file : data_file) : Settings :=
  load_settings (Settings_new file).

Definition Settings_init_single (file : data_file) : Settings :=
  load_settings_single (Settings_new file).

(** [toggle_fullscreen_mode], with [checked] the state of the check
    box. *)
Definition toggle_fullscreen_mode (checked : bool) (s : Settings) : Settings :=
  save_settings (set_fullscreen_mode (VBool checked) s).

(** [select_custom_tone], with [file_path] the answer of the file dialog
    (empty when it is cancelled). *)
Definition select_custom_tone (file_path : string) (s : Settings) : Settings :=
  if truthy (VStr file_path)
  then save_settings (set_custom_tone_path (VStr file_path) s)
  else s.

(** [save_screen_selection] up to the message it shows, with [choice]
    the value of the radio button. *)
Definition save_screen_selection (choice : string) (s : Settings) : Settings :=
  save_settings (set_selected_screens (VStr choice) s).

(** The changes of the settings tab. *)
Inductive settings_op : Type :=
  | OpToggleFullscreen (checked : bool)
  | OpSelectTone (file_path : string)
  | OpSelectScreen (choice : string).

Definition run_settings_op (o : settings_op) (s : Settings) : Settings :=
  match o with
  | OpToggleFullscreen checked => toggle_fullscreen_mode checked s
  | OpSelectTone file_path => select_custom_tone file_path s
  | OpSelectScreen choice => save_screen_selection choice s
  end.

(** ** The alarm sound *)

(** What the sound functions find: whether the mixer is available, what
    [os.path.exists] answers ([None] when it raises), and whether the
    mixer loads and plays a file ([false] when it raises). *)
Record Audio : Type := {
  AUDIO_AVAILABLE : bool;
  path_exists : value -> option bool;
  music_load : value -> bool;
  music_play : value -> bool
}.

(** What is heard: the terminal bell, or a file played in a loop. *)
Inductive sound : Type :=
  | Bell
  | Loop (path : value).

(** [play_alarm_sound(custom_path)] with the custom tone [tone]. *)
Definition play_alarm_sound (au : Audio) (tone custom_path : value) : sound :=
  if negb (AUDIO_AVAILABLE au) then Bell
  else
    let sound_path := if truthy custom_path then custom_path else tone in
    if truthy sound_path then
      match path_exists au sound_path with
      | None => Bell
      | Some true =>
          if music_load au sound_path then
            if music_play au sound_path then Loop sound_path else Bell
          else Bell
      | Some false => Bell
      end
    else Bell.

(** The sound of an alert: [show_fullscreen_alert] ends with
    [play_alarm_sound(custom_voice)]. *)
Definition alert_sound (au : Audio) (s : Settings) (a : alert) : sound :=
  play_alarm_sound au (custom_tone_path s) (alert_custom_voice a).

(** An audio setup in which the files ["tone.mp3"] and ["voice.wav"]
    exist and every file is played. *)
Definition audio_ok : Audio :=
  {| AUDIO_AVAILABLE := true;
     path_exists := λ p, Some (eq_str p "tone.mp3" || eq_str p "voice.wav");
     music_load := λ _, true;
     music_play := λ _, true |}.
(** * Theorems *)

(** Linear arithmetic with quotients and remainders by constants. *)
Ltac div_lia := Z.div_mod_to_equations; lia.

(** The value of a field in a dictionary built by successive
    [d[key] = v]. *)
Ltac lookup_fields :=
  by repeat (rewrite lookup_insert_eq || rewrite lookup_insert_ne by done).

(** ** The library functions on examples *)

Example strftime_example :
  strftime_Ymd_HM (Datetime 2024 6 1 14 30 12 0) = "2024-06-01 14:30".
Proof. reflexivity. Qed.

Example ord2ymd_example :
  ord2ymd (ymd2ord 2024 2 29) = Date 2024 2 29
  /\ ord2ymd (ymd2ord 2024 2 29 + 1) = Date 2024 3 1
  /\ ord2ymd (ymd2ord 2023 12 31 + 1) = Date 2024 1 1
  /\ ord2ymd 1 = Date 1 1 1 /\ ord2ymd MAXORDINAL = Date 9999 12 31.
Proof. repeat split; reflexivity. Qed.

Example strip_example :
  strip "  Call Bob " = "Call Bob" /\ strip "   " = "" /\ strip "a  b" = "a  b".
Proof. repeat split; reflexivity. Qed.

Example format_0d_example :
  format_0d 2 7 = "07" /\ format_0d 2 12 = "12" /\ format_0d 2 123 = "123"
  /\ format_0d 2 (-5) = "-5" /\ format_0d 3 (-5) = "-05" /\ format_0d 2 0 = "00".
Proof. repeat split; reflexivity. Qed.

(** ** Number formatting *)

Lemma format_0d_two_digits n : 0 <= n < 100 -> format_0d 2 n = two_digits n.
Proof.
  intros Hn.
  assert (Hall : forallb (λ k, String.eqb (format_0d 2 k) (two_digits k))
                   (seqZ 0 100) = true) by (vm_compute; reflexivity).
  rewrite forallb_forall in Hall.
  apply String.eqb_eq, Hall, list_elem_of_In, elem_of_seqZ. lia.
Qed.

Lemma digit_char_inj a b :
  0 <= a < 10 -> 0 <= b < 10 -> digit_char a = digit_char b -> a = b.
Proof.
  intros Ha Hb Heq. unfold digit_char in Heq.
  apply (f_equal nat_of_ascii) in Heq.
  rewrite !nat_ascii_embedding in Heq by lia. lia.
Qed.

Lemma two_digits_inj a b :
  0 <= a < 100 -> 0 <= b < 100 -> two_digits a = two_digits b -> a = b.
Proof.
  intros Ha Hb Heq. unfold two_digits in Heq.
  injection Heq as H1 H0.
  apply digit_char_inj in H1; [| div_lia ..].
  apply digit_char_inj in H0; [| div_lia ..].
  div_lia.
Qed.

Lemma hhmm_inj h m h' m' :
  0 <= h < 100 -> 0 <= m < 100 -> 0 <= h' < 100 -> 0 <= m' < 100 ->
  hhmm h m = hhmm h' m' -> h = h' /\ m = m'.
Proof.
  intros Hh Hm Hh' Hm' Heq. unfold hhmm, two_digits in Heq. simpl in Heq.
  injection Heq as H1 H2 H3 H4.
  split; apply two_digits_inj; unfold two_digits; try lia; congruence.
Qed.

Lemma get_24hour_time_hhmm hour minute ampm :
  1 <= hour <= 12 -> 0 <= minute <= 59 -> ampm = "AM" \/ ampm = "PM" ->
  0 <= hour24 hour ampm <= 23
  /\ get_24hour_time hour minute ampm = hhmm (hour24 hour ampm) minute.
Proof.
  intros Hh Hm Ha. unfold get_24hour_time, hour24, hhmm.
  destruct Ha as [-> | ->]; simpl; destruct (Z.eqb_spec hour 12) as [-> | Hne];
    simpl; (split; [lia |]); rewrite !format_0d_two_digits by lia; reflexivity.
Qed.

(** ** C10: the 12-hour to 24-hour conversion *)

(** C10. For an hour in 1..12, a minute in 0..59 and a meridiem AM or PM,
    [get_24hour_time] returns ["HH:MM"], two zero-padded digits each, with
    the minute of the input and the hour [hour24]: 0 for 12 AM, 12 for
    12 PM, [h + 12] for another PM hour, [h] for another AM hour, always in
    0..23.  On these inputs the conversion is injective, and every minute
    of the 24-hour day is the image of one of them: it is a bijection
    onto the 24-hour minutes of a day. *)
Theorem get_24hour_time_bijection (hour minute : Z) (ampm : string)
    (Hhour : 1 <= hour <= 12) (Hminute : 0 <= minute <= 59)
    (Hampm : ampm = "AM" \/ ampm = "PM") :
  (get_24hour_time hour minute ampm = hhmm (hour24 hour ampm) minute
   /\ 0 <= hour24 hour ampm <= 23
   /\ (ampm = "AM" -> hour = 12 -> hour24 hour ampm = 0)
   /\ (ampm = "PM" -> hour = 12 -> hour24 hour ampm = 12)
   /\ (ampm = "PM" -> hour <> 12 -> hour24 hour ampm = hour + 12)
   /\ (ampm = "AM" -> hour <> 12 -> hour24 hour ampm = hour))
  /\ (forall hour' minute' ampm',
        1 <= hour' <= 12 -> 0 <= minute' <= 59 ->
        ampm' = "AM" \/ ampm' = "PM" ->
        get_24hour_time hour' minute' ampm' = get_24hour_time hour minute ampm ->
        hour' = hour /\ minute' = minute /\ ampm' = ampm)
  /\ (forall h m, 0 <= h <= 23 -> 0 <= m <= 59 ->
        exists hour' ampm',
          1 <= hour' <= 12 /\ (ampm' = "AM" \/ ampm' = "PM")
          /\ get_24hour_time hour' m ampm' = hhmm h m).
Proof.
  split; [| split].
  - destruct (get_24hour_time_hhmm hour minute ampm) as [Hr ->]; [done ..|].
    split; [done |]. split; [done |].
    unfold hour24.
    repeat split; intros -> Hc; simpl;
      destruct (Z.eqb_spec hour 12); congruence || lia.
  - intros hour' minute' ampm' Hh' Hm' Ha' Heq.
    destruct (get_24hour_time_hhmm hour minute ampm) as [Hr E]; [done ..|].
    destruct (get_24hour_time_hhmm hour' minute' ampm') as [Hr' E']; [done ..|].
    rewrite E, E' in Heq. apply hhmm_inj in Heq as [H24 ->]; [| lia ..].
    unfold hour24 in H24.
    destruct Hampm as [-> | ->], Ha' as [-> | ->]; simpl in H24;
      revert H24; destruct (Z.eqb_spec hour 12), (Z.eqb_spec hour' 12);
      intros H24; (repeat split; first [reflexivity | lia]).
  - intros h m Hh Hm.
    destruct (decide (h = 0)) as [-> | H0].
    { exists 12, "AM". split; [lia |]. split; [by left |].
      by destruct (get_24hour_time_hhmm 12 m "AM") as [_ ->]; [lia | lia | left |]. }
    destruct (decide (h < 12)) as [Hlt | Hge].
    { exists h, "AM". split; [lia |]. split; [by left |].
      destruct (get_24hour_time_hhmm h m "AM") as [_ ->]; [lia | lia | by left |].
      unfold hour24. simpl. destruct (Z.eqb_spec h 12); [lia | done]. }
    destruct (decide (h = 12)) as [-> | H12].
    { exists 12, "PM". split; [lia |]. split; [by right |].
      by destruct (get_24hour_time_hhmm 12 m "PM") as [_ ->]; [lia | lia | right |]. }
    exists (h - 12), "PM". split; [lia |]. split; [by right |].
    destruct (get_24hour_time_hhmm (h - 12) m "PM") as [_ ->]; [lia | lia | by right |].
    unfold hour24. simpl. destruct (Z.eqb_spec (h - 12) 12); [lia |].
    f_equal. lia.
Qed.

Lemma get_24hour_time_bijection_witness :
  get_24hour_time 12 5 "AM" = "00:05" /\ get_24hour_time 3 7 "PM" = "15:07".
Proof.
  split.
  - destruct (get_24hour_time_bijection 12 5 "AM") as [[E _] _];
      [lia | lia | by left |]. rewrite E. reflexivity.
  - destruct (get_24hour_time_bijection 3 7 "PM") as [[E _] _];
      [lia | lia | by right |]. rewrite E. reflexivity.
Defined.

(** ** C2: the trigger time of a snoozed item *)

Lemma valid_datetime_time t :
  valid_datetime t = true ->
  0 <= hour t < 24 /\ 0 <= minute t < 60 /\ 0 <= second t < 60
  /\ 0 <= microsecond t < 1000000.
Proof. unfold valid_datetime. rewrite !andb_true_iff. lia. Qed.

Lemma second_of_day_split x s :
  x mod 60 = 0 -> 0 <= s < 60 ->
  (x + s) / 86400 = x / 86400
  /\ ((x + s) mod 86400) / 3600 = (x mod 86400) / 3600
  /\ (((x + s) mod 86400) mod 3600) / 60 = ((x mod 86400) mod 3600) / 60
  /\ (((x + s) mod 86400) mod 3600) mod 60 = s
  /\ ((x mod 86400) mod 3600) mod 60 = 0.
Proof. intros Hx Hs. div_lia. Qed.

Lemma timedelta_minutes_whole m delta :
  timedelta_minutes m = Return delta ->
  td_seconds delta mod 60 = 0 /\ td_microseconds delta = 0.
Proof.
  unfold timedelta_minutes, mk_timedelta. simpl.
  destruct (_ >? _); [discriminate |]. intros [= <-]. simpl.
  split; [| reflexivity]. div_lia.
Qed.

(** Adding whole minutes commutes with dropping the seconds. *)
Lemma datetime_add_truncate t delta :
  valid_datetime t = true ->
  td_seconds delta mod 60 = 0 -> td_microseconds delta = 0 ->
  datetime_add (truncate_to_minute t) delta =
  match datetime_add t delta with
  | Return t' => Return (truncate_to_minute t')
  | Raise e => Raise e
  end.
Proof.
  intros Hv Hs Hus.
  destruct (valid_datetime_time t Hv) as (Hh & Hmi & Hsec & Hmicro).
  destruct delta as [dd ds dus]. simpl in Hs, Hus. subst dus.
  unfold datetime_add, timedelta_add, mk_timedelta, toordinal, truncate_to_minute.
  cbn [year month day hour minute second microsecond
       td_days td_seconds td_microseconds].
  generalize (ymd2ord (year t) (month t) (day t)). intros o.
  replace (microsecond t / 1000000) with 0 by (div_lia).
  replace (microsecond t mod 1000000) with (microsecond t)
    by (div_lia).
  change (0 / 1000000) with 0. change (0 mod 1000000) with 0.
  set (x := hour t * 3600 + minute t * 60).
  replace ((x + second t + 0) / 86400) with 0 by (div_lia).
  replace ((x + 0 + 0) / 86400) with 0 by (div_lia).
  replace ((x + second t + 0) mod 86400) with (x + second t)
    by (div_lia).
  replace ((x + 0 + 0) mod 86400) with x by (div_lia).
  destruct (Z.abs (o + 0) >? 999999999); [reflexivity |].
  cbn [td_days td_seconds td_microseconds].
  replace ((microsecond t + 0) / 1000000) with 0 by (div_lia).
  replace ((microsecond t + 0) mod 1000000) with (microsecond t)
    by (div_lia).
  change ((0 + 0) / 1000000) with 0. change ((0 + 0) mod 1000000) with 0.
  replace (x + second t + ds + 0) with ((x + ds) + second t) by lia.
  replace (x + ds + 0) with (x + ds) by lia.
  assert (Hx : (x + ds) mod 60 = 0) by (subst x; div_lia).
  destruct (second_of_day_split (x + ds) (second t) Hx Hsec)
    as (Ed & Eh & Em & _ & Es).
  rewrite Ed.
  destruct (Z.abs _ >? 999999999); [reflexivity |].
  cbn [td_days td_seconds td_microseconds].
  rewrite Eh, Em, Es.
  destruct (_ && _); reflexivity.
Qed.

Lemma strftime_truncate t :
  strftime_Ymd_HM (truncate_to_minute t) = strftime_Ymd_HM t.
Proof. reflexivity. Qed.

Lemma plus_minutes_truncate t m :
  valid_datetime t = true ->
  plus_minutes (truncate_to_minute t) m =
  match plus_minutes t m with
  | Return t' => Return (truncate_to_minute t')
  | Raise e => Raise e
  end.
Proof.
  intros Hv. unfold plus_minutes.
  destruct (timedelta_minutes m) as [delta | e] eqn:E; [| reflexivity].
  apply timedelta_minutes_whole in E as [Hs Hus].
  by apply datetime_add_truncate.
Qed.


(** *** The calendar: [ord2ymd] inverts [ymd2ord] *)

Lemma ord2ymd_leap n400 n100 n4 n1 :
  0 <= n400 -> 0 <= n100 <= 3 -> 0 <= n4 <= 24 -> 0 <= n1 <= 3 ->
  is_leap (n400 * 400 + 1 + n100 * 100 + n4 * 4 + n1)
  = (n1 =? 3) && (negb (n4 =? 24) || (n100 =? 3)).
Proof.
  intros H400 H100 H4 H1. unfold is_leap.
  set (y := n400 * 400 + 1 + n100 * 100 + n4 * 4 + n1).
  assert (E4 : (y mod 4 =? 0) = (n1 =? 3)).
  { subst y. destruct (Z.eqb_spec n1 3) as [-> | Hne]; apply Z.eqb_eq || apply Z.eqb_neq;
      div_lia. }
  assert (E100 : (y mod 100 =? 0) = (n1 =? 3) && (n4 =? 24)).
  { subst y. destruct (Z.eqb_spec n1 3) as [-> | Hne], (Z.eqb_spec n4 24) as [-> | Hne'];
      simpl; apply Z.eqb_eq || apply Z.eqb_neq; div_lia. }
  assert (E400 : (y mod 400 =? 0) = (n1 =? 3) && (n4 =? 24) && (n100 =? 3)).
  { subst y. destruct (Z.eqb_spec n1 3) as [-> | Hne], (Z.eqb_spec n4 24) as [-> | Hne'],
      (Z.eqb_spec n100 3) as [-> | Hne''];
      simpl; apply Z.eqb_eq || apply Z.eqb_neq; div_lia. }
  rewrite E4, E100, E400.
  by destruct (n1 =? 3), (n4 =? 24), (n100 =? 3).
Qed.

Lemma days_before_leap_year_end k :
  1 <= k -> k mod 25 <> 0 \/ k mod 100 = 0 ->
  (4 * k - 1) * 365 + (4 * k - 1) / 4 - (4 * k - 1) / 100 + (4 * k - 1) / 400
  = 1461 * k - k / 25 + k / 100 - 366.
Proof.
  intros Hk Hleap.
  assert (E4 : (4 * k - 1) / 4 = k - 1) by (div_lia).
  destruct (decide (k mod 25 = 0)) as [H25 | H25].
  - assert (H100 : k mod 100 = 0) by tauto.
    assert (E100 : (4 * k - 1) / 100 = k / 25 - 1)
      by (div_lia).
    assert (E400 : (4 * k - 1) / 400 = k / 100 - 1)
      by (div_lia).
    lia.
  - assert (H100 : k mod 100 <> 0) by (div_lia).
    assert (E100 : (4 * k - 1) / 100 = k / 25)
      by (div_lia).
    assert (E400 : (4 * k - 1) / 400 = k / 100)
      by (div_lia).
    lia.
Qed.

Lemma days_before_year_split n400 n100 n4 n1 :
  0 <= n400 -> 0 <= n100 <= 3 -> 0 <= n4 <= 24 -> 0 <= n1 <= 3 ->
  days_before_year (n400 * 400 + 1 + n100 * 100 + n4 * 4 + n1)
  = 146097 * n400 + 36524 * n100 + 1461 * n4 + 365 * n1.
Proof.
  intros H400 H100 H4 H1. unfold days_before_year. cbv zeta.
  div_lia.
Qed.

(** The month and the day [ord2ymd] finds for the day [r] (from 0) of a
    year that is a leap year or not according to [leap]. *)
Lemma ord2ymd_month_day (leap : bool) r :
  0 <= r < 365 ->
  let m := Z.shiftr (r + 50) 5 in
  let preceding := days_before_month_tbl m + Z.b2z ((2 <? m) && leap) in
  let md :=
    if r <? preceding then
      (m - 1,
       r - (preceding
            - (days_in_month_tbl (m - 1) + Z.b2z ((m - 1 =? 2) && leap))) + 1)
    else (m, r - preceding + 1) in
  1 <= md.1 <= 12
  /\ days_before_month_tbl md.1 + Z.b2z ((2 <? md.1) && leap) + md.2 = r + 1
  /\ 1 <= md.2
       <= (if (md.1 =? 2) && leap then 29 else days_in_month_tbl md.1).
Proof.
  intros Hr. cbv zeta. rewrite Z.shiftr_div_pow2 by lia.
  change (2 ^ 5) with 32.
  assert (Hm : 1 <= (r + 50) / 32 <= 12) by (div_lia).
  assert (Hb : 32 * ((r + 50) / 32) <= r + 50 < 32 * ((r + 50) / 32) + 32)
    by (div_lia).
  generalize dependent ((r + 50) / 32). intros m Hm Hb.
  assert (Hcases : m = 1 \/ m = 2 \/ m = 3 \/ m = 4 \/ m = 5 \/ m = 6 \/ m = 7
                   \/ m = 8 \/ m = 9 \/ m = 10 \/ m = 11 \/ m = 12) by lia.
  destruct leap;
    repeat (destruct Hcases as [-> | Hcases]); try subst m; simpl;
    match goal with
    | |- context [?a <? ?b] => destruct (Z.ltb_spec a b)
    end; simpl; lia.
Qed.

Lemma ord2ymd_roundtrip n :
  1 <= n <= MAXORDINAL ->
  ymd2ord (d_year (ord2ymd n)) (d_month (ord2ymd n)) (d_day (ord2ymd n)) = n
  /\ valid_date (d_year (ord2ymd n)) (d_month (ord2ymd n)) (d_day (ord2ymd n))
     = true.
Proof.
  intros Hn. unfold ord2ymd, MAXORDINAL, DI400Y, DI100Y, DI4Y in *.
  set (n' := n - 1).
  set (n400 := n' / 146097). set (r1 := n' mod 146097).
  set (n100 := r1 / 36524). set (r2 := r1 mod 36524).
  set (n4 := r2 / 1461). set (r3 := r2 mod 1461).
  set (n1 := r3 / 365). set (r4 := r3 mod 365).
  cbv zeta.
  assert (H400 : 0 <= n400 <= 24) by (subst n400 n'; div_lia).
  assert (Hr1 : 0 <= r1 < 146097 /\ n' = 146097 * n400 + r1)
    by (subst r1 n400; div_lia).
  assert (Hr2 : 0 <= r2 < 36524 /\ r1 = 36524 * n100 + r2 /\ 0 <= n100 <= 4)
    by (subst r2 n100; div_lia).
  assert (Hr3 : 0 <= r3 < 1461 /\ r2 = 1461 * n4 + r3 /\ 0 <= n4 <= 24)
    by (subst r3 n4; div_lia).
  assert (Hr4 : 0 <= r4 < 365 /\ r3 = 365 * n1 + r4 /\ 0 <= n1 <= 4)
    by (subst r4 n1; div_lia).
  clearbody n400 r1 n100 r2 n4 r3 n1 r4.
  destruct Hr1 as (Hr1 & E1), Hr2 as (Hr2 & E2 & H100), Hr3 as (Hr3 & E3 & H4),
    Hr4 as (Hr4 & E4 & H1).
  assert (En : n = 146097 * n400 + 36524 * n100 + 1461 * n4 + 365 * n1 + r4 + 1)
    by (subst n'; lia).
  destruct ((n1 =? 4) || (n100 =? 4)) eqn:Especial.
  - cbn [d_year d_month d_day].
    assert (Hy : exists k, n400 * 400 + 1 + n100 * 100 + n4 * 4 + n1 - 1 = 4 * k
                           /\ (k mod 25 <> 0 \/ k mod 100 = 0) /\ 1 <= k <= 2500
                           /\ n = 1461 * k - k / 25 + k / 100).
    { apply orb_true_iff in Especial as [E | E]; apply Z.eqb_eq in E.
      - exists (n400 * 100 + n100 * 25 + n4 + 1). div_lia.
      - exists (n400 * 100 + 100). div_lia. }
    destruct Hy as (k & -> & Hk & Hkr & Enk).
    unfold ymd2ord, valid_date, days_before_year, days_before_month, days_in_month.
    simpl days_before_month_tbl. simpl days_in_month_tbl. simpl (12 =? 2).
    assert (Hleap : is_leap (4 * k) = true).
    { unfold is_leap. apply andb_true_iff. split.
      - apply Z.eqb_eq. div_lia.
      - apply orb_true_iff. destruct Hk as [Hk | Hk].
        + left. apply negb_true_iff, Z.eqb_neq. div_lia.
        + right. apply Z.eqb_eq. div_lia. }
    rewrite Hleap. simpl.
    split.
    + rewrite days_before_leap_year_end by (done || lia). lia.
    + assert (k <= 2499) by (div_lia).
      rewrite !andb_true_iff, !Z.leb_le. lia.
  - apply orb_false_iff in Especial as [Hn1 Hn100].
    apply Z.eqb_neq in Hn1, Hn100.
    set (leap := (n1 =? 3) && (negb (n4 =? 24) || (n100 =? 3))).
    pose proof (ord2ymd_month_day leap r4 Hr4) as Hmd. cbv zeta in Hmd.
    set (m := Z.shiftr (r4 + 50) 5) in *.
    set (preceding := days_before_month_tbl m + Z.b2z ((2 <? m) && leap)) in *.
    assert (Hleap : is_leap (n400 * 400 + 1 + n100 * 100 + n4 * 4 + n1) = leap)
      by (apply ord2ymd_leap; lia).
    assert (Hdby : days_before_year (n400 * 400 + 1 + n100 * 100 + n4 * 4 + n1)
                   = 146097 * n400 + 36524 * n100 + 1461 * n4 + 365 * n1)
      by (apply days_before_year_split; lia).
    destruct (r4 <? preceding); cbn [d_year d_month d_day fst snd] in *;
      unfold ymd2ord, valid_date, days_before_month, days_in_month;
      rewrite Hleap, Hdby; destruct Hmd as (Hm & Hsum & Hday);
      (split; [lia |]);
      rewrite !andb_true_iff, !Z.leb_le; lia.
Qed.
Lemma datetime_add_minute_index t delta t' :
  valid_datetime t = true ->
  td_seconds delta mod 60 = 0 -> td_microseconds delta = 0 ->
  0 <= td_seconds delta < 86400 ->
  datetime_add t delta = Return t' ->
  minute_index t' * 60
  = minute_index t * 60 + td_days delta * 86400 + td_seconds delta
  /\ second t' = second t /\ microsecond t' = microsecond t
  /\ valid_datetime t' = true.
Proof.
  intros Hv Hs Hus Hds.
  destruct (valid_datetime_time t Hv) as (Hh & Hmi & Hsec & Hmicro).
  destruct delta as [dd ds dus]. simpl in Hs, Hus, Hds. subst dus.
  unfold datetime_add, timedelta_add, mk_timedelta, minute_index, toordinal.
  cbn [td_days td_seconds td_microseconds].
  generalize (ymd2ord (year t) (month t) (day t)). intros o.
  replace (microsecond t / 1000000) with 0 by (div_lia).
  replace (microsecond t mod 1000000) with (microsecond t)
    by (div_lia).
  set (x := hour t * 3600 + minute t * 60 + second t).
  replace ((x + 0) / 86400) with 0 by (div_lia).
  replace ((x + 0) mod 86400) with x by (div_lia).
  destruct (Z.abs (o + 0) >? 999999999); [discriminate |].
  cbn [td_days td_seconds td_microseconds].
  replace ((microsecond t + 0) / 1000000) with 0 by (div_lia).
  replace ((microsecond t + 0) mod 1000000) with (microsecond t)
    by (div_lia).
  destruct (Z.abs _ >? 999999999); [discriminate |].
  cbn [td_days td_seconds td_microseconds].
  set (days := o + 0 + dd + (x + ds + 0) / 86400).
  set (s := (x + ds + 0) mod 86400).
  destruct ((0 <? days) && (days <=? MAXORDINAL)) eqn:Erange; [| discriminate].
  apply andb_true_iff in Erange as [Hlo%Z.ltb_lt Hhi%Z.leb_le].
  destruct (ord2ymd_roundtrip days) as [Hord Hvalid]; [lia |].
  intros [= <-]. cbn [year month day hour minute second microsecond].
  rewrite Hord.
  assert (Hsr : 0 <= s < 86400) by (subst s; div_lia).
  split; [| split; [| split]].
  - subst days s x. div_lia.
  - subst s x. div_lia.
  - reflexivity.
  - unfold valid_datetime. cbn [year month day hour minute second microsecond].
    rewrite Hvalid. rewrite !andb_true_iff, !Z.leb_le, !Z.ltb_lt.
    clearbody s. div_lia.
Qed.

Lemma format_0d_four_digits n : 0 <= n < 10000 -> format_0d 4 n = four_digits n.
Proof.
  intros Hn.
  assert (Hall : forallb (λ k, String.eqb (format_0d 4 k) (four_digits k))
                   (seqZ 0 10000) = true) by (vm_compute; reflexivity).
  rewrite forallb_forall in Hall.
  apply String.eqb_eq, Hall, list_elem_of_In, elem_of_seqZ. lia.
Qed.

Lemma valid_date_bounds y m d :
  valid_date y m d = true -> 1 <= y <= 9999 /\ 1 <= m <= 12 /\ 1 <= d <= 31.
Proof.
  unfold valid_date, days_in_month. rewrite !andb_true_iff, !Z.leb_le.
  intros (((((Hy1 & Hy2) & Hm1) & Hm2) & Hd1) & Hd2).
  destruct ((m =? 2) && is_leap y); [lia |].
  assert (Hcases : m = 1 \/ m = 2 \/ m = 3 \/ m = 4 \/ m = 5 \/ m = 6 \/ m = 7
                   \/ m = 8 \/ m = 9 \/ m = 10 \/ m = 11 \/ m = 12) by lia.
  unfold days_in_month_tbl in Hd2.
  repeat (destruct Hcases as [-> | Hcases]); try subst m;
    cbv beta iota in Hd2; lia.
Qed.

(** On a valid moment the format ["%Y-%m-%d %H:%M"] gives the sixteen
    characters ["YYYY-MM-DD HH:MM"]. *)
Lemma strftime_Ymd_HM_shape t :
  valid_datetime t = true -> strftime_Ymd_HM t = ymd_hm t.
Proof.
  intros Hv. destruct (valid_datetime_time t Hv) as (Hh & Hmi & _).
  assert (Hd : valid_date (year t) (month t) (day t) = true).
  { unfold valid_datetime in Hv. rewrite !andb_true_iff in Hv. tauto. }
  apply valid_date_bounds in Hd as (Hy & Hm & Hd).
  unfold strftime_Ymd_HM, strftime_Ymd, strftime_ymd, strftime_HM, ymd_hm, hhmm.
  by rewrite format_0d_four_digits, !format_0d_two_digits by lia.
Qed.

Lemma timedelta_minutes_total m delta :
  timedelta_minutes m = Return delta ->
  td_days delta * 86400 + td_seconds delta = m * 60
  /\ 0 <= td_seconds delta < 86400.
Proof.
  unfold timedelta_minutes, mk_timedelta. simpl.
  destruct (_ >? _); [discriminate |]. intros [= <-]. simpl.
  div_lia.
Qed.

Lemma plus_minutes_minute_index t m t' :
  valid_datetime t = true -> plus_minutes t m = Return t' ->
  minute_index t' = minute_index t + m
  /\ second t' = second t /\ microsecond t' = microsecond t
  /\ valid_datetime t' = true.
Proof.
  intros Hv. unfold plus_minutes.
  destruct (timedelta_minutes m) as [delta | e] eqn:E; [| discriminate].
  destruct (timedelta_minutes_whole _ _ E) as [Hs Hus].
  destruct (timedelta_minutes_total _ _ E) as [Htot Hrange].
  intros Hadd.
  destruct (datetime_add_minute_index t delta t' Hv Hs Hus Hrange Hadd)
    as (Hidx & Hsec & Hmicro & Hv').
  repeat split; try done. lia.
Qed.

Lemma valid_truncate t :
  valid_datetime t = true -> valid_datetime (truncate_to_minute t) = true.
Proof.
  unfold valid_datetime, truncate_to_minute.
  cbn [year month day hour minute second microsecond].
  rewrite !andb_true_iff, !Z.leb_le, !Z.ltb_lt. intuition lia.
Qed.

(** C2. A snooze of [minutes] minutes performed at the wall-clock time
    [now] appends one snoozed item whose [trigger_time] is [now] truncated
    to the minute plus [minutes] minutes, formatted ["YYYY-MM-DD HH:MM"]:
    the seconds of [now] play no part, and the minute of the trigger is
    [minutes] minutes after the minute of [now].  When that moment falls
    outside the years 1 to 9999 the addition raises and nothing is
    appended. *)
Theorem snooze_item_trigger_time (now : datetime) (now_ms : Z)
    (item_id : value) (minutes : Z) (title message custom_voice : value)
    (st : ReminderApp) (Hnow : valid_datetime now = true) :
  match plus_minutes (truncate_to_minute now) minutes with
  | Return t =>
      (exists item : dict,
         snooze_item now now_ms item_id minutes title message custom_voice st
         = (Return tt, set_snoozed_items (snoozed_items st ++ [VDict item]) st)
         /\ item !! "trigger_time" = Some (VStr (strftime_Ymd_HM t)))
      /\ strftime_Ymd_HM t = ymd_hm t
      /\ minute_index t = minute_index now + minutes
      /\ second t = 0 /\ microsecond t = 0
  | Raise e =>
      snooze_item now now_ms item_id minutes title message custom_voice st
      = (Raise e, st)
  end.
Proof.
  pose proof (plus_minutes_minute_index (truncate_to_minute now) minutes)
    as Hidx.
  rewrite plus_minutes_truncate in Hidx |- * by done.
  unfold snooze_item, plus_minutes, bind, lift, modify in *.
  destruct (timedelta_minutes minutes) as [delta | e]; [| reflexivity].
  destruct (datetime_add now delta) as [t | e]; [| reflexivity].
  destruct (Hidx _ (valid_truncate _ Hnow) eq_refl) as (Hm & Hs & Hus & Hv).
  split; [| split; [by apply strftime_Ymd_HM_shape | done]].
  eexists. split; [reflexivity |].
  rewrite strftime_truncate.
  lookup_fields.
Qed.

Lemma snooze_item_trigger_time_witness :
  exists item : dict,
    snoozed_items
      (snooze_item (Datetime 2024 6 1 14 30 12 0) 1717252212000 (VInt 7) 10
         (VStr "REMINDER: Call Bob") (VStr "") VNone
         (ReminderApp_new Missing)).2 = [VDict item]
    /\ item !! "trigger_time" = Some (VStr "2024-06-01 14:40").
Proof.
  destruct (snooze_item_trigger_time (Datetime 2024 6 1 14 30 12 0)
              1717252212000 (VInt 7) 10 (VStr "REMINDER: Call Bob") (VStr "")
              VNone (ReminderApp_new Missing) eq_refl)
    as ((item & E & Ht) & _).
  exists item. rewrite E. split; [reflexivity | exact Ht].
Defined.

(** ** C6 and C5: loading and saving the store *)

Lemma try_except_pass_returns m st : (try_except_pass m st).1 = Return tt.
Proof. unfold try_except_pass. by destruct (m st) as [[[] | e] st']. Qed.

Lemma load_data_returns st : (load_data st).1 = Return tt.
Proof.
  unfold load_data, bind, gets.
  destruct (DATA_FILE st); [reflexivity | apply try_except_pass_returns ..].
Qed.

(** C6. When the data file is missing, or its content is malformed (not
    JSON, or a JSON document that is not an object), the application
    starts with an empty store: [reminders] and [alarms] are the empty
    lists set by the constructor.  [load_data] raises no exception,
    whatever the file holds. *)
Theorem load_data_missing_or_malformed (file : data_file)
    (Hfile : file = Missing \/ file = Malformed
             \/ exists doc, file = Document doc /\ forall d, doc <> VDict d) :
  ReminderApp_init file = (Return tt, ReminderApp_new file)
  /\ reminders (ReminderApp_init file).2 = VList []
  /\ alarms (ReminderApp_init file).2 = VList []
  /\ forall st, (load_data st).1 = Return tt.
Proof.
  assert (E : ReminderApp_init file = (Return tt, ReminderApp_new file)).
  { destruct Hfile as [-> | [-> | (doc & -> & Hdoc)]]; [reflexivity ..|].
    unfold ReminderApp_init, load_data, bind, gets, try_except_pass, lift.
    simpl. destruct doc; try reflexivity. by destruct (Hdoc d). }
  rewrite E. repeat split. apply load_data_returns.
Qed.

Lemma load_data_missing_or_malformed_witness :
  reminders (ReminderApp_init Malformed).2 = VList []
  /\ reminders (ReminderApp_init Missing).2 = VList []
  /\ alarms (ReminderApp_init (Document (VList [VInt 1]))).2 = VList [].
Proof.
  split; [| split].
  - apply (load_data_missing_or_malformed Malformed). right. by left.
  - apply (load_data_missing_or_malformed Missing). by left.
  - apply (load_data_missing_or_malformed (Document (VList [VInt 1]))).
    right. right. exists (VList [VInt 1]). split; [reflexivity | discriminate].
Defined.

Lemma save_then_load st :
  reminders (ReminderApp_init (DATA_FILE (save_data st).2)).2 = reminders st
  /\ alarms (ReminderApp_init (DATA_FILE (save_data st).2)).2 = alarms st.
Proof. split; reflexivity. Qed.

(** C5. Whatever sequence of operations (add, edit, delete, and also
    poll ticks and snoozes) led to the current store, and whatever file the
    application started from, writing the store with [save_data] and
    starting the application again on the file written gives back the
    same [reminders] (and the same [alarms]). *)
Theorem save_load_roundtrip (ops : list op) (file0 : data_file) :
  let st := run_ops ops (ReminderApp_init file0).2 in
  (save_data st).1 = Return tt
  /\ reminders (ReminderApp_init (DATA_FILE (save_data st).2)).2 = reminders st
  /\ alarms (ReminderApp_init (DATA_FILE (save_data st).2)).2 = alarms st.
Proof. intros st. split; [reflexivity | apply save_then_load]. Qed.

(** ** C4: deleting a reminder *)

Lemma filter_ne_id_spec reminder_id rs :
  Forall (λ r, has_id r = true) rs ->
  filter_ne_id reminder_id rs
  = Return (filter (λ r, id_matches reminder_id r = false) rs).
Proof.
  induction 1 as [| r rs Hr _ IH]; [reflexivity |].
  simpl. rewrite IH. rewrite filter_cons. unfold has_id in Hr.
  assert (E : id_matches reminder_id r
              = match getitem r "id" with
                | Return v => eq_int v reminder_id
                | Raise _ => false
                end) by reflexivity.
  destruct (getitem r "id") as [v | e]; [| discriminate].
  destruct (eq_int v reminder_id);
    [rewrite decide_False by congruence | rewrite decide_True by congruence];
    reflexivity.
Qed.

Lemma filter_partition_length {A} (f : A -> bool) (l : list A) :
  length l
  = (length (filter (λ x, f x = false) l)
     + length (filter (λ x, f x = true) l))%nat.
Proof.
  induction l as [| x l IH]; [reflexivity |].
  rewrite !filter_cons.
  repeat case_decide; simpl; rewrite IH; try lia; destruct (f x); congruence.
Qed.

Lemma filter_all {A} (P : A -> Prop) `{!∀ x, Decision (P x)} (l : list A) :
  Forall P l -> filter P l = l.
Proof.
  induction 1 as [| x l Hx _ IH]; [reflexivity |].
  by rewrite filter_cons_True, IH.
Qed.

Lemma Forall_filter_self {A} (P : A -> Prop) `{!∀ x, Decision (P x)}
    (l : list A) : Forall P (filter P l).
Proof.
  induction l as [| x l IH]; [constructor |].
  rewrite filter_cons. destruct (decide (P x)); [by constructor | done].
Qed.

Lemma entry_id_matches reminder_id r z :
  entry_id r = Some z -> id_matches reminder_id r = (z =? reminder_id).
Proof.
  unfold entry_id, id_matches, getitem.
  destruct r as [| | | | | d]; try discriminate.
  destruct (d !! "id") as [[| | z' | | |] |]; try discriminate.
  by intros [= ->].
Qed.

Lemma entry_id_has_id r : is_Some (entry_id r) -> has_id r = true.
Proof.
  intros [z Hz]. unfold entry_id, has_id, getitem in *.
  destruct r as [| | | | | d]; try discriminate.
  by destruct (d !! "id").
Qed.

Lemma id_absent_no_match reminder_id rs :
  Forall (λ r, is_Some (entry_id r)) rs ->
  Some reminder_id ∉ entry_id <$> rs ->
  Forall (λ r, id_matches reminder_id r = false) rs.
Proof.
  induction 1 as [| r rs [z Hz] _ IH]; [constructor |].
  rewrite fmap_cons, not_elem_of_cons. intros [Hne Hnot].
  constructor; [| by apply IH].
  rewrite (entry_id_matches _ _ _ Hz). apply Z.eqb_neq. congruence.
Qed.

Lemma unique_id_one_match reminder_id rs :
  Forall (λ r, is_Some (entry_id r)) rs ->
  NoDup (entry_id <$> rs) ->
  Some reminder_id ∈ entry_id <$> rs ->
  length (filter (λ r, id_matches reminder_id r = true) rs) = 1%nat.
Proof.
  induction 1 as [| r rs [z Hz] Hrs IH]; [by rewrite elem_of_nil |].
  rewrite fmap_cons, NoDup_cons, elem_of_cons. intros [Hnot Hnd] Hin.
  rewrite filter_cons, (entry_id_matches _ _ _ Hz).
  destruct (Z.eqb_spec z reminder_id) as [-> | Hne].
  - rewrite decide_True by done. simpl. f_equal.
    rewrite Hz in Hnot.
    pose proof (id_absent_no_match _ _ Hrs Hnot) as Hall.
    clear -Hall. induction Hall as [| x l Hx _ IH]; [reflexivity |].
    by rewrite filter_cons_False by congruence.
  - rewrite decide_False by done. apply IH; [done |].
    destruct Hin as [Hin | Hin]; [congruence | done].
Qed.

Lemma delete_reminder_run reminder_id st rs :
  reminders st = VList rs ->
  Forall (λ r, has_id r = true) rs ->
  delete_reminder reminder_id st
  = (Return tt,
     (save_data
        (set_reminders
           (VList (filter (λ r, id_matches reminder_id r = false) rs)) st)).2).
Proof.
  intros Hrs Hid.
  unfold delete_reminder, try_except_pass, bind, gets, lift, modify.
  rewrite Hrs. simpl. by rewrite filter_ne_id_spec.
Qed.

(** C4 (amended). On a store whose entries all carry an id,
    [delete_reminder] returns normally and keeps, in their order, exactly
    the entries whose id differs from the given one: every entry with
    that id is removed and the result is written to the file.  The store
    shrinks by the number of entries with that id: by exactly one when the
    ids of the store are pairwise distinct and the id is present, not at
    all when no entry has that id.  Deleting the same id a second time
    changes nothing. *)
Theorem delete_reminder_removes_matching (reminder_id : Z)
    (st : ReminderApp) (rs : list value)
    (Hrs : reminders st = VList rs)
    (Hid : Forall (λ r, has_id r = true) rs) :
  let st' := (delete_reminder reminder_id st).2 in
  let kept := filter (λ r, id_matches reminder_id r = false) rs in
  (delete_reminder reminder_id st).1 = Return tt
  /\ reminders st' = VList kept
  /\ DATA_FILE st' = document_of st'
  /\ length rs
     = (length kept
        + length (filter (λ r, id_matches reminder_id r = true) rs))%nat
  /\ (Forall (λ r, id_matches reminder_id r = false) rs ->
      reminders st' = reminders st)
  /\ (Forall (λ r, is_Some (entry_id r)) rs -> NoDup (entry_id <$> rs) ->
      Some reminder_id ∈ entry_id <$> rs -> length rs = S (length kept))
  /\ reminders (delete_reminder reminder_id st').2 = reminders st'.
Proof.
  intros st' kept. subst st'.
  rewrite (delete_reminder_run _ _ _ Hrs Hid). simpl.
  split; [done |]. split; [done |]. split; [done |].
  split; [apply filter_partition_length |].
  split; [| split].
  - intros Hall. rewrite Hrs. f_equal. by apply filter_all.
  - intros Hsome Hnd Hin.
    rewrite (filter_partition_length (id_matches reminder_id) rs).
    rewrite (unique_id_one_match _ _ Hsome Hnd Hin). fold kept. lia.
  - erewrite delete_reminder_run; [| reflexivity |].
    + simpl. f_equal. apply filter_all, Forall_filter_self.
    + clear -Hid. induction Hid as [| r l Hr _ IH]; [constructor |].
      rewrite filter_cons. destruct (decide _); [by constructor | done].
Qed.

Lemma delete_reminder_removes_matching_witness :
  let st := run_ops [OpAdd form_call_bob 1717252200000;
                     OpAdd form_pay_rent 1717252260000] app_empty in
  exists d : dict,
    reminders (delete_reminder 1717252260000 st).2 = VList [VDict d]
    /\ d !! "title" = Some (VStr "Call Bob").
Proof.
  intros st.
  destruct (delete_reminder_removes_matching 1717252260000 st
              [VDict reminder_call_bob; VDict reminder_pay_rent] eq_refl)
    as (_ & Hkept & _).
  { repeat constructor. }
  exists reminder_call_bob. split; [| reflexivity].
  rewrite Hkept. reflexivity.
Defined.

(** C4, as stated, fails: on a store that holds two reminders with the
    same id, as two adds at the same clock reading leave it, deleting
    that id removes both entries, not exactly one. *)
Lemma delete_reminder_counterexample :
  let st := run_ops [OpAdd form_call_bob 1717252200000;
                     OpAdd form_pay_rent 1717252200000] app_empty in
  (exists rs, reminders st = VList rs /\ length rs = 2%nat
              /\ Exists (λ r, id_matches 1717252200000 r = true) rs)
  /\ reminders (delete_reminder 1717252200000 st).2 = VList []
  /\ ~ (exists kept, reminders (delete_reminder 1717252200000 st).2 = VList kept
                     /\ S (length kept) = 2%nat).
Proof.
  split; [| split; [reflexivity |]].
  - eexists. split; [reflexivity |]. split; [reflexivity |].
    apply Exists_cons_hd. reflexivity.
  - intros (kept & Hkept & Hlen). vm_compute in Hkept.
    injection Hkept as <-. discriminate Hlen.
Qed.

(** ** Scans *)

Section scan_entries.
Context (v : value -> verdict).

Lemma scan_nothing_shown entries :
  shown (scan_entries v entries) = [] ->
  scanned (scan_entries v entries) = entries.
Proof.
  induction entries as [| r rest IH]; [reflexivity |].
  simpl. destruct (v r); simpl; [| discriminate | reflexivity].
  intros H. by rewrite IH.
Qed.

Lemma scan_length entries :
  length (scanned (scan_entries v entries)) = length entries.
Proof.
  induction entries as [| r rest IH]; [reflexivity |].
  simpl. destruct (v r); simpl; by rewrite ?IH.
Qed.

Lemma scan_entries_app l1 l2 :
  scan_entries v (l1 ++ l2)
  = let s1 := scan_entries v l1 in
    match raised s1 with
    | Some e => Scan (scanned s1 ++ l2) (shown s1) (Some e)
    | None =>
        let s2 := scan_entries v l2 in
        Scan (scanned s1 ++ scanned s2) (shown s1 ++ shown s2) (raised s2)
    end.
Proof.
  induction l1 as [| r l1 IH]; [simpl; by destruct (scan_entries v l2) |].
  simpl. destruct (v r) as [| a r' | e]; [| | reflexivity].
  - rewrite IH. simpl. by destruct (raised (scan_entries v l1)).
  - rewrite IH. simpl. by destruct (raised (scan_entries v l1)).
Qed.

(** An entry the scan skips has no influence on the other entries. *)
Lemma scan_entries_skip pre r post :
  v r = Skip ->
  exists l1 l2,
    length l1 = length pre
    /\ scanned (scan_entries v (pre ++ post)) = l1 ++ l2
    /\ scan_entries v (pre ++ r :: post)
       = Scan (l1 ++ r :: l2) (shown (scan_entries v (pre ++ post)))
           (raised (scan_entries v (pre ++ post))).
Proof.
  intros Hskip. rewrite !scan_entries_app. cbv zeta. simpl scan_entries.
  rewrite Hskip.
  destruct (raised (scan_entries v pre)) as [e |].
  - exists (scanned (scan_entries v pre)), post.
    split; [apply scan_length | done].
  - exists (scanned (scan_entries v pre)), (scanned (scan_entries v post)).
    split; [apply scan_length | done].
Qed.

End scan_entries.

(** ** The poller's loops as scans *)

Lemma insert_middle {A} (pre : list A) x y post :
  <[length pre := y]> (pre ++ x :: post) = pre ++ y :: post.
Proof. induction pre as [| z pre IH]; simpl; [reflexivity | by rewrite IH]. Qed.

Lemma check_reminders_loop_cons env cd ct i r rest st :
  check_reminders_loop env cd ct i (r :: rest) st
  = match reminder_verdict env cd ct r with
    | Skip => check_reminders_loop env cd ct (S i) rest st
    | Fire a r' =>
        check_reminders_loop env cd ct (S i) rest
          (save_data (set_reminder i r' (add_alert a st))).2
    | Fail e => (Raise e, st)
    end.
Proof.
  simpl. unfold reminder_verdict, bind, lift, show_fullscreen_alert.
  destruct r as [| | | | | d]; try reflexivity.
  destruct (reminder_is_due cd ct (VDict d)) as [[|] | e]; try reflexivity.
  destruct (reminder_alert env (VDict d)) as [a | e]; try reflexivity.
  destruct (alert_returns env a); reflexivity.
Qed.

Lemma state_after_no_scan pre todo st :
  reminders st = VList (pre ++ todo) ->
  after_reminders_scan pre (Scan todo [] None) st = st
  /\ forall e, after_reminders_scan pre (Scan todo [] (Some e)) st = st.
Proof.
  intros Hrs. unfold after_reminders_scan. destruct st; simpl in *.
  by rewrite Hrs, app_nil_r.
Qed.

Lemma check_reminders_loop_scan env cd ct todo : forall pre st,
  reminders st = VList (pre ++ todo) ->
  check_reminders_loop env cd ct (length pre) todo st
  = (outcome_of (raised (scan_entries (reminder_verdict env cd ct) todo)),
     after_reminders_scan pre
       (scan_entries (reminder_verdict env cd ct) todo) st).
Proof.
  induction todo as [| r rest IH]; intros pre st Hrs.
  - simpl. unfold ret. by rewrite (proj1 (state_after_no_scan pre [] st Hrs)).
  - rewrite check_reminders_loop_cons. simpl scan_entries.
    destruct (reminder_verdict env cd ct r) as [| a r' | e].
    + replace (S (length pre)) with (length (pre ++ [r]))
        by (rewrite length_app; simpl; lia).
      rewrite IH by (by rewrite <- app_assoc).
      simpl. f_equal. unfold after_reminders_scan. simpl.
      by rewrite <- !app_assoc.
    + replace (S (length pre)) with (length (pre ++ [r']))
        by (rewrite length_app; simpl; lia).
      rewrite IH.
      2:{ simpl. unfold set_reminder. simpl. rewrite Hrs. simpl.
          by rewrite insert_middle, <- app_assoc. }
      simpl. f_equal. unfold after_reminders_scan. simpl.
      unfold set_reminder. simpl. rewrite Hrs. simpl.
      rewrite insert_middle, <- !app_assoc. simpl.
      f_equal.
      destruct (shown (scan_entries _ rest)) eqn:Esh; [| reflexivity].
      by rewrite (scan_nothing_shown _ _ Esh).
    + simpl. by rewrite (proj2 (state_after_no_scan pre (r :: rest) st Hrs)).
Qed.

Lemma check_snoozed_loop_cons env cur i r rest st :
  check_snoozed_loop env cur i (r :: rest) st
  = match snoozed_verdict env cur r with
    | Skip => check_snoozed_loop env cur (S i) rest st
    | Fire a r' =>
        check_snoozed_loop env cur (S i) rest
          (set_snoozed_item i r' (add_alert a st))
    | Fail e => (Raise e, st)
    end.
Proof.
  simpl. unfold snoozed_verdict, bind, lift, show_fullscreen_alert.
  destruct r as [| | | | | d]; try reflexivity.
  destruct (snoozed_is_due cur (VDict d)) as [[|] | e]; try reflexivity.
  destruct (snoozed_alert (VDict d)) as [a | e]; try reflexivity.
  destruct (alert_returns env a); reflexivity.
Qed.

Lemma check_snoozed_loop_scan env cur todo : forall pre st,
  snoozed_items st = pre ++ todo ->
  check_snoozed_loop env cur (length pre) todo st
  = (outcome_of (raised (scan_entries (snoozed_verdict env cur) todo)),
     after_snoozed_scan pre (scan_entries (snoozed_verdict env cur) todo) st).
Proof.
  assert (Hid : forall pre l st e,
             snoozed_items st = pre ++ l ->
             after_snoozed_scan pre (Scan l [] e) st = st).
  { intros pre l st e Hs. unfold after_snoozed_scan.
    destruct st; simpl in *. by rewrite Hs, app_nil_r. }
  induction todo as [| r rest IH]; intros pre st Hs.
  - simpl. unfold ret. by rewrite Hid.
  - rewrite check_snoozed_loop_cons. simpl scan_entries.
    destruct (snoozed_verdict env cur r) as [| a r' | e].
    + replace (S (length pre)) with (length (pre ++ [r]))
        by (rewrite length_app; simpl; lia).
      rewrite IH by (by rewrite <- app_assoc).
      simpl. f_equal. unfold after_snoozed_scan. simpl.
      by rewrite <- !app_assoc.
    + replace (S (length pre)) with (length (pre ++ [r']))
        by (rewrite length_app; simpl; lia).
      rewrite IH.
      2:{ simpl. rewrite Hs. by rewrite insert_middle, <- app_assoc. }
      simpl. f_equal. unfold after_snoozed_scan. simpl.
      by rewrite <- !app_assoc.
    + simpl. by rewrite Hid.
Qed.

Lemma check_reminders_scan env now st rs :
  reminders st = VList rs ->
  check_reminders env now st
  = let s := scan_entries
               (reminder_verdict env (strftime_Ymd now) (strftime_HM now)) rs in
    (outcome_of (raised s), after_reminders_scan [] s st).
Proof.
  intros Hrs. unfold check_reminders, bind at 1, gets.
  rewrite Hrs. unfold bind, lift. simpl py_iter. cbv iota beta.
  by apply (check_reminders_loop_scan _ _ _ rs []).
Qed.

Lemma check_snoozed_scan env now st :
  check_snoozed env now st
  = let s := scan_entries (snoozed_verdict env (strftime_Ymd_HM now))
               (snoozed_items st) in
    (outcome_of (raised s), after_snoozed_scan [] s st).
Proof.
  unfold check_snoozed, bind, gets.
  by apply (check_snoozed_loop_scan _ _ (snoozed_items st) []).
Qed.

Lemma monitor_step_returns t st : (monitor_step t st).1 = Return tt.
Proof. apply try_except_pass_returns. Qed.

Lemma monitor_step_scan t st rs :
  reminders st = VList rs ->
  monitor_step t st
  = let s := scan_entries
               (reminder_verdict (tick_env t) (strftime_Ymd (tick_now t))
                  (strftime_HM (tick_now t))) rs in
    let st1 := after_reminders_scan [] s st in
    (Return tt,
     match raised s with
     | Some _ => st1
     | None =>
         after_snoozed_scan []
           (scan_entries
              (snoozed_verdict (tick_env t)
                 (strftime_Ymd_HM (tick_now_snoozed t)))
              (snoozed_items st)) st1
     end).
Proof.
  intros Hrs. unfold monitor_step, try_except_pass, bind.
  rewrite (check_reminders_scan _ _ _ _ Hrs). cbv zeta.
  destruct (raised _) as [e |]; simpl; [reflexivity |].
  rewrite check_snoozed_scan. simpl.
  by destruct (raised _).
Qed.

(** ** C7: the ids of the store *)

Lemma entry_id_insert_ne d key v :
  key <> "id" -> entry_id (VDict (<[key := v]> d)) = entry_id (VDict d).
Proof. intros Hne. unfold entry_id. by rewrite lookup_insert_ne. Qed.

Lemma ids_insert (rs : list value) (i : nat) r r' :
  rs !! i = Some r -> entry_id r' = entry_id r ->
  entry_id <$> <[i := r']> rs = entry_id <$> rs.
Proof.
  intros Hi Heq. rewrite list_fmap_insert. apply list_insert_id.
  by rewrite list_lookup_fmap, Hi, Heq.
Qed.

Lemma unique_ids_same_ids st st' (rs rs' : list value) :
  unique_ids st -> reminders st = VList rs -> reminders st' = VList rs' ->
  entry_id <$> rs' = entry_id <$> rs -> unique_ids st'.
Proof.
  intros (rs0 & Hrs0 & Hsome & Hnd) Hrs Hrs' Hids.
  rewrite Hrs in Hrs0. injection Hrs0 as <-.
  exists rs'. split; [done |]. split; [| by rewrite Hids].
  apply Forall_forall. intros r' Hr'.
  assert (Hin : entry_id r' ∈ entry_id <$> rs')
    by (apply list_elem_of_fmap; eauto).
  rewrite Hids in Hin. apply list_elem_of_fmap in Hin as (r & -> & Hr).
  by apply (proj1 (Forall_forall _ _) Hsome).
Qed.

Lemma reminder_verdict_fire_id env cd ct r a r' :
  reminder_verdict env cd ct r = Fire a r' -> entry_id r' = entry_id r.
Proof.
  unfold reminder_verdict.
  destruct (reminder_is_due cd ct r) as [[|] | e]; try discriminate.
  destruct (reminder_alert env r) as [a0 | e]; try discriminate.
  destruct (alert_returns env a0); try discriminate.
  destruct r as [| | | | | d]; try discriminate.
  simpl. intros [= _ <-]. by apply entry_id_insert_ne.
Qed.

Lemma scan_reminders_ids env cd ct rs :
  entry_id <$> scanned (scan_entries (reminder_verdict env cd ct) rs)
  = entry_id <$> rs.
Proof.
  induction rs as [| r rs IH]; [reflexivity |].
  cbn [scan_entries].
  destruct (reminder_verdict env cd ct r) as [| a r' | e] eqn:E;
    cbn [scanned]; rewrite ?fmap_cons, ?IH; [done | | done].
  by rewrite (reminder_verdict_fire_id _ _ _ _ _ _ E).
Qed.

Lemma monitor_step_reminders t st rs :
  reminders st = VList rs ->
  reminders (monitor_step t st).2
  = VList (scanned (scan_entries
                      (reminder_verdict (tick_env t) (strftime_Ymd (tick_now t))
                         (strftime_HM (tick_now t))) rs)).
Proof.
  intros Hrs. rewrite (monitor_step_scan _ _ _ Hrs). cbv zeta. simpl.
  by destruct (raised _).
Qed.

Lemma unique_ids_monitor_step t st :
  unique_ids st -> unique_ids (monitor_step t st).2.
Proof.
  intros Hu. pose proof Hu as (rs & Hrs & _).
  eapply unique_ids_same_ids; [done | done | by apply monitor_step_reminders |].
  apply scan_reminders_ids.
Qed.

Lemma add_reminder_gui_run f now_ms st rs :
  reminders st = VList rs ->
  strip (reminder_title f) <> "" ->
  exists d : dict,
    d !! "id" = Some (VInt now_ms)
    /\ d !! "title" = Some (VStr (strip (reminder_title f)))
    /\ d !! "active" = Some (VBool true)
    /\ (add_reminder_gui f now_ms st).1 = Return tt
    /\ reminders (add_reminder_gui f now_ms st).2 = VList (rs ++ [VDict d])
    /\ DATA_FILE (add_reminder_gui f now_ms st).2
       = document_of (add_reminder_gui f now_ms st).2.
Proof.
  intros Hrs Htitle. unfold add_reminder_gui.
  destruct (String.eqb_spec (strip (reminder_title f)) "") as [E | _]; [done |].
  unfold bind, gets, lift, modify, ret, save_data.
  destruct (truthy (pending_voice_note st)); simpl; rewrite Hrs; simpl;
    eexists; (split; [| split; [| split; [| split; [| split]]]]);
    [ | | | | reflexivity | | | | | | reflexivity | ]; try reflexivity;
    lookup_fields.
Qed.

Lemma add_reminder_gui_blank f now_ms st :
  strip (reminder_title f) = "" -> add_reminder_gui f now_ms st = (Return tt, st).
Proof. intros E. unfold add_reminder_gui. by rewrite E. Qed.

Lemma unique_ids_add f now_ms st :
  unique_ids st -> fresh_op (OpAdd f now_ms) st ->
  unique_ids (add_reminder_gui f now_ms st).2.
Proof.
  intros Hu Hfresh.
  destruct (decide (strip (reminder_title f) = "")) as [E | Hne].
  { by rewrite add_reminder_gui_blank. }
  destruct Hu as (rs & Hrs & Hsome & Hnd).
  destruct (add_reminder_gui_run f now_ms st rs Hrs Hne)
    as (d & Hid & _ & _ & _ & Hrs' & _).
  assert (Eid : entry_id (VDict d) = Some now_ms) by (simpl; by rewrite Hid).
  exists (rs ++ [VDict d]). split; [done |]. split.
  - apply Forall_app. split; [done |]. constructor; [| constructor].
    by rewrite Eid.
  - rewrite fmap_app.
    change (entry_id <$> [VDict d]) with [entry_id (VDict d)]. rewrite Eid.
    apply NoDup_app. split; [done |]. split; [| apply NoDup_singleton].
    intros x Hx ->%list_elem_of_singleton. by apply (Hfresh rs).
Qed.

Lemma NoDup_fmap_filter {A B} (f : A -> B) (P : A -> Prop)
    `{!∀ x, Decision (P x)} (l : list A) :
  NoDup (f <$> l) -> NoDup (f <$> filter P l).
Proof.
  induction l as [| x l IH]; [done |].
  rewrite fmap_cons, NoDup_cons. intros [Hx Hnd].
  rewrite filter_cons. destruct (decide (P x)); [| by apply IH].
  rewrite fmap_cons, NoDup_cons. split; [| by apply IH].
  intros (y & Hy & Hin)%list_elem_of_fmap. apply Hx.
  apply list_elem_of_fmap. exists y. split; [done |].
  by apply list_elem_of_filter in Hin as [_ ?].
Qed.

Lemma Forall_filter_weaken {A} (Q P : A -> Prop) `{!∀ x, Decision (P x)}
    (l : list A) : Forall Q l -> Forall Q (filter P l).
Proof.
  induction 1 as [| x l Hx _ IH]; [constructor |].
  rewrite filter_cons. destruct (decide (P x)); [by constructor | done].
Qed.

Lemma unique_ids_delete reminder_id st :
  unique_ids st -> unique_ids (delete_reminder reminder_id st).2.
Proof.
  intros (rs & Hrs & Hsome & Hnd).
  rewrite (delete_reminder_run _ _ _ Hrs).
  2:{ eapply Forall_impl; [exact Hsome |]. apply entry_id_has_id. }
  eexists. split; [reflexivity |].
  split; [by apply Forall_filter_weaken | by apply NoDup_fmap_filter].
Qed.

Lemma find_by_id_lookup reminder_id rs : forall i j r,
  find_by_id reminder_id i rs = Return (Some (j, r)) ->
  exists k, j = (i + k)%nat /\ rs !! k = Some r
            /\ id_matches reminder_id r = true
            /\ Forall (λ x, id_matches reminder_id x = false) (take k rs).
Proof.
  induction rs as [| x rs IH]; intros i j r; [discriminate |].
  simpl. unfold id_matches at 1.
  destruct (getitem x "id") as [v | e] eqn:Ex; [| discriminate].
  destruct (eq_int v reminder_id) eqn:Ev.
  - intros [= <- <-]. exists 0%nat. split; [lia |]. split; [done |].
    split; [| constructor]. unfold id_matches. by rewrite Ex.
  - intros (k & -> & Hk & Hm & Hpre)%IH. exists (S k).
    split; [lia |]. split; [done |]. split; [done |].
    simpl. constructor; [| done]. unfold id_matches. by rewrite Ex.
Qed.

Lemma set_reminder_list i r st rs :
  reminders st = VList rs ->
  reminders (set_reminder i r st) = VList (<[i := r]> rs).
Proof. intros Hrs. unfold set_reminder. by rewrite Hrs. Qed.

Lemma show_edit_dialog_save_entry i (d : dict) f st rs :
  reminders st = VList rs ->
  exists d' : dict,
    reminders (show_edit_dialog_save i (VDict d) f st).2
    = VList (<[i := VDict d']> rs)
    /\ entry_id (VDict d') = entry_id (VDict d)
    /\ d' !! "title" = Some (VStr (strip (title_entry f))).
Proof.
  intros Hrs.
  unfold show_edit_dialog_save, save_data, bind, lift, ret, modify, var_get.
  cbn [setitem].
  destruct (edit_hour_var f) as [hour |];
    [| eexists; split; [by apply set_reminder_list |]; split;
       [by rewrite !entry_id_insert_ne by done | lookup_fields]].
  destruct (edit_minute_var f) as [minute |];
    [| eexists; split; [by apply set_reminder_list |]; split;
       [by rewrite !entry_id_insert_ne by done | lookup_fields]].
  destruct (truthy (new_voice_note f)); cbn [setitem snd set_DATA_FILE reminders];
    (eexists; split;
     [rewrite (set_reminder_list i _ _ (<[i := _]> rs))
        by (by apply set_reminder_list);
      by rewrite list_insert_insert_eq |]; split;
       [by rewrite !entry_id_insert_ne by done | lookup_fields]).
Qed.

(** The edit dialog changes nothing but the entry it was opened on, and
    not the id of that entry. *)
Lemma show_edit_dialog_entry i r remove_voice action st rs :
  reminders st = VList rs -> rs !! i = Some r ->
  exists r', reminders (show_edit_dialog i r remove_voice action st).2
             = VList (<[i := r']> rs)
             /\ entry_id r' = entry_id r.
Proof.
  intros Hrs Hi.
  assert (Hsame : reminders st = VList (<[i := r]> rs))
    by (by rewrite list_insert_id).
  unfold show_edit_dialog, bind, lift.
  destruct r as [| | | | | d];
    try (eexists; split; [exact Hsame | reflexivity]).
  simpl getitem.
  destruct (d !! "title") as [vt |];
    [| eexists; split; [exact Hsame | reflexivity]].
  destruct (d !! "description") as [vd |];
    [| eexists; split; [exact Hsame | reflexivity]].
  simpl get_default. cbv iota beta.
  set (voice := default (VStr "") (d !! "voice_note")).
  assert (Hsave : forall (d0 : dict) f st0 rs0,
            reminders st0 = VList rs0 ->
            entry_id (VDict d0) = entry_id (VDict d) ->
            <[i := VDict d0]> rs0 = <[i := VDict d0]> rs ->
            exists r', reminders (show_edit_dialog_save i (VDict d0) f st0).2
                       = VList (<[i := r']> rs)
                       /\ entry_id r' = entry_id (VDict d)).
  { intros d0 f st0 rs0 Hrs0 Hid0 Hins.
    destruct (show_edit_dialog_save_entry i d0 f st0 rs0 Hrs0)
      as (d' & Hst & Hid & _).
    exists (VDict d'). split; [| congruence]. rewrite Hst. f_equal.
    rewrite <- (list_insert_insert_eq rs0 i (VDict d') (VDict d0)).
    rewrite Hins. by rewrite list_insert_insert_eq. }
  destruct (truthy voice) eqn:Htr.
  - destruct voice as [| | | s | |]; unfold basename_checks, ret;
      try (eexists; split; [exact Hsame | reflexivity]).
    rewrite andb_true_r. destruct remove_voice.
    + cbn [setitem]. unfold modify, ret.
      destruct action as [f |].
      * apply (Hsave _ f _ (<[i := VDict (<["voice_note" := VNone]> d)]> rs));
          [by apply set_reminder_list
          | by apply entry_id_insert_ne
          | by rewrite list_insert_insert_eq].
      * eexists. split; [by apply set_reminder_list |].
        by apply entry_id_insert_ne.
    + destruct action as [f |].
      * by apply (Hsave d f st rs).
      * eexists; split; [exact Hsame | reflexivity].
  - rewrite andb_false_r. unfold ret. destruct action as [f |].
    + by apply (Hsave d f st rs).
    + eexists; split; [exact Hsame | reflexivity].
Qed.

Lemma unique_ids_edit reminder_id remove_voice action st :
  unique_ids st -> unique_ids (edit_reminder reminder_id remove_voice action st).2.
Proof.
  intros Hu. pose proof Hu as (rs & Hrs & _).
  unfold edit_reminder, try_except_pass, bind at 1, gets.
  unfold bind at 1, lift at 1. rewrite Hrs. simpl py_iter. cbv iota beta.
  unfold bind at 1, lift at 1.
  destruct (find_by_id reminder_id 0 rs) as [[[i r] |] | e] eqn:Efind;
    try (simpl; exact Hu).
  apply find_by_id_lookup in Efind as (k & -> & Hk & _). simpl in *.
  destruct (truthy r); [| simpl; exact Hu].
  destruct (show_edit_dialog_entry k r remove_voice action st rs Hrs Hk)
    as (r' & Hrs' & Hid).
  assert (Hu' : unique_ids (show_edit_dialog k r remove_voice action st).2).
  { eapply unique_ids_same_ids; [exact Hu | exact Hrs | exact Hrs' |].
    by apply (ids_insert rs k r r'). }
  by destruct (show_edit_dialog k r remove_voice action st) as [[[] | e] st'].
Qed.

Lemma snooze_item_reminders now now_ms item_id minutes title message voice st :
  reminders (snooze_item now now_ms item_id minutes title message voice st).2
  = reminders st.
Proof.
  unfold snooze_item, bind, lift, modify.
  destruct (timedelta_minutes minutes) as [delta | e]; [| reflexivity].
  by destruct (datetime_add now delta).
Qed.

Lemma unique_ids_reminders st st' :
  reminders st' = reminders st -> unique_ids st -> unique_ids st'.
Proof. intros E (rs & Hrs & H). exists rs. by rewrite E. Qed.

Lemma unique_ids_run_op o st :
  unique_ids st -> fresh_op o st -> unique_ids (run_op o st).
Proof.
  intros Hu Hfresh. destruct o; simpl.
  - by apply unique_ids_add.
  - eapply unique_ids_reminders; [| exact Hu].
    unfold record_voice_note. by destruct (truthy _).
  - by apply unique_ids_edit.
  - by apply unique_ids_delete.
  - by apply unique_ids_monitor_step.
  - eapply unique_ids_reminders; [| exact Hu]. apply snooze_item_reminders.
Qed.

(** C7 (amended). [add_reminder_gui] takes the id of a new reminder from
    the clock and compares it with nothing.  If the ids of the store are
    integers and pairwise distinct, they stay so through every sequence of
    adds, edits, deletes, poll ticks (which deactivate), voice recordings
    and snoozes in which each add reads a clock value that is not the id
    of an entry of the store at that moment. *)
Theorem unique_ids_preserved (ops : list op) (st : ReminderApp)
    (Hunique : unique_ids st) (Hfresh : fresh_ops ops st) :
  unique_ids (run_ops ops st).
Proof.
  revert st Hunique Hfresh. induction ops as [| o ops IH]; intros st Hu Hf.
  - exact Hu.
  - destruct Hf as [Ho Hrest]. simpl. apply IH; [| exact Hrest].
    by apply unique_ids_run_op.
Qed.

Lemma unique_ids_empty file : unique_ids (ReminderApp_new file).
Proof. exists []. split; [reflexivity |]. split; constructor. Qed.

Lemma unique_ids_preserved_witness :
  unique_ids
    (run_ops [OpAdd form_call_bob 1717252200000;
              OpAdd form_pay_rent 1717252260000;
              OpTick (tick_1430 env_ok);
              OpDelete 1717252200000] (ReminderApp_new Missing)).
Proof.
  apply unique_ids_preserved.
  - apply unique_ids_empty.
  - simpl. repeat split.
    + intros rs [= <-]. apply not_elem_of_nil.
    + intros rs [= <-]. simpl. rewrite list_elem_of_singleton. discriminate.
Defined.

(** C7, as stated, fails: two adds that read the same millisecond leave
    two reminders with the same id in the store. *)
Lemma unique_ids_counterexample :
  ~ unique_ids
      (run_ops [OpAdd form_call_bob 1717252200000;
                OpAdd form_pay_rent 1717252200000] (ReminderApp_new Missing)).
Proof.
  intros (rs & Hrs & _ & Hnd).
  vm_compute in Hrs. injection Hrs as <-.
  apply NoDup_cons in Hnd as [Hnot _]. apply Hnot. vm_compute. left.
Qed.

(** ** C1: a due reminder is dispatched once *)

Lemma reminder_is_due_true cd ct d act :
  d !! "active" = Some act -> truthy act = true ->
  d !! "date" = Some (VStr cd) -> d !! "time" = Some (VStr ct) ->
  reminder_is_due cd ct (VDict d) = Return true.
Proof.
  intros Ha Ht Hd Htm. unfold reminder_is_due, getitem, eq_str.
  by rewrite Ha, Ht, Hd, String.eqb_refl, Htm, String.eqb_refl.
Qed.

Lemma reminder_verdict_skip env cd ct r :
  reminder_verdict env cd ct r = Skip <-> reminder_is_due cd ct r = Return false.
Proof.
  unfold reminder_verdict. destruct r as [| | | | | d]; try done.
  destruct (reminder_is_due cd ct (VDict d)) as [[|] | e]; try done.
  destruct (reminder_alert env (VDict d)) as [a | e]; [| done].
  by destruct (alert_returns env a).
Qed.

Lemma reminder_verdict_fire env cd ct r a r' :
  reminder_verdict env cd ct r = Fire a r' ->
  exists d, r = VDict d /\ r' = VDict (<["active" := VBool false]> d)
            /\ reminder_is_due cd ct r = Return true
            /\ reminder_alert env r = Return a
            /\ alert_returns env a = true.
Proof.
  unfold reminder_verdict. destruct r as [| | | | | d]; try done.
  destruct (reminder_is_due cd ct (VDict d)) as [[|] | e]; try done.
  destruct (reminder_alert env (VDict d)) as [a0 | e]; [| done].
  destruct (alert_returns env a0) eqn:Eret; [| done].
  simpl. intros [= <- <-]. by exists d.
Qed.

Lemma reminder_is_due_inactive cd ct d :
  reminder_is_due cd ct (VDict (<["active" := VBool false]> d)) = Return false.
Proof. unfold reminder_is_due. simpl. by rewrite lookup_insert_eq. Qed.

(** After a scan that raised nothing, no entry is due any more at the
    same date and time, whatever the environment. *)
Lemma scan_entries_quiet env env' cd ct rs :
  raised (scan_entries (reminder_verdict env cd ct) rs) = None ->
  scan_entries (reminder_verdict env' cd ct)
    (scanned (scan_entries (reminder_verdict env cd ct) rs))
  = Scan (scanned (scan_entries (reminder_verdict env cd ct) rs)) [] None.
Proof.
  induction rs as [| r rs IH]; [reflexivity |].
  simpl. destruct (reminder_verdict env cd ct r) as [| a r' | e] eqn:E;
    simpl; [| | discriminate]; intros Hr.
  - apply reminder_verdict_skip in E.
    rewrite (proj2 (reminder_verdict_skip env' cd ct r) E).
    by rewrite (IH Hr).
  - apply reminder_verdict_fire in E as (d & -> & -> & _).
    rewrite (proj2 (reminder_verdict_skip env' cd ct _)
               (reminder_is_due_inactive cd ct d)).
    by rewrite (IH Hr).
Qed.

Lemma reminder_verdict_due env cd ct (d : dict) act a :
  d !! "active" = Some act -> truthy act = true ->
  d !! "date" = Some (VStr cd) -> d !! "time" = Some (VStr ct) ->
  reminder_alert env (VDict d) = Return a ->
  alert_returns env a = true ->
  reminder_verdict env cd ct (VDict d)
  = Fire a (VDict (<["active" := VBool false]> d)).
Proof.
  intros Ha Ht Hd Htm Hal Hop. unfold reminder_verdict.
  by rewrite (reminder_is_due_true _ _ _ _ Ha Ht Hd Htm), Hal, Hop.
Qed.

(** C1 (amended). Take an active reminder of the store whose stored date
    and time equal the date and minute strings of a tick of
    [check_reminders], whose alert can be built from its title,
    description and id, and whose alert window opens.  When no entry
    before it in the store raises an exception in that tick, the tick
    shows one alert for it, between the alerts of the entries before it
    and those of the entries after it, and leaves it in its place with
    [active] set to [False]; this holds also when an entry after it
    raises.  From then on no tick dispatches it again, in any
    environment, because [active] is false.  When no entry after it
    raises either, the tick returns normally and a later tick at the same
    date and minute strings shows no alert and changes nothing. *)
Theorem check_reminders_dispatches_once (env : Env) (now : datetime)
    (st : ReminderApp) (pre post : list value) (d : dict) (act : value)
    (a : alert)
    (Hrs : reminders st = VList (pre ++ VDict d :: post))
    (Hactive : d !! "active" = Some act) (Htruthy : truthy act = true)
    (Hdate : d !! "date" = Some (VStr (strftime_Ymd now)))
    (Htime : d !! "time" = Some (VStr (strftime_HM now)))
    (Hbefore : raised (scan_entries
                         (reminder_verdict env (strftime_Ymd now)
                            (strftime_HM now)) pre) = None)
    (Halert : reminder_alert env (VDict d) = Return a)
    (Hopens : alert_returns env a = true) :
  let st' := (check_reminders env now st).2 in
  let v := reminder_verdict env (strftime_Ymd now) (strftime_HM now) in
  (alerts st'
   = alerts st ++ shown (scan_entries v pre) ++ [a]
     ++ shown (scan_entries v post)
   /\ reminders st'
      = VList (scanned (scan_entries v pre)
               ++ VDict (<["active" := VBool false]> d)
               :: scanned (scan_entries v post))
   /\ length (scanned (scan_entries v pre)) = length pre)
  /\ (forall env' cd ct,
        reminder_verdict env' cd ct (VDict (<["active" := VBool false]> d))
        = Skip)
  /\ (raised (scan_entries v post) = None ->
      (check_reminders env now st).1 = Return tt
      /\ forall env' now',
           strftime_Ymd now' = strftime_Ymd now ->
           strftime_HM now' = strftime_HM now ->
           check_reminders env' now' st' = (Return tt, st')).
Proof.
  intros st' v. subst st'.
  rewrite (check_reminders_scan _ _ _ _ Hrs). cbv zeta. fold v.
  cbn [fst snd].
  pose proof (reminder_verdict_due env _ _ d act a Hactive Htruthy Hdate
                Htime Halert Hopens) as Hfire.
  fold v in Hfire, Hbefore.
  assert (Hscan : scan_entries v (pre ++ VDict d :: post)
                  = Scan (scanned (scan_entries v pre)
                          ++ VDict (<["active" := VBool false]> d)
                          :: scanned (scan_entries v post))
                      (shown (scan_entries v pre) ++ a
                       :: shown (scan_entries v post))
                      (raised (scan_entries v post))).
  { rewrite scan_entries_app. cbv zeta. rewrite Hbefore.
    cbn [scan_entries]. by rewrite Hfire. }
  split; [| split].
  - rewrite Hscan. cbn [after_reminders_scan alerts reminders scanned shown].
    split; [done |]. split; [done | apply scan_length].
  - intros env' cd ct. apply reminder_verdict_skip, reminder_is_due_inactive.
  - intros Hafter.
    assert (Hnone : raised (scan_entries v (pre ++ VDict d :: post)) = None)
      by (by rewrite Hscan).
    split; [by rewrite Hnone |].
    intros env' now' Ed Et.
    rewrite (check_reminders_scan env' now' _
               (scanned (scan_entries v (pre ++ VDict d :: post))))
      by reflexivity.
    rewrite Ed, Et. cbv zeta. subst v.
    rewrite (scan_entries_quiet env env' _ _ _ Hnone).
    simpl. f_equal.
    by apply (state_after_no_scan []).
Qed.

Lemma check_reminders_dispatches_once_witness :
  let now := Datetime 2024 6 1 14 30 0 0 in
  let st' := (check_reminders env_ok now app_bob_then_bad).2 in
  (check_reminders env_ok now app_bob_then_bad).1 = Raise (KeyError "date")
  /\ alerts st'
     = [Alert (VStr "REMINDER: Call Bob") (VStr "") (VInt 1717252200000) VNone]
  /\ reminders st'
     = VList [VDict (<["active" := VBool false]> reminder_call_bob);
              entry_without_date]
  /\ reminder_verdict env_ok "2024-06-01" "14:30"
       (VDict (<["active" := VBool false]> reminder_call_bob)) = Skip.
Proof.
  intros now st'.
  destruct (check_reminders_dispatches_once env_ok now app_bob_then_bad
              [] [entry_without_date] reminder_call_bob (VBool true)
              (Alert (VStr "REMINDER: Call Bob") (VStr "")
                 (VInt 1717252200000) VNone)
              eq_refl eq_refl eq_refl eq_refl eq_refl eq_refl eq_refl eq_refl)
    as ((Hal & Hrs' & _) & Hskip & _).
  split; [reflexivity |]. split; [exact Hal |]. split; [exact Hrs' |].
  apply Hskip.
Defined.

(** C1, as stated, fails.  In the store read from [file_with_bad_entry]
    the reminder "Call Bob" is active and its date and time are the
    strings of the 14:30 tick, but the entry before it has no date: the
    tick raises [KeyError] there, shows no alert and leaves "Call Bob"
    active. *)
Lemma check_reminders_counterexample :
  let now := Datetime 2024 6 1 14 30 0 0 in
  let st := (ReminderApp_init file_with_bad_entry).2 in
  reminders st = VList [entry_without_date; VDict reminder_call_bob]
  /\ reminder_call_bob !! "active" = Some (VBool true)
  /\ reminder_call_bob !! "date" = Some (VStr (strftime_Ymd now))
  /\ reminder_call_bob !! "time" = Some (VStr (strftime_HM now))
  /\ check_reminders env_ok now st = (Raise (KeyError "date"), st)
  /\ alerts (monitor_step (tick_1430 env_ok) st).2 = []
  /\ reminders (monitor_step (tick_1430 env_ok) st).2 = reminders st.
Proof. repeat split. Qed.

(** ** C3: a reminder is dispatched at its minute only *)

Lemma reminder_is_due_other cd ct d act dd tt :
  d !! "active" = Some act ->
  d !! "date" = Some (VStr dd) -> d !! "time" = Some (VStr tt) ->
  ~ (cd = dd /\ ct = tt) ->
  reminder_is_due cd ct (VDict d) = Return false.
Proof.
  intros Ha Hd Ht Hne. unfold reminder_is_due, getitem, eq_str.
  rewrite Ha. destruct (truthy act); [| reflexivity].
  rewrite Hd. destruct (String.eqb_spec dd cd) as [-> | _]; [| reflexivity].
  rewrite Ht. destruct (String.eqb_spec tt ct) as [-> | _]; [| reflexivity].
  by destruct Hne.
Qed.

Lemma same_but_for_step k d act dd tt t st1 st2 :
  d !! "active" = Some act ->
  d !! "date" = Some (VStr dd) -> d !! "time" = Some (VStr tt) ->
  ~ (strftime_Ymd (tick_now t) = dd /\ strftime_HM (tick_now t) = tt) ->
  same_but_for k (VDict d) st1 st2 ->
  same_but_for k (VDict d) (monitor_step t st1).2 (monitor_step t st2).2.
Proof.
  intros Ha Hd Ht Hne (l1 & l2 & Hlen & Hrs1 & Hrs2 & Hsn & Hal).
  rewrite (monitor_step_scan _ _ _ Hrs1), (monitor_step_scan _ _ _ Hrs2).
  cbv zeta.
  set (v := reminder_verdict (tick_env t) (strftime_Ymd (tick_now t))
              (strftime_HM (tick_now t))).
  assert (Hskip : v (VDict d) = Skip).
  { apply reminder_verdict_skip. by eapply reminder_is_due_other. }
  destruct (scan_entries_skip v l1 (VDict d) l2 Hskip)
    as (l1' & l2' & Hlen' & Hsc & ->).
  simpl raised. simpl snd. rewrite Hsn.
  exists l1', l2'. split; [congruence |].
  destruct (raised (scan_entries v (l1 ++ l2))); simpl;
    rewrite Hsc, Hal; done.
Qed.

Lemma monitor_loop_cons t ticks st :
  monitor_loop (t :: ticks) st = monitor_loop ticks (monitor_step t st).2.
Proof.
  simpl. unfold bind.
  pose proof (monitor_step_returns t st) as Hret.
  by destruct (monitor_step t st) as [[[] | e] st'].
Qed.

Lemma monitor_loop_returns ticks st : (monitor_loop ticks st).1 = Return tt.
Proof.
  revert st. induction ticks as [| t ticks IH]; intros st; [reflexivity |].
  by rewrite monitor_loop_cons.
Qed.

Lemma monitor_loop_app ticks1 ticks2 st :
  monitor_loop (ticks1 ++ ticks2) st
  = monitor_loop ticks2 (monitor_loop ticks1 st).2.
Proof.
  revert st. induction ticks1 as [| t ticks1 IH]; intros st; [reflexivity |].
  by rewrite <- app_comm_cons, !monitor_loop_cons.
Qed.

(** C3. Take an entry of the store with an [active] field and with the
    strings [dd] and [tt] as stored date and time.  A scan dispatches it
    only at a date string equal to [dd] and a minute string equal to [tt].
    Through any sequence of turns of the monitor loop none of which reads a
    clock whose date and minute strings are both equal to [dd] and [tt],
    the entry stays in its place, unchanged ([active] included), and the
    alerts shown are those the same turns show on the store without this
    entry: it is never dispatched. *)
Theorem monitor_loop_never_fires_off_minute (ticks : list tick)
    (st : ReminderApp) (pre post : list value) (d : dict) (act : value)
    (dd tt : string)
    (Hrs : reminders st = VList (pre ++ VDict d :: post))
    (Hactive : d !! "active" = Some act)
    (Hdate : d !! "date" = Some (VStr dd))
    (Htime : d !! "time" = Some (VStr tt))
    (Hoff : Forall (λ t, ~ (strftime_Ymd (tick_now t) = dd
                            /\ strftime_HM (tick_now t) = tt)) ticks) :
  let st' := (monitor_loop ticks st).2 in
  (forall env cd ct a r',
     reminder_verdict env cd ct (VDict d) = Fire a r' -> cd = dd /\ ct = tt)
  /\ (exists pre' post',
        reminders st' = VList (pre' ++ VDict d :: post')
        /\ length pre' = length pre)
  /\ alerts st'
     = alerts (monitor_loop ticks (set_reminders (VList (pre ++ post)) st)).2.
Proof.
  intros st'. subst st'. split.
  { intros env cd ct a r' (_ & _ & _ & Hdue & _)%reminder_verdict_fire.
    destruct (decide (cd = dd /\ ct = tt)) as [? | Hne]; [done |].
    rewrite (reminder_is_due_other _ _ _ _ _ _ Hactive Hdate Htime Hne) in Hdue.
    discriminate. }
  assert (Hsim : same_but_for (length pre) (VDict d) st
                   (set_reminders (VList (pre ++ post)) st)).
  { by exists pre, post. }
  revert Hsim. generalize (set_reminders (VList (pre ++ post)) st).
  clear Hrs. revert st.
  induction Hoff as [| t ticks Ht _ IH]; intros st1 st2 Hsim.
  - destruct Hsim as (l1 & l2 & Hlen & Hrs1 & _ & _ & Hal).
    split; [by exists l1, l2 | done].
  - rewrite !monitor_loop_cons. apply IH.
    by eapply same_but_for_step.
Qed.

Lemma monitor_loop_never_fires_off_minute_witness :
  let st := run_op (OpAdd form_call_bob 1717252200000) app_empty in
  let st' :=
    (monitor_loop [tick_at env_ok 14 29 30; tick_at env_ok 14 31 0] st).2 in
  (exists pre' post',
     reminders st' = VList (pre' ++ VDict reminder_call_bob :: post')
     /\ length pre' = 0%nat)
  /\ alerts st' = [].
Proof.
  intros st st'.
  destruct (monitor_loop_never_fires_off_minute
              [tick_at env_ok 14 29 30; tick_at env_ok 14 31 0] st [] []
              reminder_call_bob (VBool true) "2024-06-01" "14:30"
              eq_refl eq_refl eq_refl eq_refl)
    as (_ & Hrs' & Hal).
  { repeat constructor; vm_compute; intros [_ [=]]. }
  split; [exact Hrs' | exact Hal].
Defined.

(** ** C8: exceptions during a tick *)

(** C8 (amended). Failures are isolated per tick, not per item.  When the
    entry [r] of the store fails during a turn of the monitor loop (a
    field cannot be read, or the alert window raises) and no entry before
    it failed, the exception is discarded and the loop goes on with the
    next turn; but in that turn the failing entry and every entry after it
    are left as they are, only the alerts of the entries before it are
    shown, and the snoozed items are not checked at all. *)
Theorem monitor_step_isolates_per_tick (t : tick) (ticks : list tick)
    (st : ReminderApp) (pre post : list value) (r : value) (e : exn)
    (Hrs : reminders st = VList (pre ++ r :: post))
    (Hpre : raised (scan_entries (tick_verdict t) pre) = None)
    (Hfail : tick_verdict t r = Fail e) :
  let v := tick_verdict t in
  let st' := (monitor_step t st).2 in
  (check_reminders (tick_env t) (tick_now t) st).1 = Raise e
  /\ (monitor_step t st).1 = Return tt
  /\ monitor_loop (t :: ticks) st = monitor_loop ticks st'
  /\ (monitor_loop (t :: ticks) st).1 = Return tt
  /\ reminders st' = VList (scanned (scan_entries v pre) ++ r :: post)
  /\ alerts st' = alerts st ++ shown (scan_entries v pre)
  /\ snoozed_items st' = snoozed_items st.
Proof.
  intros v st'. subst v st'. unfold tick_verdict in *.
  set (v := reminder_verdict _ _ _) in *.
  split.
  { rewrite (check_reminders_scan _ _ _ _ Hrs). cbv zeta. fold v.
    rewrite scan_entries_app. cbv zeta. rewrite Hpre. simpl.
    by rewrite Hfail. }
  split; [apply monitor_step_returns |].
  split; [apply monitor_loop_cons |].
  split; [apply monitor_loop_returns |].
  rewrite (monitor_step_scan _ _ _ Hrs). cbv zeta. fold v.
  rewrite scan_entries_app. cbv zeta. rewrite Hpre.
  simpl scan_entries. rewrite Hfail. simpl.
  by rewrite app_nil_r.
Qed.

Lemma monitor_step_isolates_per_tick_witness :
  let st := (ReminderApp_init file_with_bad_entry).2 in
  let st' := (monitor_step (tick_1430 env_ok) st).2 in
  (monitor_step (tick_1430 env_ok) st).1 = Return tt
  /\ monitor_loop [tick_1430 env_ok; tick_at env_ok 14 30 30] st
     = monitor_loop [tick_at env_ok 14 30 30] st'
  /\ reminders st' = VList [entry_without_date; VDict reminder_call_bob]
  /\ alerts st' = [].
Proof.
  intros st st'.
  destruct (monitor_step_isolates_per_tick (tick_1430 env_ok)
              [tick_at env_ok 14 30 30] st [] [VDict reminder_call_bob]
              entry_without_date (KeyError "date") eq_refl eq_refl eq_refl)
    as (_ & Hret & Hloop & _ & Hrs' & Hal & _).
  split; [exact Hret |]. split; [exact Hloop |].
  split; [exact Hrs' | exact Hal].
Defined.

(** C8, as stated, fails.  The store read from [file_with_bad_entry]
    holds an entry without a date followed by a reminder that is due at
    14:30: at the 14:30 turn the first entry raises [KeyError], the turn
    ends there, and the due reminder is neither shown nor deactivated.
    The same happens with two well-formed reminders due at 14:30 when the
    alert window of the first one raises: the second one is not shown. *)
Lemma monitor_step_counterexample :
  let due := Alert (VStr "REMINDER: Call Bob") (VStr "")
               (VInt 1717252200000) VNone in
  let st := (ReminderApp_init file_with_bad_entry).2 in
  let st' := (monitor_step (tick_1430 env_ok) st).2 in
  let st2 := run_ops [OpAdd form_pay_rent 1717252260000;
                      OpAdd form_call_bob 1717252200000] app_empty in
  let st2' := (monitor_step (tick_1430 env_flaky) st2).2 in
  (reminders st = VList [entry_without_date; VDict reminder_call_bob]
   /\ tick_verdict (tick_1430 env_ok) (VDict reminder_call_bob)
      = Fire due (VDict (<["active" := VBool false]> reminder_call_bob))
   /\ (check_reminders env_ok (tick_now (tick_1430 env_ok)) st).1
      = Raise (KeyError "date")
   /\ (due ∉ alerts st')
   /\ reminders st' = reminders st)
  /\ (reminders st2 = VList [VDict reminder_pay_rent; VDict reminder_call_bob]
      /\ tick_verdict (tick_1430 env_flaky) (VDict reminder_call_bob)
         = Fire due (VDict (<["active" := VBool false]> reminder_call_bob))
      /\ (check_reminders env_flaky (tick_now (tick_1430 env_flaky)) st2).1
         = Raise TclError
      /\ (due ∉ alerts st2')
      /\ reminders st2' = reminders st2).
Proof. repeat split; apply not_elem_of_nil. Qed.

(** ** C9: the title of a stored reminder *)

Lemma show_edit_dialog_save_title i d f st rs :
  reminders st = VList rs -> rs !! i = Some (VDict d) ->
  exists d' : dict,
    reminders (show_edit_dialog_save i (VDict d) f st).2
    = VList (<[i := VDict d']> rs)
    /\ d' !! "title" = Some (VStr (strip (title_entry f))).
Proof.
  intros Hrs _.
  destruct (show_edit_dialog_save_entry i d f st rs Hrs)
    as (d' & Hst & _ & Htitle).
  by exists d'.
Qed.

(** C9. [add_reminder_gui] refuses a title that is empty once stripped,
    but the [save] button of the edit dialog stores the stripped title
    without looking at it: editing the reminder "Call Bob" with a title
    entry of three spaces leaves a reminder with the empty title in the
    store and in the file, while an add with the same title entry changes
    nothing. *)
Theorem edit_reminder_stores_empty_title :
  let st := run_op (OpAdd form_call_bob 1717252200000) app_empty in
  let st' := run_op (OpEdit 1717252200000 false (Some form_blank_title)) st in
  reminders st = VList [VDict reminder_call_bob]
  /\ reminders st' = VList [VDict (<["title" := VStr ""]> reminder_call_bob)]
  /\ DATA_FILE st' = document_of st'
  /\ run_op (OpAdd form_blank_add 1717252260000) st = st.
Proof. repeat split. Qed.
(** * More of the core *)

(** ** Snoozed items *)

Lemma snoozed_verdict_skip env cur r :
  snoozed_verdict env cur r = Skip <-> snoozed_is_due cur r = Return false.
Proof.
  unfold snoozed_verdict. destruct r as [| | | | | d]; try done.
  destruct (snoozed_is_due cur (VDict d)) as [[|] | e]; try done.
  destruct (snoozed_alert (VDict d)) as [a | e]; [| done].
  by destruct (alert_returns env a).
Qed.

Lemma snoozed_verdict_fire env cur r a r' :
  snoozed_verdict env cur r = Fire a r' ->
  exists d, r = VDict d /\ r' = VDict (<["active" := VBool false]> d)
            /\ snoozed_is_due cur r = Return true
            /\ snoozed_alert r = Return a
            /\ alert_returns env a = true.
Proof.
  unfold snoozed_verdict. destruct r as [| | | | | d]; try done.
  destruct (snoozed_is_due cur (VDict d)) as [[|] | e]; try done.
  destruct (snoozed_alert (VDict d)) as [a0 | e]; [| done].
  destruct (alert_returns env a0) eqn:Eret; [| done].
  simpl. intros [= <- <-]. by exists d.
Qed.

Lemma snoozed_is_due_inactive cur d :
  snoozed_is_due cur (VDict (<["active" := VBool false]> d)) = Return false.
Proof. unfold snoozed_is_due. simpl. by rewrite lookup_insert_eq. Qed.

(** After a scan of the snoozed items that raised nothing, no item is due
    any more at the same minute. *)
Lemma scan_snoozed_quiet env env' cur items :
  raised (scan_entries (snoozed_verdict env cur) items) = None ->
  scan_entries (snoozed_verdict env' cur)
    (scanned (scan_entries (snoozed_verdict env cur) items))
  = Scan (scanned (scan_entries (snoozed_verdict env cur) items)) [] None.
Proof.
  induction items as [| r rs IH]; [reflexivity |].
  simpl. destruct (snoozed_verdict env cur r) as [| a r' | e] eqn:E;
    simpl; [| | discriminate]; intros Hr.
  - apply snoozed_verdict_skip in E.
    rewrite (proj2 (snoozed_verdict_skip env' cur r) E).
    by rewrite (IH Hr).
  - apply snoozed_verdict_fire in E as (d & -> & -> & _).
    rewrite (proj2 (snoozed_verdict_skip env' cur _)
               (snoozed_is_due_inactive cur d)).
    by rewrite (IH Hr).
Qed.

Lemma snooze_item_run now now_ms item_id minutes title message voice st t :
  plus_minutes now minutes = Return t ->
  exists item : dict,
    snooze_item now now_ms item_id minutes title message voice st
    = (Return tt, set_snoozed_items (snoozed_items st ++ [VDict item]) st)
    /\ item !! "trigger_time" = Some (VStr (strftime_Ymd_HM t))
    /\ item !! "active" = Some (VBool true)
    /\ snoozed_alert (VDict item) = Return (Alert title message item_id voice)
    /\ item !! "id" = Some (VInt now_ms).
Proof.
  unfold plus_minutes, snooze_item, bind, lift, modify.
  destruct (timedelta_minutes minutes) as [delta | e]; [| discriminate].
  intros ->. eexists. split; [reflexivity |].
  split; [lookup_fields |]. split; [lookup_fields |]. split; [| lookup_fields].
  unfold snoozed_alert, getitem, get_default.
  by repeat (rewrite lookup_insert_eq || rewrite lookup_insert_ne by done).
Qed.

Lemma snoozed_verdict_due env cur (item : dict) a :
  item !! "trigger_time" = Some (VStr cur) ->
  item !! "active" = Some (VBool true) ->
  snoozed_alert (VDict item) = Return a ->
  alert_returns env a = true ->
  snoozed_verdict env cur (VDict item)
  = Fire a (VDict (<["active" := VBool false]> item)).
Proof.
  intros Ht Ha Hal Hret. unfold snoozed_verdict, snoozed_is_due, getitem.
  rewrite Ha. simpl. rewrite Ht. simpl. rewrite String.eqb_refl.
  by rewrite Hal, Hret.
Qed.

(** X1. A snooze followed by a check of the snoozed items at the minute of
    the trigger: when no older snoozed item fails in that check and the
    alert window opens, the check shows, after the alerts of the older
    items, one alert with the title, the message, the item id and the
    voice note that were snoozed, and leaves the new item inactive; one
    more check at that minute, in any environment, changes nothing. *)
Theorem snooze_then_check_snoozed (env : Env) (now later t : datetime)
    (now_ms minutes : Z) (item_id title message voice : value)
    (st : ReminderApp)
    (Hplus : plus_minutes now minutes = Return t)
    (Hlater : strftime_Ymd_HM later = strftime_Ymd_HM t)
    (Holder : raised (scan_entries
                        (snoozed_verdict env (strftime_Ymd_HM later))
                        (snoozed_items st)) = None)
    (Hopens : alert_returns env (Alert title message item_id voice) = true) :
  let st1 :=
    (snooze_item now now_ms item_id minutes title message voice st).2 in
  let st2 := (check_snoozed env later st1).2 in
  let older := scan_entries (snoozed_verdict env (strftime_Ymd_HM later))
                 (snoozed_items st) in
  (check_snoozed env later st1).1 = Return tt
  /\ alerts st2
     = alerts st ++ shown older ++ [Alert title message item_id voice]
  /\ (exists item : dict,
        snoozed_items st2 = scanned older ++ [VDict item]
        /\ item !! "active" = Some (VBool false)
        /\ item !! "id" = Some (VInt now_ms))
  /\ forall env', check_snoozed env' later st2 = (Return tt, st2).
Proof.
  intros st1 st2 older. subst st1 st2 older.
  set (older := scan_entries _ (snoozed_items st)) in *.
  destruct (snooze_item_run now now_ms item_id minutes title message voice st
              t Hplus) as (item & -> & Htrig & Hact & Halert & Hid).
  rewrite <- Hlater in Htrig.
  pose proof (snoozed_verdict_due env _ item _ Htrig Hact Halert Hopens)
    as Hfire.
  assert (Hscan : scan_entries (snoozed_verdict env (strftime_Ymd_HM later))
                    (snoozed_items st ++ [VDict item])
                  = Scan (scanned older
                          ++ [VDict (<["active" := VBool false]> item)])
                      (shown older ++ [Alert title message item_id voice])
                      None).
  { rewrite scan_entries_app. cbv zeta. fold older. rewrite Holder.
    simpl. by rewrite Hfire. }
  rewrite check_snoozed_scan. cbv zeta. simpl snoozed_items.
  rewrite Hscan. simpl.
  split; [done |]. split; [done |]. split.
  - eexists. split; [reflexivity |]. split; lookup_fields.
  - intros env'. rewrite check_snoozed_scan. cbv zeta. simpl snoozed_items.
    assert (Hnone : raised (scan_entries
                              (snoozed_verdict env (strftime_Ymd_HM later))
                              (snoozed_items st ++ [VDict item])) = None)
      by (by rewrite Hscan).
    pose proof (scan_snoozed_quiet env env' _ _ Hnone) as Hq.
    rewrite Hscan in Hq. simpl in Hq. rewrite Hq. simpl.
    unfold after_snoozed_scan. simpl. by rewrite app_nil_r.
Qed.

Lemma snooze_then_check_snoozed_witness :
  let st1 :=
    (snooze_item (Datetime 2024 6 1 14 30 12 0) 1717252212000
       (VInt 1717252200000) 10 (VStr "REMINDER: Call Bob") (VStr "") VNone
       app_empty).2 in
  alerts (check_snoozed env_ok (Datetime 2024 6 1 14 40 29 0) st1).2
  = [Alert (VStr "REMINDER: Call Bob") (VStr "") (VInt 1717252200000) VNone].
Proof.
  intros st1.
  destruct (snooze_then_check_snoozed env_ok (Datetime 2024 6 1 14 30 12 0)
              (Datetime 2024 6 1 14 40 29 0) (Datetime 2024 6 1 14 40 12 0)
              1717252212000 10 (VInt 1717252200000)
              (VStr "REMINDER: Call Bob") (VStr "") VNone app_empty
              eq_refl eq_refl eq_refl eq_refl) as (_ & Hal & _).
  exact Hal.
Defined.

(** ** What each poller touches *)

Lemma persisted_document st : DATA_FILE st = document_of st -> persisted st.
Proof. intros E. unfold persisted. rewrite E. split; reflexivity. Qed.

Lemma check_reminders_loop_frame env cd ct todo : forall i st,
  let st' := (check_reminders_loop env cd ct i todo st).2 in
  snoozed_items st' = snoozed_items st
  /\ alarms st' = alarms st
  /\ pending_voice_note st' = pending_voice_note st
  /\ (persisted st -> persisted st').
Proof.
  induction todo as [| r rest IH]; intros i st; [done |].
  cbv zeta. rewrite check_reminders_loop_cons.
  destruct (reminder_verdict env cd ct r) as [| a r' | e]; [apply IH | | done].
  set (st1 := (save_data (set_reminder i r' (add_alert a st))).2).
  assert (Hst1 : snoozed_items st1 = snoozed_items st
                 /\ alarms st1 = alarms st
                 /\ pending_voice_note st1 = pending_voice_note st
                 /\ DATA_FILE st1 = document_of st1).
  { subst st1. unfold set_reminder. simpl.
    by destruct (reminders st). }
  destruct Hst1 as (Hs1 & Ha1 & Hp1 & Hdoc).
  destruct (IH (S i) st1) as (Hs & Ha & Hp & Hper).
  rewrite Hs, Ha, Hp, Hs1, Ha1, Hp1.
  split; [done |]. split; [done |]. split; [done |].
  intros _. by apply Hper, persisted_document.
Qed.

Lemma check_reminders_frame env now st :
  let st' := (check_reminders env now st).2 in
  snoozed_items st' = snoozed_items st
  /\ alarms st' = alarms st
  /\ pending_voice_note st' = pending_voice_note st
  /\ (persisted st -> persisted st').
Proof.
  unfold check_reminders, bind, gets, lift.
  destruct (py_iter (reminders st)) as [items | e]; [| done].
  apply check_reminders_loop_frame.
Qed.

Lemma check_snoozed_frame env now st :
  let st' := (check_snoozed env now st).2 in
  reminders st' = reminders st /\ alarms st' = alarms st
  /\ DATA_FILE st' = DATA_FILE st
  /\ pending_voice_note st' = pending_voice_note st.
Proof. by rewrite check_snoozed_scan. Qed.

Lemma snooze_item_frame now now_ms item_id minutes title message voice st :
  let st' :=
    (snooze_item now now_ms item_id minutes title message voice st).2 in
  reminders st' = reminders st /\ alarms st' = alarms st
  /\ DATA_FILE st' = DATA_FILE st /\ alerts st' = alerts st
  /\ pending_voice_note st' = pending_voice_note st.
Proof.
  unfold snooze_item, bind, lift, modify.
  destruct (timedelta_minutes minutes) as [delta | e]; [| done].
  by destruct (datetime_add now delta).
Qed.

(** X2. Snoozed items live in memory only.  [snooze_item] and
    [check_snoozed] change neither the store nor the data file,
    [check_reminders] does not change the snoozed items, and an
    application started from any data file has no snoozed item: a snooze
    that is pending when the application stops is lost. *)
Theorem snoozed_items_in_memory_only (env : Env) (now : datetime)
    (now_ms minutes : Z) (item_id title message voice : value)
    (st : ReminderApp) (file : data_file) :
  let snoozed :=
    (snooze_item now now_ms item_id minutes title message voice st).2 in
  (reminders snoozed = reminders st /\ DATA_FILE snoozed = DATA_FILE st)
  /\ (reminders (check_snoozed env now st).2 = reminders st
      /\ DATA_FILE (check_snoozed env now st).2 = DATA_FILE st)
  /\ snoozed_items (check_reminders env now st).2 = snoozed_items st
  /\ snoozed_items (ReminderApp_init (DATA_FILE snoozed)).2 = []
  /\ snoozed_items (ReminderApp_init file).2 = [].
Proof.
  intros snoozed. subst snoozed.
  destruct (snooze_item_frame now now_ms item_id minutes title message voice st)
    as (Hr & _ & Hf & _).
  destruct (check_snoozed_frame env now st) as (Hr' & _ & Hf' & _).
  destruct (check_reminders_frame env now st) as (Hs & _).
  assert (Hinit : forall f, snoozed_items (ReminderApp_init f).2 = []).
  { intros f. unfold ReminderApp_init, load_data, bind, gets, try_except_pass.
    simpl. destruct f as [| | doc]; try reflexivity.
    unfold lift, modify. destruct doc; reflexivity. }
  repeat split; try done; apply Hinit.
Qed.

(** ** The file follows the store *)

Lemma persisted_same st st' :
  reminders st' = reminders st -> alarms st' = alarms st ->
  DATA_FILE st' = DATA_FILE st -> persisted st -> persisted st'.
Proof. unfold persisted. by intros -> -> ->. Qed.

Lemma persisted_init file : persisted (ReminderApp_init file).2.
Proof.
  unfold persisted.
  assert (E : DATA_FILE (ReminderApp_init file).2 = file).
  { unfold ReminderApp_init, load_data, bind, gets, try_except_pass.
    simpl. destruct file as [| | doc]; try reflexivity.
    unfold lift, modify. destruct doc; reflexivity. }
  by rewrite E.
Qed.

Lemma persisted_monitor_step t st :
  persisted st -> persisted (monitor_step t st).2.
Proof.
  intros Hp. unfold monitor_step, try_except_pass, bind.
  destruct (check_reminders_frame (tick_env t) (tick_now t) st)
    as (_ & Ha & _ & Hper).
  specialize (Hper Hp).
  destruct (check_reminders (tick_env t) (tick_now t) st) as [[[] | e] st1];
    simpl in *; [| done].
  destruct (check_snoozed_frame (tick_env t) (tick_now_snoozed t) st1)
    as (Hr2 & Ha2 & Hf2 & _).
  assert (persisted (check_snoozed (tick_env t) (tick_now_snoozed t) st1).2)
    by (by eapply persisted_same).
  by destruct (check_snoozed (tick_env t) (tick_now_snoozed t) st1)
    as [[[] | e] st2].
Qed.

Lemma persisted_add f now_ms st :
  persisted st -> persisted (add_reminder_gui f now_ms st).2.
Proof.
  intros Hp. unfold add_reminder_gui.
  destruct (String.eqb _ ""); [done |].
  unfold bind, gets, lift, modify, ret, save_data.
  destruct (truthy (pending_voice_note st)); simpl;
    destruct (reminders st) eqn:Er; simpl;
    try (by apply persisted_document);
    by (eapply persisted_same; [| | | exact Hp]).
Qed.

Lemma persisted_delete reminder_id st :
  persisted st -> persisted (delete_reminder reminder_id st).2.
Proof.
  intros Hp. unfold delete_reminder, try_except_pass, bind, gets, lift, modify.
  destruct (py_iter (reminders st)) as [items | e]; [| done].
  destruct (filter_ne_id reminder_id items) as [kept | e]; [| done].
  simpl. by apply persisted_document.
Qed.

Lemma show_edit_dialog_save_persisted i (d : dict) f st :
  is_Some (edit_hour_var f) -> is_Some (edit_minute_var f) ->
  persisted (show_edit_dialog_save i (VDict d) f st).2.
Proof.
  intros [hour Hh] [minute Hm].
  unfold show_edit_dialog_save, save_data, bind, lift, ret, modify.
  rewrite Hh, Hm. unfold var_get. cbn [setitem].
  by destruct (truthy (new_voice_note f)); apply persisted_document.
Qed.

Lemma persisted_edit reminder_id remove_voice action st :
  saving_op (OpEdit reminder_id remove_voice action) ->
  persisted st ->
  persisted (edit_reminder reminder_id remove_voice action st).2.
Proof.
  intros Hsave Hp.
  unfold edit_reminder, try_except_pass, bind at 1, gets.
  unfold bind at 1, lift at 1.
  destruct (py_iter (reminders st)) as [items | e]; [| done].
  unfold bind at 1, lift at 1.
  destruct (find_by_id reminder_id 0 items) as [[[i r] |] | e]; try done.
  destruct (truthy r); [| done].
  assert (Hgoal : persisted (show_edit_dialog i r remove_voice action st).2).
  { unfold show_edit_dialog, bind, lift.
    destruct r as [| | | | | d]; try done. simpl getitem.
    destruct (d !! "title"); [| done].
    destruct (d !! "description"); [| done].
    simpl get_default. cbv iota beta.
    set (voice := default (VStr "") (d !! "voice_note")).
    destruct action as [f |].
    - assert (Hf : is_Some (edit_hour_var f) /\ is_Some (edit_minute_var f))
        by (by destruct remove_voice).
      destruct Hf as [Hh Hm].
      destruct (truthy voice); unfold ret;
        [destruct (basename_checks voice); [| done] |];
        rewrite ?andb_true_r, ?andb_false_r;
        try destruct remove_voice; cbn [setitem]; unfold modify, ret;
        by apply show_edit_dialog_save_persisted.
    - destruct remove_voice; [done |]. cbn [andb]. unfold ret.
      destruct (truthy voice); [| done].
      by destruct (basename_checks voice). }
  by destruct (show_edit_dialog i r remove_voice action st) as [[[] | e] st'].
Qed.

Lemma persisted_run_op o st :
  saving_op o -> persisted st -> persisted (run_op o st).
Proof.
  intros Hsave Hp. destruct o; simpl.
  - by apply persisted_add.
  - unfold record_voice_note. destruct (truthy _); [| done].
    by eapply persisted_same; [| | | exact Hp].
  - by apply persisted_edit.
  - by apply persisted_delete.
  - by apply persisted_monitor_step.
  - destruct (snooze_item_frame now now_ms (alert_item_id a) minutes
                (alert_title a) (alert_message a) (alert_custom_voice a) st)
      as (Hr & Ha & Hf & _).
    by eapply persisted_same.
Qed.

(** X3. The file follows the store.  Start the application from any data
    file and run any sequence of adds, voice recordings, edits, deletes,
    poll ticks and snoozes in which no edit dialog is cancelled after
    "Remove Voice Note" was pressed and no edit is saved while a spin box
    of the time holds no number: at the end, starting the application
    again from the file on disk gives the [reminders] and the [alarms]
    held in memory.  Nothing the store holds is lost by a restart. *)
Theorem store_survives_restart (ops : list op) (file0 : data_file)
    (Hsaving : Forall saving_op ops) :
  let st := run_ops ops (ReminderApp_init file0).2 in
  reminders (ReminderApp_init (DATA_FILE st)).2 = reminders st
  /\ alarms (ReminderApp_init (DATA_FILE st)).2 = alarms st.
Proof.
  intros st. subst st. change (persisted (run_ops ops (ReminderApp_init file0).2)).
  pose proof (persisted_init file0) as Hp.
  revert Hp. generalize (ReminderApp_init file0).2.
  induction Hsaving as [| o ops Ho _ IH]; intros st Hp; [exact Hp |].
  simpl. apply IH. by apply persisted_run_op.
Qed.

Lemma store_survives_restart_witness :
  let st := run_ops [OpAdd form_call_bob 1717252200000;
                     OpAdd form_pay_rent 1717252260000;
                     OpTick (tick_1430 env_flaky);
                     OpEdit 1717252200000 true (Some form_blank_title);
                     OpDelete 1717252260000]
              (ReminderApp_init file_with_bad_entry).2 in
  reminders (ReminderApp_init (DATA_FILE st)).2 = reminders st.
Proof.
  intros st.
  apply (store_survives_restart
           [OpAdd form_call_bob 1717252200000;
            OpAdd form_pay_rent 1717252260000;
            OpTick (tick_1430 env_flaky);
            OpEdit 1717252200000 true (Some form_blank_title);
            OpDelete 1717252260000] file_with_bad_entry).
  repeat (apply Forall_cons; split; [cbn; try done; split; by eexists |]).
  constructor.
Defined.

(** ** Edits that are cancelled *)

Lemma find_by_id_found reminder_id rs i r :
  find_by_id reminder_id 0 rs = Return (Some (i, r)) -> rs !! i = Some r.
Proof. by intros (k & -> & Hk & _)%find_by_id_lookup. Qed.

(** X4. In the edit dialog of a reminder whose voice note is the path of
    a file (a string that is not empty), pressing "Remove Voice Note" and
    then "Cancel" is not cancelled: the reminder in memory has lost its
    voice note, while the data file still holds it, so that the file no
    longer follows the store. *)
Theorem remove_voice_survives_cancel (reminder_id : Z) (st : ReminderApp)
    (rs : list value) (i : nat) (d : dict) (path : string)
    (Hrs : reminders st = VList rs)
    (Hfound : find_by_id reminder_id 0 rs = Return (Some (i, VDict d)))
    (Htitle : is_Some (d !! "title"))
    (Hdesc : is_Some (d !! "description"))
    (Hvoice : d !! "voice_note" = Some (VStr path))
    (Hpath : path <> "") :
  let st' := (edit_reminder reminder_id true None st).2 in
  reminders st' = VList (<[i := VDict (<["voice_note" := VNone]> d)]> rs)
  /\ reminders st' <> reminders st
  /\ DATA_FILE st' = DATA_FILE st
  /\ (persisted st -> ~ persisted st').
Proof.
  intros st'.
  assert (Htruthy : truthy (VStr path) = true).
  { simpl. apply negb_true_iff. by apply String.eqb_neq. }
  assert (Hrun : edit_reminder reminder_id true None st
                 = (Return tt,
                    set_reminder i (VDict (<["voice_note" := VNone]> d)) st)).
  { unfold edit_reminder, try_except_pass, bind at 1, gets.
    unfold bind at 1, lift at 1. rewrite Hrs. simpl py_iter. cbv iota beta.
    unfold bind at 1, lift at 1. rewrite Hfound. cbv iota beta.
    assert (Hne : truthy (VDict d) = true).
    { simpl. apply negb_true_iff, bool_decide_eq_false. intros ->.
      by rewrite lookup_empty in Hvoice. }
    rewrite Hne. destruct Htitle as [vt Ht], Hdesc as [vd Hd].
    unfold show_edit_dialog, bind, lift, modify, ret. simpl getitem.
    rewrite Ht, Hd. unfold get_default. rewrite Hvoice.
    change (default (VStr "") (Some (VStr path))) with (VStr path).
    by rewrite Htruthy. }
  assert (E : reminders st'
              = VList (<[i := VDict (<["voice_note" := VNone]> d)]> rs)
              /\ DATA_FILE st' = DATA_FILE st).
  { subst st'. rewrite Hrun. unfold set_reminder. by rewrite Hrs. }
  destruct E as [Er Ef].
  assert (Hneq : reminders st' <> reminders st).
  { rewrite Er, Hrs. intros [= Heq].
    pose proof (find_by_id_found _ _ _ _ Hfound) as Hi.
    assert (Hlook : <[i := VDict (<["voice_note" := VNone]> d)]> rs !! i
                    = Some (VDict (<["voice_note" := VNone]> d))).
    { apply list_lookup_insert_eq. by eapply lookup_lt_Some. }
    rewrite Heq, Hi in Hlook. injection Hlook as Hd'.
    assert (Hv : (<["voice_note" := VNone]> d) !! "voice_note" = Some VNone)
      by apply lookup_insert_eq.
    rewrite <- Hd', Hvoice in Hv. discriminate. }
  split; [done |]. split; [done |]. split; [done |].
  intros [Hp _] [Hp' _]. rewrite Ef, Hp in Hp'. by apply Hneq.
Qed.

Lemma remove_voice_survives_cancel_witness :
  let st := run_ops [OpRecordVoice "/home/u/reminder_voice_notes/voice_1.wav";
                     OpAdd form_call_bob 1717252200000] app_empty in
  let st' := (edit_reminder 1717252200000 true None st).2 in
  reminders st' <> reminders st /\ DATA_FILE st' = DATA_FILE st.
Proof.
  intros st st'.
  destruct (remove_voice_survives_cancel 1717252200000 st
              [VDict (<["voice_note" :=
                          VStr "/home/u/reminder_voice_notes/voice_1.wav"]>
                        reminder_call_bob)] 0
              (<["voice_note" :=
                   VStr "/home/u/reminder_voice_notes/voice_1.wav"]>
                 reminder_call_bob)
              "/home/u/reminder_voice_notes/voice_1.wav"
              eq_refl eq_refl) as (_ & Hne & Hf & _);
    [by eexists | by eexists | reflexivity | discriminate |].
  split; [exact Hne | exact Hf].
Defined.

Lemma add_reminder_gui_fields f now_ms st rs :
  reminders st = VList rs ->
  strip (reminder_title f) <> "" ->
  exists d : dict,
    add_reminder_gui f now_ms st
    = (Return tt,
       (save_data
          (set_reminders (VList (rs ++ [VDict d]))
             (if truthy (pending_voice_note st)
              then set_pending_voice_note VNone st else st))).2)
    /\ d !! "id" = Some (VInt now_ms)
    /\ d !! "title" = Some (VStr (strip (reminder_title f)))
    /\ d !! "description" = Some (VStr (strip (reminder_desc f)))
    /\ d !! "date" = Some (VStr (strftime_date (reminder_date f)))
    /\ d !! "time"
       = Some (VStr (get_24hour_time (hour_var f) (minute_var f) (ampm_var f)))
    /\ d !! "priority" = Some (VStr (reminder_priority f))
    /\ d !! "active" = Some (VBool true)
    /\ d !! "voice_note"
       = (if truthy (pending_voice_note st)
          then Some (pending_voice_note st) else None).
Proof.
  intros Hrs Htitle. unfold add_reminder_gui.
  destruct (String.eqb_spec (strip (reminder_title f)) "") as [E | _]; [done |].
  unfold bind, gets, lift, modify, ret, save_data.
  destruct (truthy (pending_voice_note st)); simpl; rewrite Hrs; simpl;
    eexists; (split; [reflexivity |]); repeat split; lookup_fields.
Qed.

(** X5. A recorded voice note goes to the next reminder that is added,
    and to that one only: after a recording and two adds with non-blank
    titles, the first new reminder carries the recorded file, the second
    carries no voice note, and no recording is pending.  An add that is
    refused for its blank title leaves the recording pending. *)
Theorem voice_note_goes_to_next_reminder (filepath : string)
    (f1 f2 : add_form) (ms1 ms2 : Z) (st : ReminderApp) (rs : list value)
    (Hrs : reminders st = VList rs)
    (Hpath : filepath <> "")
    (Htitle1 : strip (reminder_title f1) <> "")
    (Htitle2 : strip (reminder_title f2) <> "") :
  (exists d1 d2 : dict,
     reminders (run_ops [OpRecordVoice filepath; OpAdd f1 ms1; OpAdd f2 ms2] st)
     = VList (rs ++ [VDict d1; VDict d2])
     /\ d1 !! "voice_note" = Some (VStr filepath)
     /\ d2 !! "voice_note" = None
     /\ pending_voice_note
          (run_ops [OpRecordVoice filepath; OpAdd f1 ms1; OpAdd f2 ms2] st)
        = VNone)
  /\ forall f ms,
       strip (reminder_title f) = "" ->
       pending_voice_note (run_ops [OpRecordVoice filepath; OpAdd f ms] st)
       = VStr filepath.
Proof.
  assert (Htr : truthy (VStr filepath) = true).
  { simpl. apply negb_true_iff. by apply String.eqb_neq. }
  assert (Hrec : run_op (OpRecordVoice filepath) st
                 = set_pending_voice_note (VStr filepath) st).
  { simpl. unfold record_voice_note. by rewrite Htr. }
  split.
  - change (run_ops [OpRecordVoice filepath; OpAdd f1 ms1; OpAdd f2 ms2] st)
      with (add_reminder_gui f2 ms2
              (add_reminder_gui f1 ms1
                 (run_op (OpRecordVoice filepath) st)).2).2.
    rewrite Hrec.
    destruct (add_reminder_gui_fields f1 ms1
                (set_pending_voice_note (VStr filepath) st) rs Hrs Htitle1)
      as (d1 & E1 & _ & _ & _ & _ & _ & _ & _ & Hv1).
    change (pending_voice_note (set_pending_voice_note (VStr filepath) st))
      with (VStr filepath) in E1, Hv1.
    rewrite Htr in E1, Hv1. rewrite E1. cbn [snd].
    set (st1 := (save_data _).2).
    destruct (add_reminder_gui_fields f2 ms2 st1 (rs ++ [VDict d1]) eq_refl
                Htitle2)
      as (d2 & E2 & _ & _ & _ & _ & _ & _ & _ & Hv2).
    change (pending_voice_note st1) with VNone in E2, Hv2.
    change (truthy VNone) with false in E2, Hv2. cbv iota in E2, Hv2.
    rewrite E2. cbn [snd]. exists d1, d2.
    split; [simpl; by rewrite <- app_assoc |].
    split; [done |]. split; [done | reflexivity].
  - intros f ms Hblank. unfold run_ops. simpl foldl.
    fold (run_op (OpRecordVoice filepath) st). rewrite Hrec.
    by rewrite add_reminder_gui_blank.
Qed.

Lemma voice_note_goes_to_next_reminder_witness :
  exists d1 d2 : dict,
    reminders (run_ops [OpRecordVoice "voice_1717252190.wav";
                        OpAdd form_call_bob 1717252200000;
                        OpAdd form_pay_rent 1717252260000] app_empty)
    = VList [VDict d1; VDict d2]
    /\ d1 !! "voice_note" = Some (VStr "voice_1717252190.wav")
    /\ d2 !! "voice_note" = None.
Proof.
  destruct (voice_note_goes_to_next_reminder "voice_1717252190.wav"
              form_call_bob form_pay_rent 1717252200000 1717252260000
              app_empty [] eq_refl) as [(d1 & d2 & Hr & H1 & H2 & _) _];
    [discriminate | discriminate | discriminate |].
  by exists d1, d2.
Defined.

(** ** A reminder added through the form and the poller *)

Lemma four_digits_inj a b :
  0 <= a < 10000 -> 0 <= b < 10000 -> four_digits a = four_digits b -> a = b.
Proof.
  intros Ha Hb Heq. unfold four_digits, two_digits in Heq.
  injection Heq as H3 H2 H1 H0.
  apply digit_char_inj in H3; [| div_lia ..].
  apply digit_char_inj in H2; [| div_lia ..].
  apply digit_char_inj in H1; [| div_lia ..].
  apply digit_char_inj in H0; [| div_lia ..].
  div_lia.
Qed.

Lemma strftime_ymd_inj y m d y' m' d' :
  valid_date y m d = true -> valid_date y' m' d' = true ->
  strftime_ymd y m d = strftime_ymd y' m' d' ->
  y = y' /\ m = m' /\ d = d'.
Proof.
  intros (Hy & Hm & Hd)%valid_date_bounds (Hy' & Hm' & Hd')%valid_date_bounds.
  unfold strftime_ymd.
  rewrite !format_0d_four_digits, !format_0d_two_digits by lia.
  unfold four_digits, two_digits. simpl. intros Heq.
  injection Heq as Y3 Y2 Y1 Y0 M1 M0 D1 D0.
  repeat split;
    [apply four_digits_inj | apply two_digits_inj | apply two_digits_inj];
    unfold four_digits, two_digits; try lia; congruence.
Qed.

Lemma added_reminder_is_due f (now : datetime) (d : dict) :
  valid_date (d_year (reminder_date f)) (d_month (reminder_date f))
    (d_day (reminder_date f)) = true ->
  1 <= hour_var f <= 12 -> 0 <= minute_var f <= 59 ->
  ampm_var f = "AM" \/ ampm_var f = "PM" ->
  valid_datetime now = true ->
  d !! "active" = Some (VBool true) ->
  d !! "date" = Some (VStr (strftime_date (reminder_date f))) ->
  d !! "time"
  = Some (VStr (get_24hour_time (hour_var f) (minute_var f) (ampm_var f))) ->
  reminder_is_due (strftime_Ymd now) (strftime_HM now) (VDict d)
  = Return (bool_decide (year now = d_year (reminder_date f)
                         /\ month now = d_month (reminder_date f)
                         /\ day now = d_day (reminder_date f)
                         /\ hour now = hour24 (hour_var f) (ampm_var f)
                         /\ minute now = minute_var f)).
Proof.
  intros Hdate Hh Hm Ha Hnow Hact Hd Ht.
  destruct (get_24hour_time_hhmm _ _ _ Hh Hm Ha) as [H24 E24].
  destruct (valid_datetime_time now Hnow) as (Hnh & Hnm & _).
  assert (Hnd : valid_date (year now) (month now) (day now) = true).
  { unfold valid_datetime in Hnow. rewrite !andb_true_iff in Hnow. tauto. }
  unfold reminder_is_due, getitem. rewrite Hact, Hd, Ht.
  cbn [truthy eq_str]. unfold strftime_date, strftime_Ymd.
  destruct (String.eqb_spec
              (strftime_ymd (d_year (reminder_date f))
                 (d_month (reminder_date f)) (d_day (reminder_date f)))
              (strftime_ymd (year now) (month now) (day now))) as [Ed | Nd].
  - apply strftime_ymd_inj in Ed as (Ey & Em & Edd); [| done ..].
    f_equal. rewrite E24. unfold strftime_HM.
    rewrite !format_0d_two_digits by lia. fold (hhmm (hour now) (minute now)).
    destruct (String.eqb_spec (hhmm (hour24 (hour_var f) (ampm_var f))
                                 (minute_var f))
                (hhmm (hour now) (minute now))) as [Et | Nt].
    + apply hhmm_inj in Et as [Eh Emi]; [| lia ..].
      symmetry. apply bool_decide_eq_true. by rewrite Ey, Em, Edd, Eh, Emi.
    + symmetry. apply bool_decide_eq_false. intros (_ & _ & _ & Eh & Emi).
      apply Nt. by rewrite Eh, Emi.
  - f_equal. symmetry. apply bool_decide_eq_false.
    intros (Ey & Em & Edd & _). apply Nd. by rewrite Ey, Em, Edd.
Qed.

(** X6. A reminder added through the form, with a valid date, an hour in
    1..12, a minute in 0..59 and AM or PM, is appended to the store, and
    the poller treats it at a valid moment [now] as follows: it is due
    exactly when the date of [now] is the date of the form, its hour is
    the hour of the day the form denotes and its minute is the minute of
    the form.  When it is due and the alert window opens, the alert shows
    the stripped title after ["REMINDER: "], the stripped description, the
    id of the reminder and the voice note that was pending, and the entry
    is deactivated. *)
Theorem added_reminder_fires_at_its_minute (f : add_form) (now_ms : Z)
    (st : ReminderApp) (rs : list value) (env : Env) (now : datetime)
    (Hrs : reminders st = VList rs)
    (Htitle : strip (reminder_title f) <> "")
    (Hdate : valid_date (d_year (reminder_date f)) (d_month (reminder_date f))
               (d_day (reminder_date f)) = true)
    (Hhour : 1 <= hour_var f <= 12)
    (Hminute : 0 <= minute_var f <= 59)
    (Hampm : ampm_var f = "AM" \/ ampm_var f = "PM")
    (Hnow : valid_datetime now = true) :
  exists d : dict,
    reminders (run_op (OpAdd f now_ms) st) = VList (rs ++ [VDict d])
    /\ let due :=
         bool_decide (year now = d_year (reminder_date f)
                      /\ month now = d_month (reminder_date f)
                      /\ day now = d_day (reminder_date f)
                      /\ hour now = hour24 (hour_var f) (ampm_var f)
                      /\ minute now = minute_var f) in
       let a :=
         Alert (VStr ("REMINDER: " +:+ strip (reminder_title f)))
           (VStr (strip (reminder_desc f))) (VInt now_ms)
           (if truthy (pending_voice_note st) then pending_voice_note st
            else VNone) in
       reminder_is_due (strftime_Ymd now) (strftime_HM now) (VDict d)
       = Return due
       /\ reminder_verdict env (strftime_Ymd now) (strftime_HM now) (VDict d)
          = if due then
              if alert_returns env a
              then Fire a (VDict (<["active" := VBool false]> d))
              else Fail TclError
            else Skip.
Proof.
  destruct (add_reminder_gui_fields f now_ms st rs Hrs Htitle)
    as (d & E & Hid & Ht & Hde & Hda & Hti & _ & Hact & Hv).
  exists d. split; [by cbn [run_op]; rewrite E |].
  intros due a.
  pose proof (added_reminder_is_due f now d Hdate Hhour Hminute Hampm Hnow
                Hact Hda Hti) as Hdue.
  fold due in Hdue. split; [exact Hdue |].
  unfold reminder_verdict. rewrite Hdue. destruct due; [| reflexivity].
  assert (Ha : reminder_alert env (VDict d) = Return a).
  { unfold reminder_alert, getitem, get_default. rewrite Ht, Hde, Hid, Hv.
    subst a. by destruct (truthy (pending_voice_note st)). }
  rewrite Ha. reflexivity.
Qed.

Lemma added_reminder_fires_at_its_minute_witness :
  exists d : dict,
    reminders (run_op (OpAdd form_call_bob 1717252200000) app_empty)
    = VList [VDict d]
    /\ reminder_is_due "2024-06-01" "14:30" (VDict d) = Return true.
Proof.
  destruct (added_reminder_fires_at_its_minute form_call_bob 1717252200000
              app_empty [] env_ok (Datetime 2024 6 1 14 30 12 0) eq_refl)
    as (d & Hr & H1 & _);
    [discriminate | reflexivity | simpl; lia | simpl; lia | by right
    | reflexivity |].
  exists d. split; [exact Hr | exact H1].
Defined.

(** ** Text: [str], [split] and [int] *)

Lemma append_cons x (a b : string) : String x a +:+ b = String x (a +:+ b).
Proof. reflexivity. Qed.

Lemma append_nil_l (b : string) : "" +:+ b = b.
Proof. reflexivity. Qed.

Ltac str_simpl := rewrite ?append_cons, ?append_nil_l.

Lemma append_assoc (a b c : string) : (a +:+ b) +:+ c = a +:+ (b +:+ c).
Proof.
  induction a as [| x a IH]; str_simpl; [reflexivity | by rewrite IH].
Qed.

Lemma append_nil_r (a : string) : a +:+ "" = a.
Proof.
  induction a as [| x a IH]; str_simpl; [reflexivity | by rewrite IH].
Qed.

Lemma length_append (a b : string) :
  String.length (a +:+ b) = (String.length a + String.length b)%nat.
Proof.
  induction a as [| x a IH]; str_simpl; simpl; [reflexivity | by rewrite IH].
Qed.

Lemma prefix_cons a s1 b s2 :
  String.prefix (String a s1) (String b s2)
  = Ascii.eqb a b && String.prefix s1 s2.
Proof.
  simpl. destruct (ascii_dec a b) as [-> | Hne].
  - by rewrite Ascii.eqb_refl.
  - by apply Ascii.eqb_neq in Hne as ->.
Qed.

Lemma prefix_nil s : String.prefix "" s = true.
Proof. by destruct s. Qed.

Lemma prefix_length sep s :
  String.prefix sep s = true -> (String.length sep <= String.length s)%nat.
Proof.
  revert s. induction sep as [| a sep IH]; intros [| b s]; simpl; try lia;
    try discriminate.
  destruct (ascii_dec a b); [| discriminate]. intros H%IH. lia.
Qed.

Lemma prefix_append_long sep s y :
  (String.length sep <= String.length s)%nat ->
  String.prefix sep (s +:+ y) = String.prefix sep s.
Proof.
  revert s. induction sep as [| a sep IH]; intros [| b s] Hlen;
    str_simpl; simpl in *; try reflexivity; try lia.
  - by destruct y.
  - destruct (ascii_dec a b); [apply IH; lia | reflexivity].
Qed.

Lemma prefix_append_self sep y : String.prefix sep (sep +:+ y) = true.
Proof.
  induction sep as [| a sep IH]; str_simpl; simpl; [by destruct y |].
  by destruct (ascii_dec a a).
Qed.

Lemma prefix_parts sep s :
  String.prefix sep s = true ->
  s = sep +:+ drop_chars (String.length sep) s.
Proof.
  revert s. induction sep as [| x sep IH]; intros [| y s]; simpl; try done.
  destruct (ascii_dec x y) as [-> |]; [| done]. intros H.
  str_simpl. f_equal. by apply IH.
Qed.

Lemma drop_chars_append sep y :
  drop_chars (String.length sep) (sep +:+ y) = y.
Proof.
  induction sep as [| a sep IH]; str_simpl; simpl; [by destruct y | done].
Qed.

Lemma drop_chars_append_long n s y :
  (n <= String.length s)%nat ->
  drop_chars n (s +:+ y) = drop_chars n s +:+ y.
Proof.
  revert s. induction n as [| n IH]; intros [| b s] Hlen; str_simpl;
    simpl in *; try reflexivity; try lia.
  apply IH. lia.
Qed.

Lemma partition_at_cons sep c s :
  partition_at sep (String c s)
  = if String.prefix sep (String c s)
    then Some ("", drop_chars (String.length sep) (String c s))
    else match partition_at sep s with
         | Some (a, b) => Some (String c a, b)
         | None => None
         end.
Proof. reflexivity. Qed.

(** The three parts [partition] finds make up the text. *)
Lemma partition_at_parts sep s a b :
  partition_at sep s = Some (a, b) -> s = a +:+ sep +:+ b.
Proof.
  revert a b. induction s as [| c s IH]; intros a b.
  - simpl. destruct sep; [| discriminate]. by intros [= <- <-].
  - rewrite partition_at_cons.
    destruct (String.prefix sep (String c s)) eqn:Hp.
    + intros [= <- <-]. str_simpl. by apply prefix_parts.
    + destruct (partition_at sep s) as [[a' b'] |]; [| discriminate].
      intros [= <- <-]. str_simpl. f_equal. by apply IH.
Qed.

Lemma partition_at_length sep s a b :
  partition_at sep s = Some (a, b) ->
  String.length s
  = (String.length a + String.length sep + String.length b)%nat.
Proof.
  intros ->%partition_at_parts. rewrite !length_append. lia.
Qed.

(** An occurrence found in [s] is the one found in [s] followed by more
    text. *)
Lemma partition_at_append sep s y a b :
  partition_at sep s = Some (a, b) ->
  partition_at sep (s +:+ y) = Some (a, b +:+ y).
Proof.
  revert a b. induction s as [| c s IH]; intros a b.
  - simpl. destruct sep; [| discriminate]. intros [= <- <-].
    by destruct y.
  - rewrite partition_at_cons. intros H.
    rewrite append_cons, partition_at_cons, <- append_cons.
    assert (Hlen : (String.length sep <= String.length (String c s))%nat).
    { destruct (String.prefix sep (String c s)) eqn:Hp.
      - by apply prefix_length.
      - destruct (partition_at sep s) as [[a' b'] |] eqn:Hs; [| discriminate].
        apply partition_at_length in Hs. simpl. lia. }
    rewrite prefix_append_long by done.
    destruct (String.prefix sep (String c s)).
    + injection H as <- <-. by rewrite drop_chars_append_long.
    + destruct (partition_at sep s) as [[a' b'] |]; [| discriminate].
      injection H as <- <-. by rewrite (IH a' b').
Qed.

(** A text that ends with [sep] contains it. *)
Lemma partition_at_append_sep sep s :
  exists a b, partition_at sep (s +:+ sep) = Some (a, b).
Proof.
  induction s as [| c s (a & b & IH)].
  - str_simpl. destruct sep as [| x sep]; [by eauto |].
    rewrite partition_at_cons.
    pose proof (prefix_append_self (String x sep) "") as Hp.
    rewrite append_nil_r in Hp. rewrite Hp. eauto.
  - rewrite append_cons, partition_at_cons, IH.
    destruct (String.prefix sep (String c (s +:+ sep))); eauto.
Qed.

Lemma partition_at_nil sep : sep <> "" -> partition_at sep "" = None.
Proof. by destruct sep. Qed.

Lemma split_fuel_enough sep : sep <> "" -> forall f1 f2 s,
  (String.length s <= f1)%nat -> (String.length s <= f2)%nat ->
  split_fuel f1 sep s = split_fuel f2 sep s.
Proof.
  intros Hsep. assert (Hlen : (1 <= String.length sep)%nat).
  { destruct sep; [done | simpl; lia]. }
  induction f1 as [| f1 IH]; intros f2 s H1 H2.
  - destruct s; [| simpl in H1; lia].
    destruct f2; cbn [split_fuel]; [done |]. by rewrite partition_at_nil.
  - destruct f2 as [| f2].
    + destruct s; [| simpl in H2; lia]. cbn [split_fuel].
      by rewrite partition_at_nil.
    + cbn [split_fuel]. destruct (partition_at sep s) as [[a b] |] eqn:Hp; [| done].
      apply partition_at_length in Hp. f_equal. apply IH; lia.
Qed.

(** [split] cuts at the first occurrence and goes on with the rest. *)
Lemma py_split_unfold sep s :
  sep <> "" ->
  py_split sep s
  = match partition_at sep s with
    | None => [s]
    | Some (a, b) => a :: py_split sep b
    end.
Proof.
  intros Hsep. unfold py_split.
  destruct (partition_at sep s) as [[a b] |] eqn:Hp.
  - rewrite (split_fuel_enough sep Hsep _ (S (String.length s)) s) by lia.
    cbn [split_fuel]. rewrite Hp. f_equal.
    apply partition_at_length in Hp.
    apply split_fuel_enough; [done | lia ..].
  - destruct (String.length s); cbn [split_fuel]; [done | by rewrite Hp].
Qed.

Lemma digit_of_digit_char d :
  0 <= d < 10 -> digit_of (digit_char d) = Some d.
Proof.
  intros Hd. unfold digit_of, digit_char.
  rewrite nat_ascii_embedding by lia.
  rewrite Z2Nat.id by lia.
  replace ((48 <=? 48 + d) && (48 + d <=? 57)) with true
    by (symmetry; apply andb_true_iff; split; apply Z.leb_le; lia).
  f_equal. lia.
Qed.

Lemma decimal_digits_S fuel n acc :
  decimal_digits (S fuel) n acc
  = if n / 10 =? 0 then String (digit_char (n mod 10)) acc
    else decimal_digits fuel (n / 10) (String (digit_char (n mod 10)) acc).
Proof. reflexivity. Qed.

Lemma digits_value_decimal fuel : forall n acc a p,
  0 <= n < 2 ^ Z.of_nat (S fuel) ->
  exists k, 0 <= k
    /\ digits_value (decimal_digits (S fuel) n acc) a p
       = digits_value acc (a * 10 ^ k + n) true.
Proof.
  induction fuel as [| fuel IH]; intros n acc a p Hn.
  - exists 1. split; [lia |]. cbn [decimal_digits].
    assert (n / 10 = 0) as -> by (change (2 ^ Z.of_nat 1) with 2 in Hn; div_lia).
    cbn [Z.eqb digits_value]. rewrite digit_of_digit_char by div_lia.
    f_equal. div_lia.
  - rewrite decimal_digits_S. destruct (Z.eqb_spec (n / 10) 0) as [E | E].
    + exists 1. split; [lia |]. cbn [digits_value].
      rewrite digit_of_digit_char by div_lia. f_equal. div_lia.
    + assert (Hn' : 0 <= n / 10 < 2 ^ Z.of_nat (S fuel)).
      { rewrite (Nat2Z.inj_succ (S fuel)), Z.pow_succ_r in Hn by lia.
        div_lia. }
      destruct (IH (n / 10) (String (digit_char (n mod 10)) acc) a p Hn')
        as (k & Hk & ->).
      exists (k + 1). split; [lia |]. cbn [digits_value].
      rewrite digit_of_digit_char by div_lia. f_equal.
      rewrite Z.pow_add_r by lia. div_lia.
Qed.

Lemma digits_value_str_nat n :
  0 <= n -> digits_value (str_nat n) 0 false = Some n.
Proof.
  intros Hn. unfold str_nat.
  destruct (digits_value_decimal (Z.to_nat (Z.log2 n)) n "" 0 false)
    as (k & _ & ->); [| reflexivity].
  split; [done |]. rewrite Nat2Z.inj_succ, Z2Nat.id by apply Z.log2_nonneg.
  destruct (Z.eq_dec n 0) as [-> | Hne]; [done |].
  apply Z.log2_spec. lia.
Qed.

Lemma all_chars_decimal p fuel : forall n acc,
  (forall d, 0 <= d < 10 -> p (digit_char d) = true) ->
  all_chars p acc = true ->
  all_chars p (decimal_digits fuel n acc) = true.
Proof.
  induction fuel as [| fuel IH]; intros n acc Hp Hacc; [done |].
  rewrite decimal_digits_S.
  assert (H' : all_chars p (String (digit_char (n mod 10)) acc) = true).
  { cbn [all_chars]. rewrite Hp by div_lia. done. }
  destruct (n / 10 =? 0); [done | by apply IH].
Qed.

Lemma all_chars_str_int p z :
  (forall d, 0 <= d < 10 -> p (digit_char d) = true) ->
  p "-"%char = true ->
  all_chars p (str_int z) = true.
Proof.
  intros Hp Hminus. unfold str_int, str_nat.
  destruct (z <? 0); str_simpl; cbn [all_chars]; rewrite ?Hminus;
    by apply all_chars_decimal.
Qed.


Lemma lstrip_no_space c s :
  no_space_start c = true -> lstrip (String c s) = String c s.
Proof.
  unfold no_space_start. intros [Hc Hlead]%andb_true_iff.
  apply negb_true_iff in Hc. apply negb_true_iff in Hlead.
  apply orb_false_iff in Hlead as [Hlead H227].
  apply orb_false_iff in Hlead as [Hlead H226].
  apply orb_false_iff in Hlead as [H194 H225].
  cbn [lstrip]. rewrite Hc.
  destruct s as [| c2 [| c3 s]]; [done | |].
  - unfold is_space2. by rewrite H194.
  - unfold is_space2, is_space3. by rewrite H194, H225, H226, H227.
Qed.

Lemma rstrip_no_space s :
  all_chars no_space_start s = true -> rstrip s = s.
Proof.
  induction s as [| c s IH]; [done |]. cbn [all_chars].
  intros [Hc Hs]%andb_true_iff.
  cbn [rstrip]. rewrite lstrip_no_space by done. by rewrite IH.
Qed.

Lemma strip_no_space s :
  all_chars no_space_start s = true -> strip s = s.
Proof.
  intros H. unfold strip. destruct s as [| c s]; [done |].
  pose proof H as H'. cbn [all_chars] in H'.
  apply andb_true_iff in H' as [Hc _].
  rewrite lstrip_no_space by done. by apply rstrip_no_space.
Qed.

Lemma rstrip_int_no_space s :
  all_chars (λ c, negb (is_int_space c)) s = true -> rstrip_int s = s.
Proof.
  induction s as [| c s IH]; [done |]. cbn [all_chars].
  intros [Hc Hs]%andb_true_iff. apply negb_true_iff in Hc.
  cbn [rstrip_int]. rewrite IH by done. destruct s; [by rewrite Hc | done].
Qed.

Lemma int_strip_no_space s :
  all_chars (λ c, negb (is_int_space c)) s = true ->
  rstrip_int (lstrip_int s) = s.
Proof.
  intros H. destruct s as [| c s]; [done |].
  pose proof H as H'. cbn [all_chars] in H'.
  apply andb_true_iff in H' as [Hc%negb_true_iff _].
  cbn [lstrip_int]. rewrite Hc. by apply rstrip_int_no_space.
Qed.

Lemma digit_char_cases (p : ascii -> bool) :
  forallb (λ d, p (digit_char d)) (seqZ 0 10) = true ->
  forall d, 0 <= d < 10 -> p (digit_char d) = true.
Proof.
  intros Hall d Hd. rewrite forallb_forall in Hall.
  apply (Hall d), list_elem_of_In, elem_of_seqZ. lia.
Qed.

Lemma str_int_no_space z : all_chars no_space_start (str_int z) = true.
Proof.
  apply (all_chars_str_int no_space_start); [| done].
  by apply (digit_char_cases no_space_start).
Qed.

Lemma str_int_no_int_space z :
  all_chars (λ c, negb (is_int_space c)) (str_int z) = true.
Proof.
  apply (all_chars_str_int (λ c, negb (is_int_space c))); [| done].
  by apply (digit_char_cases (λ c, negb (is_int_space c))).
Qed.

Lemma str_nat_digits n : all_chars is_digit (str_nat n) = true.
Proof.
  unfold str_nat. apply all_chars_decimal; [| done].
  by apply (digit_char_cases is_digit).
Qed.

Lemma decimal_digits_not_empty fuel : forall n acc,
  acc <> "" -> decimal_digits fuel n acc <> "".
Proof.
  induction fuel as [| fuel IH]; intros n acc Hacc; [done |].
  rewrite decimal_digits_S. destruct (n / 10 =? 0); [done | by apply IH].
Qed.

Lemma str_nat_not_empty n : str_nat n <> "".
Proof.
  unfold str_nat. rewrite decimal_digits_S.
  destruct (n / 10 =? 0); [done | by apply decimal_digits_not_empty].
Qed.

Lemma py_int_str_unsigned s :
  all_chars is_digit s = true -> py_int_str s = digits_value s 0 false.
Proof.
  intros Hs. unfold py_int_str.
  rewrite int_strip_no_space.
  - destruct s as [| c t]; [done |]. cbn [all_chars] in Hs.
    apply andb_true_iff in Hs as [Hc _].
    destruct c as [[] [] [] [] [] [] [] []]; try reflexivity; discriminate.
  - clear -Hs. induction s as [| c t IH]; [done |]. cbn [all_chars] in *.
    apply andb_true_iff in Hs as [Hc Ht]. rewrite IH by done.
    rewrite andb_true_r.
    destruct c as [[] [] [] [] [] [] [] []]; try reflexivity; discriminate.
Qed.

(** [int(str(z))] is [z]. *)
Lemma py_int_str_str_int z : py_int_str (str_int z) = Some z.
Proof.
  unfold str_int. destruct (Z.ltb_spec z 0) as [Hneg | Hpos].
  - unfold py_int_str. rewrite int_strip_no_space.
    + str_simpl. rewrite digits_value_str_nat by lia. simpl. f_equal. lia.
    + pose proof (str_int_no_int_space z) as H. unfold str_int in H.
      apply Z.ltb_lt in Hneg. by rewrite Hneg in H.
  - rewrite py_int_str_unsigned by apply str_nat_digits.
    by apply digits_value_str_nat.
Qed.

(** A text without the first character of [sep] does not contain [sep]. *)
Lemma partition_at_no_first c0 sep s :
  all_chars (λ c, negb (Ascii.eqb c0 c)) s = true ->
  partition_at (String c0 sep) s = None.
Proof.
  induction s as [| c s IH]; [done |]. cbn [all_chars].
  intros [Hc Hs]%andb_true_iff. apply negb_true_iff in Hc.
  rewrite partition_at_cons, prefix_cons, Hc. cbn [andb].
  by rewrite IH.
Qed.

Lemma partition_at_str_int sep z :
  partition_at (String "I" sep) (str_int z) = None.
Proof.
  apply partition_at_no_first.
  apply (all_chars_str_int (λ c, negb (Ascii.eqb "I" c))); [| done].
  by apply (digit_char_cases (λ c, negb (Ascii.eqb "I" c))).
Qed.

(** No occurrence of ["ID:"] starts in a text without it and ends in an
    ["ID:"] that follows the text. *)
Lemma partition_at_id_field head rest :
  partition_at "ID:" head = None ->
  partition_at "ID:" (head +:+ "ID:" +:+ rest) = Some (head, rest).
Proof.
  induction head as [| c h IH].
  { intros _. rewrite append_nil_l.
    change ("ID:" +:+ rest) with (String "I" ("D:" +:+ rest)).
    rewrite partition_at_cons.
    change (String "I" ("D:" +:+ rest)) with ("ID:" +:+ rest).
    by rewrite prefix_append_self, drop_chars_append. }
  rewrite partition_at_cons.
  destruct (String.prefix "ID:" (String c h)) eqn:Hp; [done |].
  destruct (partition_at "ID:" h) as [[a b] |] eqn:Hh; [done |].
  intros _. rewrite append_cons, partition_at_cons, IH by done.
  replace (String.prefix "ID:" (String c (h +:+ "ID:" +:+ rest))) with false;
    [done |].
  symmetry. destruct h as [| c1 [| c2 h]]; str_simpl.
  - rewrite !prefix_cons. by rewrite andb_false_r.
  - rewrite !prefix_cons. by rewrite !andb_false_r.
  - rewrite !prefix_cons, !prefix_nil in *. exact Hp.
Qed.

Lemma contains_false sep s : contains sep s = false -> partition_at sep s = None.
Proof. unfold contains. by destruct (partition_at sep s). Qed.

Lemma contains_true sep s :
  contains sep s = true -> exists a b, partition_at sep s = Some (a, b).
Proof.
  unfold contains. destruct (partition_at sep s) as [[a b] |]; [eauto | done].
Qed.

(** The id field of a line is read back when ["ID:"] does not occur
    before it. *)
Lemma selected_id_field head z :
  contains "ID:" head = false ->
  selected_id (head +:+ "ID:" +:+ str_int z) = Some z.
Proof.
  intros Hhead%contains_false. unfold selected_id.
  rewrite py_split_unfold, (partition_at_id_field _ _ Hhead) by done.
  rewrite py_split_unfold, partition_at_str_int by done.
  rewrite strip_no_space by apply str_int_no_space.
  apply py_int_str_str_int.
Qed.

(** When ["ID:"] occurs before the id field, what is read does not depend
    on the id field. *)
Lemma selected_id_shadowed head x y :
  contains "ID:" head = true ->
  selected_id (head +:+ "ID:" +:+ x) = selected_id (head +:+ "ID:" +:+ y).
Proof.
  intros (a & b & Hab)%contains_true.
  destruct (partition_at_append_sep "ID:" b) as (q & r & Hqr).
  assert (H : forall t,
             selected_id (head +:+ "ID:" +:+ t) = py_int_str (strip q)).
  { intros t. unfold selected_id.
    rewrite py_split_unfold by done.
    rewrite (partition_at_append _ _ ("ID:" +:+ t) _ _ Hab).
    rewrite py_split_unfold by done.
    rewrite <- append_assoc, (partition_at_append _ _ t _ _ Hqr).
    reflexivity. }
  by rewrite !H.
Qed.

(** ** The list of reminders and the selected line *)

Lemma listbox_line_active env marks (d : dict) act head rid :
  d !! "active" = Some act -> truthy act = true ->
  line_head env marks (VDict d) = Return head ->
  d !! "id" = Some rid ->
  listbox_line env marks (VDict d)
  = Return (Some (head +:+ "ID:" +:+ format_value env rid)).
Proof.
  intros Hact Htruthy Hhead Hid. unfold listbox_line, getitem.
  by rewrite Hact, Htruthy, Hhead, Hid.
Qed.

Lemma listbox_line_text env marks r text :
  listbox_line env marks r = Return (Some text) ->
  exists head rid,
    line_head env marks r = Return head
    /\ getitem r "id" = Return rid
    /\ text = head +:+ "ID:" +:+ format_value env rid.
Proof.
  unfold listbox_line. destruct (getitem r "active") as [act |]; [| done].
  destruct (truthy act); [| done].
  destruct (line_head env marks r) as [head |]; [| done].
  destruct (getitem r "id") as [rid |]; [| done].
  intros [= <-]. eauto.
Qed.

(** X7. The line of an active reminder whose id is the integer [z], and
    whose text before the id field does not contain ["ID:"], is read back
    as [z]: with that line selected, "Delete" deletes the id [z] and
    "Edit" edits the reminder of id [z]. *)
Theorem selected_line_names_its_reminder (env : Env) (marks : list_marks)
    (d : dict) (act : value) (head : string) (z : Z)
    (Hact : d !! "active" = Some act)
    (Htruthy : truthy act = true)
    (Hhead : line_head env marks (VDict d) = Return head)
    (Hclean : contains "ID:" head = false)
    (Hid : d !! "id" = Some (VInt z)) :
  exists text,
    listbox_line env marks (VDict d) = Return (Some text)
    /\ selected_id text = Some z
    /\ (forall st,
          delete_reminder_selected (Some text) st = delete_reminder z st)
    /\ (forall remove_voice action st,
          edit_reminder_selected (Some text) remove_voice action st
          = edit_reminder z remove_voice action st).
Proof.
  exists (head +:+ "ID:" +:+ str_int z).
  pose proof (selected_id_field head z Hclean) as Hsel.
  split; [by apply (listbox_line_active env marks d act head (VInt z)) |].
  split; [exact Hsel |].
  unfold delete_reminder_selected, edit_reminder_selected.
  rewrite Hsel. done.
Qed.

Lemma selected_line_names_its_reminder_witness :
  exists text,
    listbox_line env_ok marks_ascii (VDict reminder_call_bob)
    = Return (Some text)
    /\ selected_id text = Some 1717252200000.
Proof.
  destruct (selected_line_names_its_reminder env_ok marks_ascii
              reminder_call_bob (VBool true)
              "(-)  Call Bob | 2024-06-01 2:30 PM | " 1717252200000)
    as (text & Hline & Hsel & _);
    [reflexivity | reflexivity | reflexivity | reflexivity | reflexivity |].
  by exists text.
Defined.

(** X8. When the text before the id field contains ["ID:"] (in the
    title, for one), the id read from the selected line does not come
    from the id field: two reminders that differ in their id only give
    lines that are read as the same id, so "Delete" and "Edit" act alike
    on both lines. *)
Theorem selected_id_ignores_id_field (env : Env) (marks : list_marks)
    (r1 r2 : value) (head text1 text2 : string)
    (Hhead1 : line_head env marks r1 = Return head)
    (Hhead2 : line_head env marks r2 = Return head)
    (Hshadow : contains "ID:" head = true)
    (Hline1 : listbox_line env marks r1 = Return (Some text1))
    (Hline2 : listbox_line env marks r2 = Return (Some text2)) :
  selected_id text1 = selected_id text2
  /\ (forall st,
        delete_reminder_selected (Some text1) st
        = delete_reminder_selected (Some text2) st)
  /\ (forall remove_voice action st,
        edit_reminder_selected (Some text1) remove_voice action st
        = edit_reminder_selected (Some text2) remove_voice action st).
Proof.
  apply listbox_line_text in Hline1 as (h1 & id1 & Hh1 & _ & ->).
  apply listbox_line_text in Hline2 as (h2 & id2 & Hh2 & _ & ->).
  rewrite Hhead1 in Hh1. injection Hh1 as <-.
  rewrite Hhead2 in Hh2. injection Hh2 as <-.
  pose proof (selected_id_shadowed head (format_value env id1)
                (format_value env id2) Hshadow) as Hsel.
  split; [exact Hsel |].
  unfold delete_reminder_selected, edit_reminder_selected.
  by rewrite Hsel.
Qed.

Lemma selected_id_ignores_id_field_witness :
  selected_id "(-)  Renew ID:7ID: card | 2024-06-01 2:30 PM | ID:1"
  = selected_id "(-)  Renew ID:7ID: card | 2024-06-01 2:30 PM | ID:2"
  /\ selected_id "(-)  Renew ID:7ID: card | 2024-06-01 2:30 PM | ID:2"
     = Some 7.
Proof.
  destruct (selected_id_ignores_id_field env_ok marks_ascii
              (VDict (reminder_shadowed 1)) (VDict (reminder_shadowed 2))
              "(-)  Renew ID:7ID: card | 2024-06-01 2:30 PM | "
              "(-)  Renew ID:7ID: card | 2024-06-01 2:30 PM | ID:1"
              "(-)  Renew ID:7ID: card | 2024-06-01 2:30 PM | ID:2")
    as [Hsel _];
    [reflexivity | reflexivity | reflexivity | reflexivity | reflexivity |].
  split; [exact Hsel | reflexivity].
Defined.

(** ** The line of a reminder added through the form *)

Lemma all_chars_append p (a b : string) :
  all_chars p (a +:+ b) = all_chars p a && all_chars p b.
Proof.
  induction a as [| x a IH]; str_simpl; cbn [all_chars]; [done |].
  by rewrite IH, andb_assoc.
Qed.

Lemma all_chars_zeros p k : p "0"%char = true -> all_chars p (zeros k) = true.
Proof. intros H. induction k as [| k IH]; cbn; [done | by rewrite H]. Qed.

Lemma all_chars_format_0d p w z :
  (forall d, 0 <= d < 10 -> p (digit_char d) = true) ->
  p "-"%char = true ->
  all_chars p (format_0d w z) = true.
Proof.
  intros Hp Hminus.
  assert (Hnat : forall n, all_chars p (str_nat n) = true).
  { intros n. unfold str_nat. by apply all_chars_decimal. }
  assert (H0 : p "0"%char = true) by (apply (Hp 0); lia).
  unfold format_0d, zfill.
  destruct (z <? 0); rewrite ?append_cons, ?append_nil_l; cbn [all_chars];
    rewrite ?Hminus, all_chars_append, all_chars_zeros, Hnat; done.
Qed.

(** A text without the letter I does not contain ["ID:"]. *)
Lemma no_id_not_I s : all_chars not_I s = true -> contains "ID:" s = false.
Proof.
  intros H. unfold contains. by rewrite (partition_at_no_first "I" "D:" s).
Qed.

Lemma not_I_digits d : 0 <= d < 10 -> not_I (digit_char d) = true.
Proof. by apply (digit_char_cases not_I). Qed.

(** Two texts without ["ID:"], put together with a space between them,
    make a text without ["ID:"]. *)
Lemma no_id_append_space a b :
  contains "ID:" a = false -> contains "ID:" b = false ->
  contains "ID:" (a +:+ String " " b) = false.
Proof.
  unfold contains. intros Ha Hb.
  destruct (partition_at "ID:" b) eqn:Eb; [done |]. clear Hb.
  induction a as [| c a IH]; str_simpl.
  - rewrite partition_at_cons, prefix_cons. cbn [Ascii.eqb andb].
    simpl. by rewrite Eb.
  - rewrite partition_at_cons in Ha |- *.
    destruct (String.prefix "ID:" (String c a)) eqn:Hp; [done |].
    destruct (partition_at "ID:" a) as [[x y] |] eqn:E; [done |].
    replace (String.prefix "ID:" (String c (a +:+ String " " b))) with false.
    + by destruct (partition_at "ID:" (a +:+ String " " b)) as [[x y] |];
        [discriminate (IH eq_refl) |].
    + symmetry. destruct a as [| c1 [| c2 a]]; str_simpl.
      * rewrite !prefix_cons. by rewrite andb_false_r.
      * rewrite !prefix_cons. by rewrite !andb_false_r.
      * rewrite !prefix_cons, !prefix_nil in *. exact Hp.
Qed.

(** A time ["HH:MM"] is read back as its hour and the text of its
    minute. *)
Lemma split_time_hhmm h m :
  0 <= h < 24 -> 0 <= m < 60 ->
  split_time (Return (VStr (hhmm h m))) = Some (h, two_digits m).
Proof.
  intros Hh Hm.
  assert (Hall :
    forallb (λ h, forallb (λ m,
      match split_time (Return (VStr (hhmm h m))) with
      | Some (h', s) => (h' =? h) && String.eqb s (two_digits m)
      | None => false
      end) (seqZ 0 60)) (seqZ 0 24) = true) by (vm_compute; reflexivity).
  rewrite forallb_forall in Hall.
  assert (Hin : In h (seqZ 0 24)) by (apply list_elem_of_In, elem_of_seqZ; lia).
  specialize (Hall h Hin). rewrite forallb_forall in Hall.
  assert (Hin' : In m (seqZ 0 60))
    by (apply list_elem_of_In, elem_of_seqZ; lia).
  specialize (Hall m Hin').
  destruct (split_time (Return (VStr (hhmm h m)))) as [[h' s] |]; [| done].
  apply andb_true_iff in Hall as [->%Z.eqb_eq ->%String.eqb_eq]. done.
Qed.


(** The 12-hour reading of the hour of the day a form denotes is the
    reading of the form. *)
Lemma hour12_hour24 h a :
  1 <= h <= 12 -> a = "AM" \/ a = "PM" ->
  hour12 (hour24 h a) = h /\ meridiem (hour24 h a) = a.
Proof.
  intros Hh Ha.
  assert (Hcases : h = 1 \/ h = 2 \/ h = 3 \/ h = 4 \/ h = 5 \/ h = 6 \/ h = 7
                   \/ h = 8 \/ h = 9 \/ h = 10 \/ h = 11 \/ h = 12) by lia.
  destruct Ha as [-> | ->];
    repeat (destruct Hcases as [-> | Hcases]); try subst h; by vm_compute.
Qed.

Lemma time_display_form env (d : dict) h m a :
  1 <= h <= 12 -> 0 <= m <= 59 -> a = "AM" \/ a = "PM" ->
  d !! "time" = Some (VStr (get_24hour_time h m a)) ->
  time_display env (VDict d)
  = Return (str_int h +:+ ":" +:+ two_digits m +:+ " " +:+ a).
Proof.
  intros Hh Hm Ha Ht.
  destruct (get_24hour_time_hhmm h m a Hh Hm Ha) as [H24 E24].
  destruct (hour12_hour24 h a Hh Ha) as [E12 Emer].
  unfold time_display, getitem. rewrite Ht, E24.
  rewrite split_time_hhmm by lia. by rewrite E12, Emer.
Qed.

Lemma no_id_cons c s :
  not_I c = true -> contains "ID:" s = false ->
  contains "ID:" (String c s) = false.
Proof.
  unfold contains, not_I. intros Hc%negb_true_iff Hs.
  rewrite partition_at_cons, prefix_cons, Hc. cbn [andb].
  by destruct (partition_at "ID:" s).
Qed.

Lemma no_id_strftime_date dt : contains "ID:" (strftime_date dt) = false.
Proof.
  apply no_id_not_I. unfold strftime_date, strftime_ymd.
  rewrite !all_chars_append.
  rewrite !(all_chars_format_0d not_I) by (apply not_I_digits || done).
  done.
Qed.

Lemma no_id_time_12h h m a :
  0 <= m <= 59 -> a = "AM" \/ a = "PM" ->
  contains "ID:" (str_int h +:+ ":" +:+ two_digits m +:+ " " +:+ a) = false.
Proof.
  intros Hm59 Ha. apply no_id_not_I. rewrite !all_chars_append.
  rewrite (all_chars_str_int not_I) by (apply not_I_digits || done).
  assert (Hm : all_chars not_I (two_digits m) = true).
  { unfold two_digits. cbn [all_chars]. rewrite !not_I_digits by div_lia. done. }
  rewrite Hm. by destruct Ha as [-> | ->].
Qed.

(** The text of the line of a reminder built from the form [f]. *)
Lemma line_head_form env marks (d : dict) (f : add_form) pending :
  1 <= hour_var f <= 12 -> 0 <= minute_var f <= 59 ->
  ampm_var f = "AM" \/ ampm_var f = "PM" ->
  d !! "title" = Some (VStr (strip (reminder_title f))) ->
  d !! "date" = Some (VStr (strftime_date (reminder_date f))) ->
  d !! "time"
  = Some (VStr (get_24hour_time (hour_var f) (minute_var f) (ampm_var f))) ->
  d !! "priority" = Some (VStr (reminder_priority f)) ->
  d !! "voice_note" = (if truthy pending then Some pending else None) ->
  line_head env marks (VDict d)
  = Return ((if String.eqb (reminder_priority f) "urgent"
             then mark_urgent marks else mark_normal marks)
            +:+ " " +:+ (if truthy pending then mark_voice marks else "")
            +:+ " " +:+ strip (reminder_title f)
            +:+ " | " +:+ strftime_date (reminder_date f)
            +:+ " " +:+ (str_int (hour_var f) +:+ ":"
                         +:+ two_digits (minute_var f) +:+ " " +:+ ampm_var f)
            +:+ " | ").
Proof.
  intros Hh Hm Ha Htitle Hdate Htime Hprio Hvoice.
  unfold line_head, getitem, get_default.
  rewrite Hprio, Hvoice, Htitle, Hdate.
  rewrite (time_display_form env d _ _ _ Hh Hm Ha Htime).
  cbn [eq_str format_value].
  by destruct (truthy pending) eqn:Hp; cbv [from_option id]; rewrite ?Hp.
Qed.

Lemma refresh_lines_cons env marks r rest :
  refresh_lines env marks (r :: rest)
  = match listbox_line env marks r with
    | Raise e => ([], Raise e)
    | Return None => refresh_lines env marks rest
    | Return (Some text) =>
        let (lines, o) := refresh_lines env marks rest in (text :: lines, o)
    end.
Proof. reflexivity. Qed.

Lemma refresh_lines_app env marks l1 l2 :
  refresh_lines env marks (l1 ++ l2)
  = match refresh_lines env marks l1 with
    | (lines1, Return _) =>
        let (lines2, o) := refresh_lines env marks l2 in (lines1 ++ lines2, o)
    | (lines1, Raise e) => (lines1, Raise e)
    end.
Proof.
  induction l1 as [| r l1 IH].
  - cbn. by destruct (refresh_lines env marks l2).
  - rewrite <- app_comm_cons, !refresh_lines_cons.
    destruct (listbox_line env marks r) as [[text |] | e]; [| done | done].
    rewrite IH.
    destruct (refresh_lines env marks l1) as [lines1 [[] | e]]; [| done].
    by destruct (refresh_lines env marks l2).
Qed.

(** X9. A reminder added through the form (a date from the year 1000
    on, an hour in 1..12, a minute in 0..59, AM or PM) gets a line that shows the mark of its priority, the
    mark of a voice note if one was pending, the stripped title, the
    date, and the time in the 12-hour reading the user entered, followed
    by the id.  When neither the marks nor the title contain ["ID:"], the
    id read back from that line is the id of the reminder.  In the
    refreshed list the line comes after the lines of the older reminders
    when their refresh raises no exception; when an older entry makes the
    refresh raise, the list stops there and the new line is not in it. *)
Theorem added_reminder_line (f : add_form) (now_ms : Z)
    (st : ReminderApp) (rs : list value) (env : Env) (marks : list_marks)
    (Hrs : reminders st = VList rs)
    (Htitle : strip (reminder_title f) <> "")
    (Hdate : valid_date (d_year (reminder_date f)) (d_month (reminder_date f))
               (d_day (reminder_date f)) = true)
    (Hyear : 1000 <= d_year (reminder_date f))
    (Hhour : 1 <= hour_var f <= 12)
    (Hminute : 0 <= minute_var f <= 59)
    (Hampm : ampm_var f = "AM" \/ ampm_var f = "PM")
    (Hmarks : contains "ID:" (mark_urgent marks) = false
              /\ contains "ID:" (mark_normal marks) = false
              /\ contains "ID:" (mark_voice marks) = false)
    (Hclean : contains "ID:" (strip (reminder_title f)) = false) :
  exists d : dict,
    reminders (run_op (OpAdd f now_ms) st) = VList (rs ++ [VDict d])
    /\ let text :=
         (if String.eqb (reminder_priority f) "urgent"
          then mark_urgent marks else mark_normal marks)
         +:+ " "
         +:+ (if truthy (pending_voice_note st) then mark_voice marks else "")
         +:+ " " +:+ strip (reminder_title f)
         +:+ " | " +:+ strftime_date (reminder_date f)
         +:+ " " +:+ (str_int (hour_var f) +:+ ":"
                      +:+ two_digits (minute_var f) +:+ " " +:+ ampm_var f)
         +:+ " | " +:+ "ID:" +:+ str_int now_ms in
       listbox_line env marks (VDict d) = Return (Some text)
       /\ selected_id text = Some now_ms
       /\ refresh_reminders_list env marks (run_op (OpAdd f now_ms) st)
          = match refresh_lines env marks rs with
            | (lines, Return _) => (lines ++ [text], Return tt)
            | (lines, Raise e) => (lines, Raise e)
            end.
Proof.
  destruct (add_reminder_gui_fields f now_ms st rs Hrs Htitle)
    as (d & E & Hid & Ht & _ & Hda & Hti & Hpr & Hact & Hv).
  exists d.
  assert (Hst : reminders (run_op (OpAdd f now_ms) st)
                = VList (rs ++ [VDict d]))
    by (by cbn [run_op]; rewrite E).
  split; [exact Hst |].
  pose proof (line_head_form env marks d f (pending_voice_note st)
                Hhour Hminute Hampm Ht Hda Hti Hpr Hv) as Hhead.
  set (head := _ +:+ _) in Hhead.
  assert (Hno : contains "ID:" head = false).
  { destruct Hmarks as (Hu & Hn & Hvm). subst head. str_simpl.
    apply no_id_append_space;
      [by destruct (String.eqb (reminder_priority f) "urgent") |].
    apply no_id_append_space;
      [by destruct (truthy (pending_voice_note st)) |].
    apply no_id_append_space; [done |].
    apply no_id_cons; [done |].
    apply no_id_cons; [done |].
    apply no_id_append_space; [apply no_id_strftime_date |].
    apply no_id_append_space; [by apply no_id_time_12h | done]. }
  intros text.
  assert (Etext : text = head +:+ "ID:" +:+ str_int now_ms).
  { subst text head. by rewrite !append_assoc. }
  rewrite Etext.
  assert (Hline : listbox_line env marks (VDict d)
                  = Return (Some (head +:+ "ID:" +:+ str_int now_ms)))
    by (by apply (listbox_line_active env marks d (VBool true) head
                    (VInt now_ms))).
  split; [exact Hline |]. split; [by apply selected_id_field |].
  unfold refresh_reminders_list. rewrite Hst. cbn [py_iter].
  rewrite refresh_lines_app, refresh_lines_cons, Hline. cbn [refresh_lines].
  by destruct (refresh_lines env marks rs) as [lines [[] | e]].
Qed.

Lemma added_reminder_line_witness :
  exists d : dict,
    reminders (run_op (OpAdd form_call_bob 1717252200000) app_empty)
    = VList [VDict d]
    /\ listbox_line env_ok marks_ascii (VDict d)
       = Return (Some "(-)  Call Bob | 2024-06-01 2:30 PM | ID:1717252200000")
    /\ selected_id "(-)  Call Bob | 2024-06-01 2:30 PM | ID:1717252200000"
       = Some 1717252200000
    /\ refresh_reminders_list env_ok marks_ascii
         (run_op (OpAdd form_call_bob 1717252200000) app_empty)
       = (["(-)  Call Bob | 2024-06-01 2:30 PM | ID:1717252200000"],
          Return tt).
Proof.
  destruct (added_reminder_line form_call_bob 1717252200000 app_empty []
              env_ok marks_ascii eq_refl)
    as (d & Hr & Hline & Hsel & Hlist);
    [discriminate | reflexivity | simpl; lia | simpl; lia | simpl; lia
    | by right | repeat split; reflexivity | reflexivity |].
  exists d. split; [exact Hr |]. split; [exact Hline |].
  split; [exact Hsel | exact Hlist].
Defined.

(** ** The time fields of the edit dialog *)





(** ** The list after a turn of the monitor loop *)

Lemma listbox_line_inactive env marks (d : dict) :
  listbox_line env marks (VDict (<["active" := VBool false]> d)) = Return None.
Proof. unfold listbox_line, getitem. by rewrite lookup_insert_eq. Qed.

Lemma refresh_lines_scanned env marks t rs :
  raised (scan_entries (tick_verdict t) rs) = None ->
  refresh_lines env marks (scanned (scan_entries (tick_verdict t) rs))
  = refresh_lines env marks (filter (λ r, fired t r = false) rs).
Proof.
  induction rs as [| r rs IH]; [reflexivity |].
  cbn [scan_entries]. unfold fired at 1.
  destruct (tick_verdict t r) as [| a r' | e] eqn:E; cbn [scanned raised];
    [| | discriminate]; intros Hr.
  - rewrite filter_cons_True by (unfold fired; by rewrite E).
    by rewrite !refresh_lines_cons, (IH Hr).
  - rewrite filter_cons_False by (unfold fired; by rewrite E).
    apply reminder_verdict_fire in E as (d & -> & -> & _).
    by rewrite refresh_lines_cons, listbox_line_inactive, (IH Hr).
Qed.

(** X11. After a turn of the monitor loop in which no reminder raises an
    exception, the store still holds as many reminders as before, under
    the same ids, but a refresh of the list shows the lines of the
    reminders that did not fire only: a reminder that has fired has no
    line to select any more. *)
Theorem fired_reminders_leave_the_list (t : tick) (st : ReminderApp)
    (rs : list value) (env : Env) (marks : list_marks)
    (Hrs : reminders st = VList rs)
    (Hquiet : raised (scan_entries (tick_verdict t) rs) = None) :
  exists rs',
    reminders (monitor_step t st).2 = VList rs'
    /\ entry_id <$> rs' = entry_id <$> rs
    /\ refresh_reminders_list env marks (monitor_step t st).2
       = refresh_lines env marks (filter (λ r, fired t r = false) rs).
Proof.
  exists (scanned (scan_entries (tick_verdict t) rs)).
  pose proof (monitor_step_reminders t st rs Hrs) as Hst.
  fold (tick_verdict t) in Hst.
  split; [exact Hst |]. split; [apply scan_reminders_ids |].
  unfold refresh_reminders_list. rewrite Hst. cbn [py_iter].
  by apply refresh_lines_scanned.
Qed.

Lemma fired_reminders_leave_the_list_witness :
  exists rs',
    reminders (monitor_step (tick_1430 env_ok) app_call_bob).2 = VList rs'
    /\ entry_id <$> rs' = [Some 1717252200000]
    /\ refresh_reminders_list env_ok marks_ascii
         (monitor_step (tick_1430 env_ok) app_call_bob).2
       = ([], Return tt).
Proof.
  destruct (fired_reminders_leave_the_list (tick_1430 env_ok) app_call_bob
              [VDict reminder_call_bob] env_ok marks_ascii)
    as (rs' & Hst & Hids & Hlist); [reflexivity | reflexivity |].
  exists rs'. split; [exact Hst |]. split; [exact Hids | exact Hlist].
Defined.

(** ** Screens *)

Lemma screen_info_geometry idx m : has_geometry (screen_info idx m).
Proof.
  unfold has_geometry, screen_info. eexists _, _, _, _, _.
  split; [reflexivity |]. repeat split; lookup_fields.
Qed.

Lemma screen_infos_geometry ms : forall idx,
  Forall has_geometry (screen_infos idx ms).
Proof.
  induction ms as [| m ms IH]; intros idx; constructor;
    [apply screen_info_geometry | apply IH].
Qed.

Lemma screen_infos_lookup ms : forall idx (k : nat) m,
  ms !! k = Some m ->
  screen_infos idx ms !! k = Some (screen_info (idx + Z.of_nat k) m).
Proof.
  induction ms as [| m0 ms IH]; intros idx k m; [done |].
  destruct k as [| k]; cbn [screen_infos].
  - intros [= ->]. cbn. by rewrite Z.add_0_r.
  - intros Hk.
    change ((screen_info idx m0 :: screen_infos (idx + 1) ms) !! S k)
      with (screen_infos (idx + 1) ms !! k).
    rewrite (IH (idx + 1) k m Hk). do 2 f_equal. lia.
Qed.

Lemma screen_infos_length ms : forall idx,
  length (screen_infos idx ms) = length ms.
Proof.
  induction ms as [| m ms IH]; intros idx; cbn; [done | by rewrite IH].
Qed.

Lemma detect_screens_detected m ms :
  detect_screens (Some (m :: ms)) = screen_infos 0 (m :: ms).
Proof. reflexivity. Qed.

Lemma detect_screens_geometry detected :
  detect_screens detected <> [] /\ Forall has_geometry (detect_screens detected).
Proof.
  assert (Hdefault : has_geometry default_screen).
  { unfold has_geometry, default_screen. eexists _, _, _, _, _.
    split; [reflexivity |]. repeat split; lookup_fields. }
  destruct detected as [[| m ms] |]; cbn.
  - split; [done | by constructor].
  - split; [done |]. constructor;
      [apply screen_info_geometry | apply screen_infos_geometry].
  - split; [done | by constructor].
Qed.

Lemma first_primary_geometry screens :
  Forall has_geometry screens ->
  first_primary screens = Return None
  \/ exists s, first_primary screens = Return (Some s) /\ s ∈ screens.
Proof.
  induction 1 as [| s screens Hs _ IH]; [by left |].
  destruct Hs as (d & x & y & w & h & -> & _ & _ & _ & _ & [p Hp]).
  cbn [first_primary getitem]. rewrite Hp.
  destruct (truthy p).
  - right. eexists. split; [reflexivity | left].
  - destruct IH as [-> | (s & -> & Hin)]; [by left |].
    right. eexists. split; [reflexivity | by right].
Qed.

(** On screens with their keys, [get_primary_screen] returns one of
    them. *)
Lemma get_primary_screen_geometry screens :
  screens <> [] -> Forall has_geometry screens ->
  exists p, get_primary_screen screens = Return p /\ p ∈ screens.
Proof.
  intros Hne Hall. unfold get_primary_screen.
  destruct (first_primary_geometry screens Hall) as [-> | (s & -> & Hin)].
  - destruct screens as [| s screens]; [done |]. exists s. split; [done | left].
  - by exists s.
Qed.

Lemma py_index_elem l idx s : py_index l idx = Some s -> s ∈ l.
Proof.
  unfold py_index.
  destruct ((0 <=? idx) && (idx <? Z.of_nat (length l)));
    [by apply list_elem_of_lookup_2 |].
  destruct ((- Z.of_nat (length l) <=? idx) && (idx <? 0)); [| done].
  by apply list_elem_of_lookup_2.
Qed.

(** X12. Whatever monitors are detected, and whatever the setting
    [selected_screens] holds (any value a settings file can hold),
    [get_screens_to_show] returns without an exception at least one
    screen; each screen it returns is one of the detected screens and
    carries the integer position and size an alert window is placed
    with. *)
Theorem alert_always_has_a_screen (detected : option (list monitor))
    (selected_screens : value) :
  exists l,
    get_screens_to_show selected_screens (detect_screens detected) = Return l
    /\ l <> []
    /\ forall s, s ∈ l -> s ∈ detect_screens detected /\ has_geometry s.
Proof.
  destruct (detect_screens_geometry detected) as [Hne Hall].
  destruct (get_primary_screen_geometry _ Hne Hall) as (p & Hp & Hin).
  assert (Hmem : forall l : list value,
            (forall s, s ∈ l -> s ∈ detect_screens detected) ->
            forall s, s ∈ l -> s ∈ detect_screens detected /\ has_geometry s).
  { intros l Hl s Hs. split; [by apply Hl |].
    by apply (proj1 (Forall_forall _ _) Hall), Hl. }
  assert (Hprimary : forall s, s ∈ [p] -> s ∈ detect_screens detected).
  { by intros s ->%list_elem_of_singleton. }
  unfold get_screens_to_show. rewrite Hp.
  destruct (eq_str selected_screens "all");
    [exists (detect_screens detected); split; [done |]; split; [done |];
     by apply Hmem |].
  destruct (eq_str selected_screens "primary"); [by eauto |].
  destruct (py_int selected_screens) as [idx |]; [| by eauto].
  destruct (py_index (detect_screens detected) idx) as [s |] eqn:Hs;
    [| by eauto].
  exists [s]. split; [done |]. split; [done |]. apply Hmem.
  intros s' ->%list_elem_of_singleton. by apply py_index_elem in Hs.
Qed.

Lemma all_chars_neq p (s s' : string) :
  all_chars p s = true -> all_chars p s' = false -> String.eqb s s' = false.
Proof.
  intros Hs Hs'. apply String.eqb_neq. intros ->. congruence.
Qed.

Lemma str_int_not_word z (c : ascii) (w : string) :
  is_digit c = false -> c <> "-"%char ->
  String.eqb (str_int z) (String c w) = false.
Proof.
  intros Hd Hm.
  apply (all_chars_neq (λ x, negb (Ascii.eqb c x))).
  - apply (all_chars_str_int (λ x, negb (Ascii.eqb c x))).
    + intros d Hdr. apply negb_true_iff, Ascii.eqb_neq. intros ->.
      unfold is_digit in Hd. by rewrite digit_of_digit_char in Hd.
    + by apply negb_true_iff, Ascii.eqb_neq.
  - cbn [all_chars]. by rewrite Ascii.eqb_refl.
Qed.

Lemma py_index_nat l (k : nat) s :
  l !! k = Some s -> py_index l (Z.of_nat k) = Some s.
Proof.
  intros Hk. pose proof (lookup_lt_Some _ _ _ Hk) as Hlt. unfold py_index.
  replace ((0 <=? Z.of_nat k) && (Z.of_nat k <? Z.of_nat (length l)))
    with true
    by (symmetry; apply andb_true_iff; split;
        [apply Z.leb_le | apply Z.ltb_lt]; lia).
  by rewrite Nat2Z.id.
Qed.

Lemma py_index_beyond l (k : nat) :
  (length l <= k)%nat -> py_index l (Z.of_nat k) = None.
Proof.
  intros Hk. unfold py_index.
  replace (Z.of_nat k <? Z.of_nat (length l)) with false
    by (symmetry; apply Z.ltb_ge; lia).
  replace (Z.of_nat k <? 0) with false by (symmetry; apply Z.ltb_ge; lia).
  by rewrite !andb_false_r.
Qed.

(** X13. The radio button of the detected screen number [k] stores the
    text of its index, which is [k], in the setting.  With that setting an alert is shown on
    that screen only, as long as the monitor is detected; once fewer than
    [k + 1] monitors are detected, the alert is shown on the primary
    screen instead. *)
Theorem screen_radio_selects_its_screen (monitors : list monitor) (k : nat)
    (m : monitor) (Hk : monitors !! k = Some m) :
  let radio := VStr (str_int (Z.of_nat k)) in
  getitem (screen_info (Z.of_nat k) m) "index" = Return (VInt (Z.of_nat k))
  /\ get_screens_to_show radio (detect_screens (Some monitors))
     = Return [screen_info (Z.of_nat k) m]
  /\ forall fewer : option (list monitor),
       (length (detect_screens fewer) <= k)%nat ->
       exists p,
         get_primary_screen (detect_screens fewer) = Return p
         /\ get_screens_to_show radio (detect_screens fewer) = Return [p].
Proof.
  intros radio.
  assert (Hall : eq_str radio "all" = false)
    by (by apply str_int_not_word).
  assert (Hprim : eq_str radio "primary" = false)
    by (by apply str_int_not_word).
  assert (Hint : py_int radio = Some (Z.of_nat k))
    by apply py_int_str_str_int.
  split; [| split].
  - reflexivity.
  - destruct monitors as [| m0 ms]; [done |].
    rewrite detect_screens_detected.
    pose proof (screen_infos_lookup _ 0 k m Hk) as Hs.
    rewrite Z.add_0_l in Hs.
    unfold get_screens_to_show. rewrite Hall, Hprim, Hint.
    by rewrite (py_index_nat _ _ _ Hs).
  - intros fewer Hlen.
    destruct (detect_screens_geometry fewer) as [Hne Hgeo].
    destruct (get_primary_screen_geometry _ Hne Hgeo) as (p & Hp & _).
    exists p. split; [exact Hp |].
    unfold get_screens_to_show. rewrite Hall, Hprim, Hint, Hp.
    by rewrite py_index_beyond.
Qed.

Lemma screen_radio_selects_its_screen_witness :
  get_screens_to_show (VStr "1") (detect_screens (Some two_monitors))
  = Return [screen_info 1
              {| m_x := 1920; m_y := 0; m_width := 2560; m_height := 1440;
                 m_is_primary := Some (VBool true) |}].
Proof.
  destruct (screen_radio_selects_its_screen two_monitors 1
              {| m_x := 1920; m_y := 0; m_width := 2560; m_height := 1440;
                 m_is_primary := Some (VBool true) |} eq_refl)
    as (_ & Hshow & _).
  exact Hshow.
Defined.

(** ** Settings *)

Lemma save_then_load_settings s :
  Settings_init (SETTINGS_FILE (save_settings s)) = save_settings s.
Proof.
  unfold Settings_init, load_settings, save_settings. cbn.
  unfold set_selected_screens, set_fullscreen_mode, set_custom_tone_path,
    set_SETTINGS_FILE. cbn. f_equal; lookup_fields.
Qed.

Lemma run_settings_op_cases o s :
  run_settings_op o s = s \/ exists s', run_settings_op o s = save_settings s'.
Proof.
  destruct o as [checked | file_path | choice]; cbn [run_settings_op].
  - right. by eexists.
  - unfold select_custom_tone. destruct (truthy (VStr file_path));
      [right; by eexists | by left].
  - right. by eexists.
Qed.

(** X14. The settings survive a restart: after any sequence of changes
    made in the settings tab (the full-screen check box, the choice of a
    tone, the choice of a screen), starting the program again from the
    settings file gives the same tone, mode and screen choice. *)
Theorem settings_survive_restart (ops : list settings_op)
    (file0 : data_file) :
  let s := foldl (λ s o, run_settings_op o s) (Settings_init file0) ops in
  Settings_init (SETTINGS_FILE s) = s.
Proof.
  cbv zeta.
  assert (Hinit : Settings_init (SETTINGS_FILE (Settings_init file0))
                  = Settings_init file0).
  { assert (Hfile : SETTINGS_FILE (Settings_init file0) = file0);
      [| by rewrite Hfile].
    unfold Settings_init, load_settings. cbn.
    destruct file0 as [| | doc]; [done | done |].
    destruct (get_default doc "custom_tone_path" VNone); [| done].
    destruct (get_default doc "fullscreen_mode" (VBool true)); [| done].
    by destruct (get_default doc "selected_screens" (VStr "all")). }
  revert Hinit. generalize (Settings_init file0).
  induction ops as [| o ops IH]; intros s Hs; [exact Hs |].
  cbn [foldl]. apply IH.
  destruct (run_settings_op_cases o s) as [-> | (s' & ->)];
    [exact Hs | apply save_then_load_settings].
Qed.

(** X15. The two variants of the program share one settings file.  The
    single-screen variant reads the file the multi-screen variant writes
    and finds the tone and the mode.  The multi-screen variant reads the
    file the single-screen variant writes and finds the tone and the
    mode, but always the screen choice ["all"]: a screen chosen in the
    multi-screen variant is forgotten once the single-screen variant has
    saved its settings. *)
Theorem settings_shared_between_variants (s : Settings) :
  let from_multi := Settings_init_single (SETTINGS_FILE (save_settings s)) in
  let from_single := Settings_init (SETTINGS_FILE (save_settings_single s)) in
  (custom_tone_path from_multi = custom_tone_path s
   /\ fullscreen_mode from_multi = fullscreen_mode s)
  /\ (custom_tone_path from_single = custom_tone_path s
      /\ fullscreen_mode from_single = fullscreen_mode s
      /\ selected_screens from_single = VStr "all").
Proof.
  cbv zeta. split.
  - unfold Settings_init_single, load_settings_single, save_settings. cbn.
    repeat split; lookup_fields.
  - unfold Settings_init, load_settings, save_settings_single. cbn.
    repeat split; lookup_fields.
Qed.

(** ** The alarm sound *)

(** X16. The sound of an alert.  A file is played in a loop only when the
    mixer is available and the file exists, and that file is the voice
    note of the alert when it has one, the custom tone otherwise.  The
    custom tone is no fallback for a voice note: when the alert has a
    voice note whose file does not exist, the terminal bell is heard,
    whatever the custom tone. *)
Theorem alert_sound_source (au : Audio) (s : Settings) (a : alert) :
  (forall p,
     alert_sound au s a = Loop p ->
     AUDIO_AVAILABLE au = true
     /\ truthy p = true
     /\ path_exists au p = Some true
     /\ p = (if truthy (alert_custom_voice a) then alert_custom_voice a
             else custom_tone_path s))
  /\ (truthy (alert_custom_voice a) = true ->
      path_exists au (alert_custom_voice a) <> Some true ->
      alert_sound au s a = Bell).
Proof.
  unfold alert_sound, play_alarm_sound. split.
  - intros p. destruct (AUDIO_AVAILABLE au); [| done]. cbn [negb].
    set (sound_path := if truthy (alert_custom_voice a) then _ else _).
    destruct (truthy sound_path) eqn:Ht; [| done].
    destruct (path_exists au sound_path) as [[|] |] eqn:He; try done.
    destruct (music_load au sound_path); [| done].
    destruct (music_play au sound_path); [| done].
    by intros [= <-].
  - intros Hvoice Hmissing. rewrite Hvoice.
    destruct (AUDIO_AVAILABLE au); [| done]. cbn [negb]. rewrite Hvoice.
    by destruct (path_exists au (alert_custom_voice a)) as [[|] |].
Qed.

Example alert_sound_example :
  let s := select_custom_tone "tone.mp3" (Settings_init Missing) in
  alert_sound audio_ok s (Alert (VStr "t") (VStr "m") (VInt 1) VNone)
  = Loop (VStr "tone.mp3")
  /\ alert_sound audio_ok s
       (Alert (VStr "t") (VStr "m") (VInt 1) (VStr "voice.wav"))
     = Loop (VStr "voice.wav")
  /\ alert_sound audio_ok s
       (Alert (VStr "t") (VStr "m") (VInt 1) (VStr "deleted.wav"))
     = Bell.
Proof. repeat split. Qed.

(** ** The edit dialog when something cannot be read *)

(** X17. When "Save" is pressed in the edit dialog of a reminder without
    a voice note, with a date from the year 1000 on in the date field,
    while the hour or the minute spin box holds no number,
    the save stops half way: the reminder in memory has the new title,
    description and date, it keeps its old time, priority and the rest,
    and nothing is written to the data file. *)
Theorem edit_save_stops_at_unreadable_time (reminder_id : Z)
    (st : ReminderApp) (rs : list value) (i : nat) (d : dict)
    (f : edit_form)
    (Hrs : reminders st = VList rs)
    (Hfound : find_by_id reminder_id 0 rs = Return (Some (i, VDict d)))
    (Htitle : is_Some (d !! "title"))
    (Hdesc : is_Some (d !! "description"))
    (Hvoice : d !! "voice_note" = None)
    (Hdate : valid_date (d_year (date_entry f)) (d_month (date_entry f))
               (d_day (date_entry f)) = true)
    (Hyear : 1000 <= d_year (date_entry f))
    (Hunreadable : edit_hour_var f = None \/ edit_minute_var f = None) :
  let st' := (edit_reminder reminder_id false (Some f) st).2 in
  reminders st'
  = VList (<[i := VDict
                    (<["date" := VStr (strftime_date (date_entry f))]>
                    (<["description" := VStr (strip (desc_entry f))]>
                    (<["title" := VStr (strip (title_entry f))]> d)))]> rs)
  /\ DATA_FILE st' = DATA_FILE st.
Proof.
  intros st'.
  assert (Hrun : edit_reminder reminder_id false (Some f) st
                 = (Return tt,
                    set_reminder i
                      (VDict
                         (<["date" := VStr (strftime_date (date_entry f))]>
                         (<["description" := VStr (strip (desc_entry f))]>
                         (<["title" := VStr (strip (title_entry f))]> d))))
                      st)).
  { unfold edit_reminder, try_except_pass, bind at 1, gets.
    unfold bind at 1, lift at 1. rewrite Hrs. simpl py_iter. cbv iota beta.
    unfold bind at 1, lift at 1. rewrite Hfound. cbv iota beta.
    destruct Htitle as [vt Ht], Hdesc as [vd Hd].
    assert (Hne : truthy (VDict d) = true).
    { simpl. apply negb_true_iff, bool_decide_eq_false. intros ->.
      by rewrite lookup_empty in Ht. }
    rewrite Hne.
    unfold show_edit_dialog, bind, lift, modify, ret. simpl getitem.
    rewrite Ht, Hd. unfold get_default. rewrite Hvoice.
    cbn [default from_option truthy String.eqb negb andb].
    unfold show_edit_dialog_save, bind, lift, modify, ret. cbn [setitem].
    destruct Hunreadable as [-> | ->]; [done |].
    by destruct (edit_hour_var f). }
  subst st'. rewrite Hrun. cbn [snd]. unfold set_reminder. by rewrite Hrs.
Qed.

Lemma edit_save_stops_at_unreadable_time_witness :
  let st' := (edit_reminder 1717252200000 false (Some form_hour_emptied)
                app_call_bob).2 in
  reminders st'
  = VList [VDict (<["date" := VStr "2024-06-02"]>
                 (<["description" := VStr ""]>
                 (<["title" := VStr "Call Bob tomorrow"]> reminder_call_bob)))]
  /\ DATA_FILE st' = Missing.
Proof.
  intros st'.
  destruct (edit_save_stops_at_unreadable_time 1717252200000 app_call_bob
              [VDict reminder_call_bob] 0 reminder_call_bob form_hour_emptied
              eq_refl eq_refl)
    as [Hst Hfile];
    [by eexists | by eexists | reflexivity | reflexivity | simpl; lia
    | by left |].
  split; [exact Hst | exact Hfile].
Defined.

(** X18. A reminder whose voice note is neither empty nor a string (it
    can only come from a data file written by hand) cannot be edited:
    the dialog fails while it is built, before any button exists, and
    whatever the user meant to do, nothing is changed. *)
Theorem edit_dialog_needs_a_path (reminder_id : Z) (st : ReminderApp)
    (rs : list value) (i : nat) (d : dict) (voice : value)
    (remove_voice : bool) (action : option edit_form)
    (Hrs : reminders st = VList rs)
    (Hfound : find_by_id reminder_id 0 rs = Return (Some (i, VDict d)))
    (Hvoice : d !! "voice_note" = Some voice)
    (Htruthy : truthy voice = true)
    (Hnot_path : forall p, voice <> VStr p) :
  edit_reminder reminder_id remove_voice action st = (Return tt, st).
Proof.
  unfold edit_reminder, try_except_pass, bind at 1, gets.
  unfold bind at 1, lift at 1. rewrite Hrs. simpl py_iter. cbv iota beta.
  unfold bind at 1, lift at 1. rewrite Hfound. cbv iota beta.
  destruct (truthy (VDict d)); [| done].
  unfold show_edit_dialog, bind, lift, modify, ret. simpl getitem.
  destruct (d !! "title"); [| done].
  destruct (d !! "description"); [| done].
  unfold get_default. rewrite Hvoice.
  change (default (VStr "") (Some voice)) with voice. rewrite Htruthy.
  destruct voice as [| | | p | |]; try done. by destruct (Hnot_path p).
Qed.

Lemma edit_dialog_needs_a_path_witness :
  let st := set_reminders (VList [VDict reminder_voice_number]) app_empty in
  edit_reminder 1717252200000 true (Some form_blank_title) st = (Return tt, st).
Proof.
  intros st.
  apply (edit_dialog_needs_a_path 1717252200000 st
           [VDict reminder_voice_number] 0 reminder_voice_number (VInt 5)
           true (Some form_blank_title));
    [reflexivity | reflexivity | reflexivity | reflexivity | discriminate].
Defined.
